(** * Attendance server: a shallow embedding of the Express handlers

    The repository holds four generations of one Express server:

    - [Nested]: [server.js], one [data.json] document whose attendance is
      keyed by subject and then by date; [loadData] always re-reads the file.
    - [Flat]: the first unnamed source, the same document with attendance
      keyed by date only; [loadData] answers from [dataCache] when it is set.
    - [DataDir]: the second unnamed source, two synchronous files under
      [data/], no date validation, and the metrics and ranking endpoints.
    - [Reread]: the third unnamed source, the flat schema with the
      [loadData], the item check and the enrichment of [server.js].

    Modelling conventions.
    - Strings are sequences of 8-bit code units.
    - Objects used as dictionaries are finite maps over their own
      properties.  A key that the object does not own is looked up on
      [Object.prototype], where the source finds the members of the host
      (["constructor"], ["__proto__"], ...) and what [server.js] assigned
      there; the lists that [server.js] leaves on these inherited objects
      are the [Realm] of its process.
    - A session handles its requests one after the other.  The handlers of
      the [data.json] variants are asynchronous; a request that arrives
      while another waits for the disk is not modelled.
    - The numbers of the metrics code are IEEE 754 doubles: quotients and
      products are those of [SpecFloat] at precision 53, and a result is
      kept as the rational it stands for.  A counter is an integer; no list
      is long enough (2^53 entries) for a counter of the source to lose
      precision.  A division by zero is reported as [None].
    - JSON values are typed: a document is an object, [students] a list of
      records with string fields, a request body an array of objects or
      something that is not an array.
    - [fs.writeFile] either replaces the file or fails and leaves it as it
      was; the outcome of each write is drawn from the [writes] oracle of
      the world.
    - The files under [data/] hold what the server wrote; whether a later
      [readFileSync] and [JSON.parse] of such a file go through is an input
      of [DataDir.loadData]. *)

From Stdlib Require Import Ascii String QArith Qround Qpower DecimalString OrderedTypeEx
  SpecFloat.
From stdpp Require Import base option list sorting gmap strings.

Local Open Scope Z_scope.

(** ** Strings *)

Definition isDigit (c : ascii) : bool :=
  let n := nat_of_ascii c in (48 <=? n)%nat && (n <=? 57)%nat.

(** [/^\d{4}-\d{2}-\d{2}$/.test(date)] *)
Definition dateRegex (date : string) : bool :=
  match list_ascii_of_string date with
  | [y1; y2; y3; y4; h1; m1; m2; h2; d1; d2] =>
      forallb isDigit [y1; y2; y3; y4; m1; m2; d1; d2]
      && Ascii.eqb h1 "-" && Ascii.eqb h2 "-"
  | _ => false
  end.

(** White space of [String.prototype.trim] in the 8-bit range. *)
Definition isWhiteSpace (c : ascii) : bool :=
  let n := nat_of_ascii c in
  ((9 <=? n)%nat && (n <=? 13)%nat) || (n =? 32)%nat || (n =? 160)%nat.

Fixpoint dropWhile {A} (p : A → bool) (l : list A) : list A :=
  match l with
  | [] => []
  | x :: l' => if p x then dropWhile p l' else l
  end.

Definition trim (s : string) : string :=
  let front := dropWhile isWhiteSpace (list_ascii_of_string s) in
  string_of_list_ascii (rev (dropWhile isWhiteSpace (rev front))).

(** Truthiness of an optional string field: [undefined] and [''] are falsy. *)
Definition truthy (field : option string) : option string :=
  match field with
  | Some s => if String.eqb s "" then None else Some s
  | None => None
  end.

(** [x || fallback] on an optional string. *)
Definition orElse (field : option string) (fallback : string) : string :=
  default fallback (truthy field).

Definition decimal (n : Z) : string := NilZero.string_of_uint (N.to_uint (Z.to_N n)).

(** ** Numbers *)

(** The double nearest to an integer, and the quotient and the product of
    two doubles, rounded to the nearest double, to the even one on a tie. *)
Definition toDouble (n : Z) : spec_float := binary_normalize 53 1024 n 0 false.
Definition doubleDiv (x y : spec_float) : spec_float := SFdiv 53 1024 x y.
Definition doubleMul (x y : spec_float) : spec_float := SFmul 53 1024 x y.

(** The number a double stands for.  [NaN] and the infinities stand for
    none; they are given 0, and the quotient of two counts and its
    hundredfold are never one of them. *)
Definition valueOf (x : spec_float) : Q :=
  match x with
  | S754_finite negative m e =>
      (inject_Z (if negative then Z.neg m else Z.pos m) * 2 ^ e)%Q
  | _ => 0%Q
  end.


(** [Number.prototype.toFixed(1)], given the number the double stands for:
    the closest tenth, the larger one on a tie. *)
Definition toFixed1 (x : Q) : string :=
  let tenths (y : Q) := Qfloor (y * (10 # 1) + (1 # 2)) in
  let digits (n : Z) := (decimal (n / 10) +:+ "." +:+ decimal (n mod 10))%string in
  if Qle_bool 0 x then digits (tenths x)
  else ("-" +:+ digits (tenths (Qopp x)))%string.

(** ** Collation

    [String.prototype.localeCompare] belongs to the host; the source relies
    on it being a consistent comparator, which is what [Array.prototype.sort]
    demands of its argument. *)
Class Collator := {
  localeCompare : string → string → comparison;
  localeCompare_antisym a b : localeCompare b a = CompOpp (localeCompare a b);
  localeCompare_trans a b c :
    localeCompare a b ≠ Gt → localeCompare b c ≠ Gt → localeCompare a c ≠ Gt;
}.

(** ** [Array.prototype.sort]

    The sort is stable; for a consistent comparator every stable sort
    returns the same array, so insertion from the right models it. *)
Section Sort.
Context {A : Type} (comparefn : A → A → comparison).

Fixpoint insertSorted (x : A) (l : list A) : list A :=
  match l with
  | [] => [x]
  | y :: l' =>
      match comparefn x y with
      | Gt => y :: insertSorted x l'
      | _ => x :: l
      end
  end.

Definition arraySort (l : list A) : list A := foldr insertSorted [] l.

Definition inOrder (x y : A) : Prop := comparefn x y ≠ Gt.
End Sort.

(** ** Property order of an ordinary object

    [Object.keys] lists array indices first, in ascending numeric order, then
    the other string keys in insertion order. *)
Definition digitValue (c : ascii) : Z := Z.of_nat (nat_of_ascii c) - 48.

Definition numericValue (s : string) : Z :=
  fold_left (λ acc c, 10 * acc + digitValue c) (list_ascii_of_string s) 0.

Definition isArrayIndex (s : string) : bool :=
  forallb isDigit (list_ascii_of_string s)
  && String.eqb (decimal (numericValue s)) s
  && (numericValue s <? 4294967295).

Definition ownKeyOrder {V} (props : list (string * V)) : list (string * V) :=
  arraySort (λ a b, numericValue a.1 ?= numericValue b.1)
            (filter (λ p, isArrayIndex p.1 = true) props)
  ++ filter (λ p, isArrayIndex p.1 ≠ true) props.

(** Assignment [obj[key] = value] on an insertion-ordered object. *)
Fixpoint setProp {V} (key : string) (value : V) (props : list (string * V))
  : list (string * V) :=
  match props with
  | [] => [(key, value)]
  | (k, v) :: rest =>
      if String.eqb k key then (k, value) :: rest
      else (k, v) :: setProp key value rest
  end.

Fixpoint getProp {V} (key : string) (props : list (string * V)) : option V :=
  match props with
  | [] => None
  | (k, v) :: rest => if String.eqb k key then Some v else getProp key rest
  end.

(** ** Inherited properties

    An object made by a literal or by [JSON.parse] inherits from
    [Object.prototype]: a key that the object does not own is looked up
    there.  The host defines these names on [Object.prototype]; each is a
    function, and ["__proto__"], the one name besides them, is the accessor
    of the prototype itself.  All of them are truthy. *)
Definition prototypeMethods : list string :=
  ["constructor"; "__defineGetter__"; "__defineSetter__"; "hasOwnProperty";
   "__lookupGetter__"; "__lookupSetter__"; "isPrototypeOf";
   "propertyIsEnumerable"; "toString"; "valueOf"; "toLocaleString"].

Definition isPrototypeMethod (key : string) : bool :=
  bool_decide (key ∈ prototypeMethods).

(** The key names a member of [Object.prototype]. *)
Definition inheritedName (key : string) : bool :=
  String.eqb key "__proto__" || isPrototypeMethod key.

(** The property list of an object literal keeps, under ["__proto__"], the
    object that an assignment [obj["__proto__"] = value] installed as the
    prototype: the assignment reaches the accessor and adds no property, and
    a later [obj["__proto__"]] reads that object back.  The properties of
    the literal are the other pairs. *)
Definition ownProperties {V} (props : list (string * V)) : list (string * V) :=
  filter (λ p, p.1 ≠ "__proto__"%string) props.

(** [obj[key] = value] on an object literal for a value that is a number:
    the accessor ignores what is not an object. *)
Definition setNumber {V} (key : string) (value : V) (props : list (string * V))
  : list (string * V) :=
  if String.eqb key "__proto__" then props else setProp key value props.

(** ** Data model *)

Record Student := mkStudent {
  roll_no : string;
  name : string;
  course : option string;
}.

(** An attendance entry as it travels through [...att]: the two checked
    fields, the [name] the server adds, and whatever else the client sent. *)
Record Entry := mkEntry {
  att_roll_no : option string;
  att_status : option string;
  att_name : option string;
  att_extra : list (string * string);
}.

Record Document (Att : Type) := mkDocument {
  students : list Student;
  attendance : Att;
}.
Arguments mkDocument {Att}.
Arguments students {Att}.
Arguments attendance {Att}.

(** What [fs.readFile] followed by [JSON.parse] can meet. *)
Inductive FileContent (Att : Type) :=
  | NoFile
  | ReadError
  | NotJson
  | JsonNull
  | JsonObject (studentsField : option (list Student)) (attendanceField : option Att).
Arguments NoFile {Att}.
Arguments ReadError {Att}.
Arguments NotJson {Att}.
Arguments JsonNull {Att}.
Arguments JsonObject {Att}.

Inductive FsEvent := ReadFile | WriteFile (ok : bool).

(** The process: a heap of document objects, the [dataCache] variable that
    points into it (or is [null]), the backing file, the outcomes of the
    writes still to come (none listed: the write succeeds) and the file
    system calls made so far. *)
Record World (Att : Type) := mkWorld {
  heap : list (Document Att);
  dataCache : option nat;
  file : FileContent Att;
  writes : list bool;
  trace : list FsEvent;
}.
Arguments mkWorld {Att}.
Arguments heap {Att}.
Arguments dataCache {Att}.
Arguments file {Att}.
Arguments writes {Att}.
Arguments trace {Att}.

Inductive Payload (Att : Type) :=
  | Message (text : string)
  | StudentRecord (s : Student)
  | StudentList (l : list Student)
  | EntryList (l : list Entry)
  | AttendanceMap (a : Att)
  | Printout (heading : list string) (presentStudents : list Entry) (totalStudents : nat).
Arguments Message {Att}.
Arguments StudentRecord {Att}.
Arguments StudentList {Att}.
Arguments EntryList {Att}.
Arguments AttendanceMap {Att}.
Arguments Printout {Att}.

Record Response (Att : Type) := mkResponse {
  status : nat;
  payload : Payload Att;
}.
Arguments mkResponse {Att}.
Arguments status {Att}.
Arguments payload {Att}.

(** A request body that should be an array. *)
Inductive Body :=
  | NotAnArray
  | ArrayOf (attendanceList : list Entry).

(** The outcome of the next write: the head of the oracle, success when the
    oracle is exhausted. *)
Definition nextOutcome (outcomes : list bool) : bool :=
  match outcomes with [] => true | outcome :: _ => outcome end.

(** ** Document store *)
Section Store.
Context {Att : Type} `{Empty Att}.
Implicit Types (w : World Att) (data : nat).

Definition emptyDocument : Document Att :=
  {| students := []; attendance := ∅ |}.

Definition deref w data : Document Att :=
  default emptyDocument (heap w !! data).

(** Mutation of the object behind a reference. *)
Definition mutate data (f : Document Att → Document Att) w : World Att :=
  {| heap := alter f data (heap w); dataCache := dataCache w;
     file := file w; writes := writes w; trace := trace w |}.

(** [dataCache = <fresh object>] *)
Definition cacheFresh (d : Document Att) w : nat * World Att :=
  (length (heap w),
   {| heap := heap w ++ [d]; dataCache := Some (length (heap w));
      file := file w; writes := writes w; trace := trace w |}).

Definition readFile w : FileContent Att * World Att :=
  (file w,
   {| heap := heap w; dataCache := dataCache w; file := file w;
      writes := writes w; trace := trace w ++ [ReadFile] |}).

Definition stringify (d : Document Att) : FileContent Att :=
  JsonObject (Some (students d)) (Some (attendance d)).

Definition writeFile (d : Document Att) w : bool * World Att :=
  let ok := nextOutcome (writes w) in
  (ok,
   {| heap := heap w; dataCache := dataCache w;
      file := if ok then stringify d else file w;
      writes := tail (writes w); trace := trace w ++ [WriteFile ok] |}).

(** [saveData(data)]: [true] when it returns, [false] when it throws. *)
Definition saveData data w : bool * World Att :=
  let '(ok, w1) := writeFile (deref w data) w in
  if ok then
    (true, {| heap := heap w1; dataCache := Some data; file := file w1;
              writes := writes w1; trace := trace w1 |})
  else (false, w1).

(** The document a parsed file stands for, missing parts filled in. *)
Definition backfill (studentsField : option (list Student))
    (attendanceField : option Att) : Document Att :=
  {| students := default [] studentsField;
     attendance := default ∅ attendanceField |}.

(** [loadData] of [server.js] (and of the third unnamed source). *)
Definition loadData w : nat * World Att :=
  let '(content, w1) := readFile w in
  match content with
  | JsonObject studentsField attendanceField =>
      cacheFresh (backfill studentsField attendanceField) w1
  | JsonNull | NotJson => cacheFresh emptyDocument w1
  | NoFile =>
      let '(data, w2) := cacheFresh emptyDocument w1 in
      (data, (saveData data w2).2)
  | ReadError => cacheFresh emptyDocument w1
  end.

(** [loadData] of the first unnamed source; [None] when it throws. *)
Definition loadDataCached w : option nat * World Att :=
  match dataCache w with
  | Some data => (Some data, w)
  | None =>
      let '(content, w1) := readFile w in
      match content with
      | JsonObject studentsField attendanceField =>
          let '(data, w2) := cacheFresh (backfill studentsField attendanceField) w1 in
          (Some data, w2)
      | JsonNull | NotJson | ReadError =>
          let '(data, w2) := cacheFresh emptyDocument w1 in (Some data, w2)
      | NoFile =>
          let '(data, w2) := cacheFresh emptyDocument w1 in
          let '(ok, w3) := saveData data w2 in
          (if ok then Some data else None, w3)
      end
  end.

(** The document a request reads when it goes to the file: what the file
    holds, missing parts filled in, or the default document. *)
Definition storedDocument w : Document Att :=
  match file w with
  | JsonObject studentsField attendanceField => backfill studentsField attendanceField
  | _ => emptyDocument
  end.

(** No write failure is scheduled. *)
Definition reliable w : Prop := Forall (λ outcome, outcome = true) (writes w).

(** The world [loadData] of [server.js] leaves behind, in closed form. *)
Definition loaded w : World Att :=
  let created := match file w with NoFile => true | _ => false end in
  let ok := nextOutcome (writes w) in
  {| heap := heap w ++ [storedDocument w];
     dataCache := Some (length (heap w));
     file := if created && ok then stringify emptyDocument else file w;
     writes := if created then tail (writes w) else writes w;
     trace := trace w ++ ReadFile :: (if created then [WriteFile ok] else []) |}.

(** The world after [saveData] of the freshly loaded object once a handler
    has turned its content into [d]. *)
Definition committed (d : Document Att) w : World Att :=
  let w1 := loaded w in
  let ok := nextOutcome (writes w1) in
  {| heap := heap w ++ [d];
     dataCache := Some (length (heap w));
     file := if ok then stringify d else file w1;
     writes := tail (writes w1);
     trace := trace w1 ++ [WriteFile ok] |}.
End Store.

(** ** Pieces shared by the handlers *)

Record StudentBody := mkStudentBody {
  body_roll_no : option string;
  body_name : option string;
  body_course : option string;
}.

(** [s.roll_no === att.roll_no] *)
Definition sameRoll (s : Student) (att : Entry) : bool :=
  match att_roll_no att with
  | Some r => String.eqb (roll_no s) r
  | None => false
  end.

(** [att.roll_no !== roll_no_to_delete] *)
Definition otherRoll (roll_no_to_delete : string) (att : Entry) : Prop :=
  att_roll_no att ≠ Some roll_no_to_delete.

Definition withName (att : Entry) (studentName : string) : Entry :=
  {| att_roll_no := att_roll_no att; att_status := att_status att;
     att_name := Some studentName; att_extra := att_extra att |}.

Definition validStatus (s : string) : bool :=
  String.eqb s "present" || String.eqb s "absent".

Definition isPresent (att : Entry) : Prop := att_status att = Some "present"%string.

Definition byRollNo `{Collator} (a b : Student) : comparison :=
  localeCompare (roll_no a) (roll_no b).

Definition dateMessage : string := "Invalid date format. Use YYYY-MM-DD.".
Definition subjectMessage : string := "Subject is required.".
Definition arrayMessage : string := "Invalid data format. Expected an array.".
Definition requiredMessage : string := "Roll number and name are required.".
Definition existsMessage (r : string) : string :=
  ("Student with roll number " +:+ r +:+ " already exists.")%string.
Definition notFoundMessage (r : string) : string :=
  ("Student with roll number " +:+ r +:+ " not found.")%string.
Definition deletedMessage (r : string) : string :=
  ("Student " +:+ r +:+ " deleted successfully.")%string.

(** ** [server.js]: attendance keyed by subject, then by date *)
Module Nested.
Abbreviation Att := (gmap string (gmap string (list Entry))).

Definition saveErrorMessage : string := "Failed to save data to the server file.".
Definition listMessage : string :=
  "Invalid attendance data in the list. Each item must have non-empty roll_no and a valid status ('present' or 'absent').".
Definition savedMessage (subject date : string) : string :=
  ("Attendance for " +:+ subject +:+ " on " +:+ date +:+ " saved successfully.")%string.
Definition attendanceSaveMessage : string :=
  "Server failed to save the attendance data file.".

Definition validItem (item : Entry) : bool :=
  match att_roll_no item, att_status item with
  | Some r, Some s => negb (String.eqb (trim r) "") && validStatus s
  | _, _ => false
  end.

(** The [map] and [filter(Boolean)] pair of the attendance handler. *)
Definition enrichedAttendance (roster : list Student) (attendanceList : list Entry)
  : list Entry :=
  omap (λ att, match List.find (λ s, sameRoll s att) roster with
               | Some student => Some (withName att (name student))
               | None => None
               end) attendanceList.

(** The list the attendance object holds for a subject and a date among its
    own properties, the empty list when it holds none. *)
Definition bucket (a : Att) (subject date : string) : list Entry :=
  default [] (a !! subject ≫= λ byDate, byDate !! date).

(** *** What the handlers find on the prototype chain

    [data.attendance[subject]] looks the subject up on [Object.prototype]
    when the attendance object has no such property.  For a subject that
    names a member of the host the handler of [POST] finds that member
    where it expects the bucket of the subject, and assigns the list to it:
    to a function such as [Object.prototype.toString], or, for
    ["__proto__"], to [Object.prototype] itself, where the list becomes an
    inherited property of every object.  These objects outlive the
    request.  The keys assigned there are dates that passed the date check;
    the values are the arrays of the requests. *)

(** An array left on [Object.prototype], with the lists that later requests
    assigned to named properties of that array. *)
Record Hung := mkHung {
  items : list Entry;
  named : gmap string (list Entry);
}.

Record Realm := mkRealm {
  onPrototype : gmap string Hung;
  onMethods : gmap string (gmap string (list Entry));
}.

(** The process as it starts. *)
Definition pristine : Realm := mkRealm ∅ ∅.

(** What [data.attendance[subject]] evaluates to when it is not
    [undefined]. *)
Inductive Holder :=
  | OwnObject (byDate : gmap string (list Entry))
  | ThePrototype
  | Method (member : string)
  | HungArray (key : string) (array : Hung).

(** [data.attendance[subject]] *)
Definition holder (realm : Realm) (a : Att) (subject : string) : option Holder :=
  match a !! subject with
  | Some byDate => Some (OwnObject byDate)
  | None =>
      if String.eqb subject "__proto__" then Some ThePrototype
      else if isPrototypeMethod subject then Some (Method subject)
      else HungArray subject <$> onPrototype realm !! subject
  end.

(** [object[date]] for a date that passed the date check: a property of the
    object itself, or else the one inherited from [Object.prototype]. *)
Definition dayOf (realm : Realm) (object : Holder) (date : string)
  : option (list Entry) :=
  let inherited := items <$> onPrototype realm !! date in
  let own :=
    match object with
    | OwnObject byDate => byDate !! date
    | ThePrototype => None
    | Method member => onMethods realm !! member ≫= λ props, props !! date
    | HungArray _ array => named array !! date
    end in
  match own with
  | Some l => Some l
  | None => inherited
  end.

(** [data.attendance?.[subject]?.[date] || []] *)
Definition listed (realm : Realm) (a : Att) (subject date : string) : list Entry :=
  default [] (holder realm a subject ≫= λ object, dayOf realm object date).

(** [object[date] = enriched] on an inherited object. *)
Definition hang (object : Holder) (date : string) (enriched : list Entry)
    (realm : Realm) : Realm :=
  match object with
  | OwnObject _ => realm
  | ThePrototype =>
      mkRealm (<[date := mkHung enriched ∅]> (onPrototype realm)) (onMethods realm)
  | Method member =>
      mkRealm (onPrototype realm)
              (<[member := <[date := enriched]> (default ∅ (onMethods realm !! member))]>
                 (onMethods realm))
  | HungArray key array =>
      mkRealm (<[key := mkHung (items array) (<[date := enriched]> (named array))]>
                 (onPrototype realm))
              (onMethods realm)
  end.

(** The process: the world of the document store and the realm. *)
Definition Process : Type := World Att * Realm.

Definition getStudents (w : World Att) : Response Att * World Att :=
  let '(data, w1) := loadData w in
  (mkResponse 200 (StudentList (students (deref w1 data))), w1).

Definition postStudent `{Collator} (body : StudentBody) (w : World Att)
  : Response Att * World Att :=
  match truthy (body_roll_no body), truthy (body_name body) with
  | Some r, Some n =>
      let '(data, w1) := loadData w in
      match List.find (λ s, String.eqb (roll_no s) r) (students (deref w1 data)) with
      | Some existing => (mkResponse 400 (Message (existsMessage r)), w1)
      | None =>
          let newStudent := mkStudent r n (Some (orElse (body_course body) "N/A")) in
          let w2 := mutate data (λ d,
            mkDocument (arraySort byRollNo (students d ++ [newStudent])) (attendance d)) w1 in
          let '(saved, w3) := saveData data w2 in
          if saved then (mkResponse 201 (StudentRecord newStudent), w3)
          else (mkResponse 500 (Message saveErrorMessage), w3)
      end
  | _, _ => (mkResponse 400 (Message requiredMessage), w)
  end.

Definition deleteStudent (roll_no_to_delete : string) (w : World Att)
  : Response Att * World Att :=
  let '(data, w1) := loadData w in
  let initialLength := length (students (deref w1 data)) in
  let w2 := mutate data (λ d,
    mkDocument (filter (λ s, roll_no s ≠ roll_no_to_delete) (students d)) (attendance d)) w1 in
  if (length (students (deref w2 data)) =? initialLength)%nat then
    (mkResponse 404 (Message (notFoundMessage roll_no_to_delete)), w2)
  else
    let w3 := mutate data (λ d,
      mkDocument (students d)
        ((λ byDate : gmap string (list Entry),
            filter (otherRoll roll_no_to_delete) <$> byDate) <$> attendance d)) w2 in
    let '(saved, w4) := saveData data w3 in
    if saved then (mkResponse 200 (Message (deletedMessage roll_no_to_delete)), w4)
    else (mkResponse 500 (Message saveErrorMessage), w4).

Definition getAllAttendance (w : World Att) : Response Att * World Att :=
  let '(data, w1) := loadData w in
  (mkResponse 200 (AttendanceMap (attendance (deref w1 data))), w1).

Definition getAttendance (subject date : string) (p : Process)
  : Response Att * Process :=
  if negb (dateRegex date) then (mkResponse 400 (Message dateMessage), p)
  else if String.eqb subject "" then (mkResponse 400 (Message subjectMessage), p)
  else
    let '(data, w1) := loadData p.1 in
    (mkResponse 200 (EntryList (listed p.2 (attendance (deref w1 data)) subject date)),
     (w1, p.2)).

(** The two assignments of the handler: an own bucket is created when
    [data.attendance[subject]] is falsy, and the list goes to whatever
    [data.attendance[subject]] then is. *)
Definition postAttendance (subject date : string) (body : Body) (p : Process)
  : Response Att * Process :=
  if negb (dateRegex date) then (mkResponse 400 (Message dateMessage), p)
  else if String.eqb subject "" then (mkResponse 400 (Message subjectMessage), p)
  else
    match body with
    | NotAnArray => (mkResponse 400 (Message arrayMessage), p)
    | ArrayOf attendanceList =>
        if negb (forallb validItem attendanceList) then
          (mkResponse 400 (Message listMessage), p)
        else
          let '(data, w1) := loadData p.1 in
          let enriched := enrichedAttendance (students (deref w1 data)) attendanceList in
          let '(w2, realm) :=
            match holder p.2 (attendance (deref w1 data)) subject with
            | None | Some (OwnObject _) =>
                (mutate data (λ d,
                   mkDocument (students d)
                     (<[subject := <[date := enriched]> (default ∅ (attendance d !! subject))]>
                        (attendance d))) w1,
                 p.2)
            | Some inherited => (w1, hang inherited date enriched p.2)
            end in
          let '(saved, w3) := saveData data w2 in
          if saved then (mkResponse 200 (Message (savedMessage subject date)), (w3, realm))
          else (mkResponse 500 (Message attendanceSaveMessage), (w3, realm))
    end.

Definition printAttendance (subject date : string) (p : Process)
  : Response Att * Process :=
  if negb (dateRegex date) then (mkResponse 400 (Message dateMessage), p)
  else if String.eqb subject "" then (mkResponse 400 (Message subjectMessage), p)
  else
    let '(data, w1) := loadData p.1 in
    let d := deref w1 data in
    (mkResponse 200
       (Printout [subject; date]
          (filter isPresent (listed p.2 (attendance d) subject date))
          (length (students d))), (w1, p.2)).

Inductive Request :=
  | GetStudents
  | PostStudent (body : StudentBody)
  | DeleteStudent (roll_no_to_delete : string)
  | GetAllAttendance
  | GetAttendance (subject date : string)
  | PostAttendance (subject date : string) (body : Body)
  | PrintAttendance (subject date : string).

(** A handler that never looks at the prototype chain leaves the realm as
    it is. *)
Definition onWorld (handler : World Att → Response Att * World Att) (p : Process)
  : Response Att * Process :=
  ((handler p.1).1, ((handler p.1).2, p.2)).

Definition handle `{Collator} (req : Request) (p : Process)
  : Response Att * Process :=
  match req with
  | GetStudents => onWorld getStudents p
  | PostStudent body => onWorld (postStudent body) p
  | DeleteStudent r => onWorld (deleteStudent r) p
  | GetAllAttendance => onWorld getAllAttendance p
  | GetAttendance subject date => getAttendance subject date p
  | PostAttendance subject date body => postAttendance subject date body p
  | PrintAttendance subject date => printAttendance subject date p
  end.

(** The three edits the mutating handlers make to the loaded document. *)
Definition withStudent `{Collator} (newStudent : Student) (d : Document Att)
  : Document Att :=
  mkDocument (arraySort byRollNo (students d ++ [newStudent])) (attendance d).

Definition withoutStudent (roll_no_to_delete : string) (d : Document Att)
  : Document Att :=
  mkDocument (filter (λ s, roll_no s ≠ roll_no_to_delete) (students d))
    ((λ byDate : gmap string (list Entry),
        filter (otherRoll roll_no_to_delete) <$> byDate) <$> attendance d).

Definition withBucket (subject date : string) (entries : list Entry)
    (d : Document Att) : Document Att :=
  mkDocument (students d)
    (<[subject := <[date := entries]> (default ∅ (attendance d !! subject))]>
       (attendance d)).
End Nested.

(** ** First unnamed source: attendance keyed by date, cached [loadData] *)
Module Flat.
Abbreviation Att := (gmap string (list Entry)).

Definition saveErrorMessage : string := "Failed to save data to the server.".
Definition listMessage : string :=
  "Invalid attendance data in the list. Each item must have roll_no and a valid status ('present' or 'absent').".
Definition savedMessage (date : string) : string :=
  ("Attendance for " +:+ date +:+ " saved successfully.")%string.

Definition validItem (item : Entry) : bool :=
  match att_roll_no item, att_status item with
  | Some r, Some s => validStatus s
  | _, _ => false
  end.

(** Every entry is kept; an unmatched one is labelled ['Unknown']. *)
Definition enrichedAttendance (roster : list Student) (attendanceList : list Entry)
  : list Entry :=
  map (λ att, withName att
                match List.find (λ s, sameRoll s att) roster with
                | Some student => name student
                | None => "Unknown"%string
                end) attendanceList.

(** [data.attendance[date] || []] *)
Definition bucket (a : Att) (date : string) : list Entry :=
  default [] (a !! date).

Definition getStudents (w : World Att) : Response Att * World Att :=
  match loadDataCached w with
  | (Some data, w1) => (mkResponse 200 (StudentList (students (deref w1 data))), w1)
  | (None, w1) => (mkResponse 500 (Message "Error loading student data."), w1)
  end.

Definition postStudent `{Collator} (body : StudentBody) (w : World Att)
  : Response Att * World Att :=
  match truthy (body_roll_no body), truthy (body_name body) with
  | Some r, Some n =>
      match loadDataCached w with
      | (None, w1) => (mkResponse 500 (Message saveErrorMessage), w1)
      | (Some data, w1) =>
          match List.find (λ s, String.eqb (roll_no s) r) (students (deref w1 data)) with
          | Some existing => (mkResponse 400 (Message (existsMessage r)), w1)
          | None =>
              let newStudent := mkStudent r n (Some (orElse (body_course body) "N/A")) in
              let w2 := mutate data (λ d,
                mkDocument (arraySort byRollNo (students d ++ [newStudent]))
                           (attendance d)) w1 in
              let '(saved, w3) := saveData data w2 in
              if saved then (mkResponse 201 (StudentRecord newStudent), w3)
              else (mkResponse 500 (Message saveErrorMessage), w3)
          end
      end
  | _, _ => (mkResponse 400 (Message requiredMessage), w)
  end.

Definition deleteStudent (roll_no_to_delete : string) (w : World Att)
  : Response Att * World Att :=
  match loadDataCached w with
  | (None, w1) => (mkResponse 500 (Message saveErrorMessage), w1)
  | (Some data, w1) =>
      let initialLength := length (students (deref w1 data)) in
      let w2 := mutate data (λ d,
        mkDocument (filter (λ s, roll_no s ≠ roll_no_to_delete) (students d))
                   (attendance d)) w1 in
      if (length (students (deref w2 data)) =? initialLength)%nat then
        (mkResponse 404 (Message (notFoundMessage roll_no_to_delete)), w2)
      else
        let w3 := mutate data (λ d,
          mkDocument (students d)
                     (filter (otherRoll roll_no_to_delete) <$> attendance d)) w2 in
        let '(saved, w4) := saveData data w3 in
        if saved then (mkResponse 200 (Message (deletedMessage roll_no_to_delete)), w4)
        else (mkResponse 500 (Message saveErrorMessage), w4)
  end.

Definition getAllAttendance (w : World Att) : Response Att * World Att :=
  match loadDataCached w with
  | (Some data, w1) => (mkResponse 200 (AttendanceMap (attendance (deref w1 data))), w1)
  | (None, w1) => (mkResponse 500 (Message "Error loading attendance data."), w1)
  end.

Definition getAttendance (date : string) (w : World Att) : Response Att * World Att :=
  if negb (dateRegex date) then (mkResponse 400 (Message dateMessage), w)
  else
    match loadDataCached w with
    | (Some data, w1) =>
        (mkResponse 200 (EntryList (bucket (attendance (deref w1 data)) date)), w1)
    | (None, w1) =>
        (mkResponse 500 (Message "Error loading attendance data for the date."), w1)
    end.

Definition postAttendance (date : string) (body : Body) (w : World Att)
  : Response Att * World Att :=
  if negb (dateRegex date) then (mkResponse 400 (Message dateMessage), w)
  else
    match body with
    | NotAnArray => (mkResponse 400 (Message arrayMessage), w)
    | ArrayOf attendanceList =>
        if negb (forallb validItem attendanceList) then
          (mkResponse 400 (Message listMessage), w)
        else
          match loadDataCached w with
          | (None, w1) => (mkResponse 500 (Message saveErrorMessage), w1)
          | (Some data, w1) =>
              let enriched := enrichedAttendance (students (deref w1 data)) attendanceList in
              let w2 := mutate data (λ d,
                mkDocument (students d) (<[date := enriched]> (attendance d))) w1 in
              let '(saved, w3) := saveData data w2 in
              if saved then (mkResponse 200 (Message (savedMessage date)), w3)
              else (mkResponse 500 (Message saveErrorMessage), w3)
          end
    end.

Definition printAttendance (date : string) (w : World Att) : Response Att * World Att :=
  if negb (dateRegex date) then (mkResponse 400 (Message dateMessage), w)
  else
    match loadDataCached w with
    | (Some data, w1) =>
        let d := deref w1 data in
        (mkResponse 200
           (Printout [date] (filter isPresent (bucket (attendance d) date))
                     (length (students d))), w1)
    | (None, w1) => (mkResponse 500 (Message "Error generating printable view."), w1)
    end.
Inductive Request :=
  | GetStudents
  | PostStudent (body : StudentBody)
  | DeleteStudent (roll_no_to_delete : string)
  | GetAllAttendance
  | GetAttendance (date : string)
  | PostAttendance (date : string) (body : Body)
  | PrintAttendance (date : string).

Definition handle `{Collator} (req : Request) (w : World Att)
  : Response Att * World Att :=
  match req with
  | GetStudents => getStudents w
  | PostStudent body => postStudent body w
  | DeleteStudent r => deleteStudent r w
  | GetAllAttendance => getAllAttendance w
  | GetAttendance date => getAttendance date w
  | PostAttendance date body => postAttendance date body w
  | PrintAttendance date => printAttendance date w
  end.
End Flat.

(** ** Second unnamed source: two files under [data/], metrics and rankings *)
Module DataDir.
Abbreviation Att := (gmap string (list Entry)).

(** The two module variables, the two files and the outcomes of the
    synchronous writes still to come. *)
Record State := mkState {
  students : list Student;
  attendanceData : Att;
  studentsFile : option (list Student);
  attendanceFile : option Att;
  writes : list bool;
}.

Definition nextWrite (st : State) : bool := nextOutcome (writes st).

(** [saveStudents()] *)
Definition saveStudents (st : State) : bool * State :=
  let ok := nextWrite st in
  (ok, mkState (students st) (attendanceData st)
         (if ok then Some (students st) else studentsFile st)
         (attendanceFile st) (tail (writes st))).

(** [saveAttendanceData()] *)
Definition saveAttendanceData (st : State) : bool * State :=
  let ok := nextWrite st in
  (ok, mkState (students st) (attendanceData st) (studentsFile st)
         (if ok then Some (attendanceData st) else attendanceFile st)
         (tail (writes st))).

Definition withStudents (l : list Student) (st : State) : State :=
  mkState l (attendanceData st) (studentsFile st) (attendanceFile st) (writes st).

Definition withAttendance (a : Att) (st : State) : State :=
  mkState (students st) a (studentsFile st) (attendanceFile st) (writes st).

Definition postStudent (body : StudentBody) (st : State) : Response Att * State :=
  match truthy (body_roll_no body), truthy (body_name body) with
  | Some r, Some n =>
      if existsb (λ s, String.eqb (roll_no s) r) (students st) then
        (mkResponse 400 (Message "Student with this Roll No already exists"), st)
      else
        let newStudent := mkStudent r n None in
        let '(ok, st1) := saveStudents (withStudents (students st ++ [newStudent]) st) in
        if ok then (mkResponse 201 (StudentRecord newStudent), st1)
        else (mkResponse 500 (Message "Failed to save student data"),
              withStudents (removelast (students st1)) st1)
  | _, _ => (mkResponse 400 (Message "Roll No and Name are required"), st)
  end.

Definition incomplete (item : Entry) : bool :=
  match truthy (att_roll_no item), truthy (att_status item) with
  | Some _, Some _ => false
  | _, _ => true
  end.

(** [attendanceData[date] = attendanceList].  On the key ["__proto__"], when
    the object has no property of that name (one parsed from a file can
    have it), the assignment replaces the prototype of [attendanceData] and
    adds no property.  The prototype is read by [GET /api/attendance/:date]
    alone, which is not embedded. *)
Definition assignDay (date : string) (attendanceList : list Entry) (a : Att) : Att :=
  if String.eqb date "__proto__" && bool_decide (a !! date = None) then a
  else <[date := attendanceList]> a.

Definition postAttendance (date : string) (body : Body) (st : State)
  : Response Att * State :=
  match body with
  | NotAnArray =>
      (mkResponse 400 (Message "Invalid attendance data format. Expected an array."), st)
  | ArrayOf attendanceList =>
      if existsb incomplete attendanceList then
        (mkResponse 400 (Message "Each attendance record must have roll_no and status."), st)
      else
        let '(ok, st1) :=
          saveAttendanceData (withAttendance (assignDay date attendanceList (attendanceData st)) st) in
        if ok then
          (mkResponse 200 (Message ("Attendance for " +:+ date +:+ " saved successfully.")%string), st1)
        else
          (mkResponse 500 (Message "Failed to save attendance data."),
           withAttendance (delete date (attendanceData st1)) st1)
  end.

(** *** [calculateMetrics] *)

Record StudentMetric := mkStudentMetric {
  metric_name : string;
  present : Z;
  absent : Z;
  total : Z;
}.

(** The running variables of the two nested loops. *)
Record Counters := mkCounters {
  studentMetrics : list (string * StudentMetric);
  presentCount : Z;
  validEntriesCount : Z;
  totalPresentOverall : Z;
  totalRecordsOverall : Z;
  dailyRates : list (string * Q);
}.

(** The property key an optional string turns into. *)
Definition propertyKey (field : option string) : string :=
  default "undefined"%string field.

Definition hasStatus (entry : Entry) (s : string) : bool :=
  bool_decide (att_status entry = Some s).

(** [studentMetrics[rollNo]] for a key the table does not own: whether the
    value found on the prototype chain is truthy.  The chain is the record
    of a student whose roll number is ["__proto__"], when the roster has
    one, and then [Object.prototype]. *)
Definition inheritedTruthy (table : list (string * StudentMetric)) (rollNo : string)
  : bool :=
  match getProp "__proto__" table with
  | Some r =>
      if String.eqb rollNo "name" then negb (String.eqb (metric_name r) "")
      else if String.eqb rollNo "present" then negb (present r =? 0)
      else if String.eqb rollNo "absent" then negb (absent r =? 0)
      else if String.eqb rollNo "total" then negb (total r =? 0)
      else isPrototypeMethod rollNo
  | None => inheritedName rollNo
  end.

(** The body of the inner loop.  When the table owns the key, the record
    under it is updated; when the key is found on the prototype chain, the
    increments of [total], [present] and [absent] land on the inherited
    value and the table stays as it is. *)
Definition countEntry (c : Counters) (entry : Entry) : Counters :=
  let rollNo := propertyKey (att_roll_no entry) in
  let isPresent := hasStatus entry "present" in
  let isAbsent := negb isPresent && hasStatus entry "absent" in
  let counted table :=
    mkCounters table
               (if isPresent then presentCount c + 1 else presentCount c)
               (validEntriesCount c + 1)
               (if isPresent then totalPresentOverall c + 1 else totalPresentOverall c)
               (totalRecordsOverall c + 1)
               (dailyRates c) in
  match getProp rollNo (studentMetrics c) with
  | Some m =>
      let m' := mkStudentMetric (metric_name m)
                  (if isPresent then present m + 1 else present m)
                  (if isAbsent then absent m + 1 else absent m)
                  (total m + 1) in
      counted (setProp rollNo m' (studentMetrics c))
  | None =>
      if inheritedTruthy (studentMetrics c) rollNo then counted (studentMetrics c)
      else c
  end.

(** A quotient of two counts; [None] marks a division by zero. *)
Definition quotient (a b : Z) : option spec_float :=
  if b =? 0 then None else Some (doubleDiv (toDouble a) (toDouble b)).

(** [whole > 0 ? (part / whole) * 100 : 0] *)
Definition percentage (part whole : Z) : option Q :=
  if 0 <? whole
  then (λ q, valueOf (doubleMul q (toDouble 100))) <$> quotient part whole
  else Some 0%Q.

Definition countDay (a : Att) (c : Counters) (date : string) : option Counters :=
  let attendanceList := default [] (a !! date) in
  let c0 := mkCounters (studentMetrics c) 0 0 (totalPresentOverall c)
                       (totalRecordsOverall c) (dailyRates c) in
  let c1 := fold_left countEntry attendanceList c0 in
  rate ← percentage (presentCount c1) (validEntriesCount c1);
  Some (mkCounters (studentMetrics c1) (presentCount c1) (validEntriesCount c1)
                   (totalPresentOverall c1) (totalRecordsOverall c1)
                   (setNumber date rate (dailyRates c1))).

Fixpoint countDays (a : Att) (c : Counters) (dates : list string) : option Counters :=
  match dates with
  | [] => Some c
  | date :: rest => c' ← countDay a c date; countDays a c' rest
  end.

Definition Qmaximum (a b : Q) : Q := if Qle_bool a b then b else a.
Definition Qminimum (a b : Q) : Q := if Qle_bool a b then a else b.

(** [Math.max(...rates)] and [Math.min(...rates)] of a non-empty array. *)
Definition mathMax (rates : list Q) : Q :=
  match rates with r :: rest => fold_left Qmaximum rest r | [] => 0%Q end.
Definition mathMin (rates : list Q) : Q :=
  match rates with r :: rest => fold_left Qminimum rest r | [] => 100%Q end.

(** [Object.keys(dailyRates).find(d => dailyRates[d] === val) || "-"] *)
Definition dayWith (rates : list (string * Q)) (val : Q) : string :=
  orElse (fst <$> List.find (λ p, Qeq_bool p.2 val) (ownKeyOrder rates)) "-".

Record Metrics := mkMetrics {
  totalClasses : nat;
  avgAttendance : Q;
  bestDay : string * Q;
  worstDay : string * Q;
  metricsOfStudents : list (string * StudentMetric);
  ratesOfDays : list (string * Q);
}.

(** The [forEach] that fills [studentMetrics].  A student whose roll number
    is ["__proto__"] gets no property: the record becomes the prototype of
    the table. *)
Definition initialMetrics (roster : list Student) : list (string * StudentMetric) :=
  fold_left (λ table s, setProp (roll_no s) (mkStudentMetric (name s) 0 0 0) table)
            roster [].

Definition sortedDates (a : Att) : list string :=
  arraySort String.compare (map_to_list a).*1.

Definition calculateMetrics (roster : list Student) (a : Att) : option Metrics :=
  let dates := (map_to_list a).*1 in
  let allDatesSorted := sortedDates a in
  c ← countDays a (mkCounters (initialMetrics roster) 0 0 0 0 []) allDatesSorted;
  let rates := (ownKeyOrder (dailyRates c)).*2 in
  let best :=
    if (0 <? length (dailyRates c))%nat
    then (dayWith (dailyRates c) (mathMax rates), mathMax rates)
    else ("-"%string, 0%Q) in
  let worst :=
    if (0 <? length (dailyRates c))%nat
    then (dayWith (dailyRates c) (mathMin rates), mathMin rates)
    else ("-"%string, 100%Q) in
  avg ← percentage (totalPresentOverall c) (totalRecordsOverall c);
  Some (mkMetrics (length dates) avg best worst (studentMetrics c) (dailyRates c)).

(** *** [GET /api/metrics] *)
Record MetricsReport := mkMetricsReport {
  report_totalClasses : nat;
  report_avgAttendance : string;
  report_bestDay : string;
  report_worstDay : string;
  report_dailyRates : list (string * Q);
}.

Definition dayLabel (day : string * Q) : string :=
  if String.eqb day.1 "-" then "-"%string
  else (day.1 +:+ " (" +:+ toFixed1 day.2 +:+ "%)")%string.

Definition getMetrics (st : State) : option MetricsReport :=
  metrics ← calculateMetrics (students st) (attendanceData st);
  Some (mkMetricsReport (totalClasses metrics)
                        (toFixed1 (avgAttendance metrics) +:+ "%")%string
                        (dayLabel (bestDay metrics))
                        (dayLabel (worstDay metrics))
                        (ownKeyOrder (ratesOfDays metrics))).

(** *** [GET /api/rankings] *)
Record Summary := mkSummary {
  summary_roll_no : string;
  summary_name : string;
  attendance_percent : Q;
}.

Record Ranked := mkRanked {
  rank : nat;
  ranked_roll_no : string;
  ranked_name : string;
  ranked_percent : string;
}.

Definition studentSummary (table : list (string * StudentMetric)) : option (list Summary) :=
  mapM (λ '(rollNo, m),
          percent ← percentage (present m) (total m);
          Some (mkSummary rollNo (metric_name m) percent))
       (ownKeyOrder (ownProperties table)).

(** The comparator handed to [studentSummary.sort]. *)
Definition byPercentThenName `{Collator} (a b : Summary) : comparison :=
  if negb (Qeq_bool (attendance_percent b) (attendance_percent a)) then
    (attendance_percent b ?= attendance_percent a)%Q
  else localeCompare (summary_name a) (summary_name b).

(** The [map] that adds ranks, with its three running variables. *)
Fixpoint addRanks (currentRank : nat) (lastPercent : Q) (studentsAtRank : nat)
    (l : list Summary) : list Ranked :=
  match l with
  | [] => []
  | summary :: rest =>
      let percent := attendance_percent summary in
      let row r := mkRanked r (summary_roll_no summary) (summary_name summary)
                            (toFixed1 percent) in
      if negb (Qeq_bool percent lastPercent) then
        let currentRank' := (currentRank + (studentsAtRank + 1))%nat in
        row currentRank' :: addRanks currentRank' percent 0 rest
      else
        row currentRank :: addRanks currentRank lastPercent (studentsAtRank + 1) rest
  end.

Definition sortedSummary `{Collator} (roster : list Student) (a : Att)
  : option (list Summary) :=
  metrics ← calculateMetrics roster a;
  summaries ← studentSummary (metricsOfStudents metrics);
  Some (arraySort byPercentThenName summaries).

Definition getRankings `{Collator} (st : State) : option (list Ranked) :=
  sorted ← sortedSummary (students st) (attendanceData st);
  Some (addRanks 0 (-1)%Q 0 sorted).
(** *** [loadData()] and the remaining routes *)

(** The roster the server starts with when [students.json] is missing. *)
Definition defaultStudents : list Student :=
  [mkStudent "220351" "MOHD ANSARY" None;
   mkStudent "220361" "ZAKIR HUSSAIN TAK" None;
   mkStudent "220362" "NUMAN BASHIR DAR" None;
   mkStudent "220363" "FAISAL AHMAD MIR" None;
   mkStudent "220364" "MOHD IMRAN" None;
   mkStudent "220365" "SHAHID BASHIR SHEIKH" None;
   mkStudent "220366" "AAMIR ALI WANI" None;
   mkStudent "220368" "SHAKEEL SIDIQI" None;
   mkStudent "220370" "OVAIS MANZOOR BABA" None;
   mkStudent "220371" "MOHAMMAD HANZAL BHAT" None;
   mkStudent "220372" "ABSAR ALTAF SHAH" None;
   mkStudent "220374" "MUZAMIL HUSSAIN" None;
   mkStudent "220421" "MEHVISH MANZOOR" None;
   mkStudent "220423" "ATTA UL MUSTAFA" None;
   mkStudent "220424" "SHABNAM ARA" None;
   mkStudent "220425" "IQRA ASHRAF DAR" None;
   mkStudent "220426" "FAZIL ALI WANI" None;
   mkStudent "220427" "UMAR ALI BHAT" None;
   mkStudent "220428" "ZEENAT NABI" None;
   mkStudent "220429" "MIR SURIYA NISAR" None;
   mkStudent "220430" "SHAHNAWAZ AKBAR" None].

(** [loadData()].  Each of the two [try] blocks reads its file when the file
    exists and creates it otherwise; [readable] tells, for each file, whether
    [readFileSync] and [JSON.parse] go through when it exists.  When they
    throw, the [catch] falls back to the empty collection. *)
Definition loadData (readable : bool * bool) (st : State) : State :=
  let st1 :=
    match studentsFile st with
    | Some studentData =>
        if readable.1 then withStudents studentData st else withStudents [] st
    | None => (saveStudents (withStudents defaultStudents st)).2
    end in
  match attendanceFile st1 with
  | Some attData =>
      if readable.2 then withAttendance attData st1 else withAttendance ∅ st1
  | None => (saveAttendanceData (withAttendance ∅ st1)).2
  end.

Definition getStudents (st : State) : Response Att :=
  mkResponse 200 (StudentList (students st)).

Definition deletedMessage (rollNoToDelete : string) : string :=
  ("Student " +:+ rollNoToDelete +:+ " deleted")%string.
Definition notFoundMessage (rollNoToDelete : string) : string :=
  ("Student " +:+ rollNoToDelete +:+ " not found")%string.
Definition deleteFailedMessage : string := "Failed to save student data after deletion".

(** [DELETE /api/students/:roll_no]; [readable] is handed to the [loadData()]
    that a failed save triggers. *)
Definition deleteStudent (readable : bool * bool) (rollNoToDelete : string) (st : State)
  : Response Att * State :=
  let initialLength := length (students st) in
  let st1 := withStudents (filter (λ s, roll_no s ≠ rollNoToDelete) (students st)) st in
  if (length (students st1) <? initialLength)%nat then
    let '(ok, st2) := saveStudents st1 in
    if ok then (mkResponse 200 (Message (deletedMessage rollNoToDelete)), st2)
    else (mkResponse 500 (Message deleteFailedMessage), loadData readable st2)
  else (mkResponse 404 (Message (notFoundMessage rollNoToDelete)), st1).

(** [GET /api/attendance/dates]: [Object.keys(attendanceData).sort().reverse()] *)
Definition getDates (st : State) : list string :=
  rev (arraySort String.compare (map_to_list (attendanceData st)).*1).

(** [GET /api/metrics/students] *)
Record StudentRow := mkStudentRow {
  row_roll_no : string;
  row_name : string;
  row_present : Z;
  row_absent : Z;
  row_attendance_percent : string;
}.

Definition getStudentMetrics (st : State) : option (list StudentRow) :=
  metrics ← calculateMetrics (students st) (attendanceData st);
  mapM (λ '(rollNo, m),
          attendancePercent ← percentage (present m) (total m);
          Some (mkStudentRow rollNo (metric_name m) (present m) (absent m)
                  (toFixed1 attendancePercent)))
       (ownKeyOrder (ownProperties (metricsOfStudents metrics))).

(** The requests that change the state. *)
Inductive Request :=
  | PostStudent (body : StudentBody)
  | DeleteStudent (readable : bool * bool) (rollNoToDelete : string)
  | PostAttendance (date : string) (body : Body).

Definition handle (req : Request) (st : State) : Response Att * State :=
  match req with
  | PostStudent body => postStudent body st
  | DeleteStudent readable rollNoToDelete => deleteStudent readable rollNoToDelete st
  | PostAttendance date body => postAttendance date body st
  end.
End DataDir.

(** ** Third unnamed source: attendance keyed by date, [loadData] re-reads

    The flat schema of the first unnamed source with the [loadData], the
    [saveData], the item check and the enrichment of [server.js]. *)
Module Reread.
Abbreviation Att := (gmap string (list Entry)).

Definition saveErrorMessage : string := "Failed to save data to the server file.".
Definition postDateMessage : string := "Invalid date format. Use YNNN-MM-DD.".
Definition listMessage : string :=
  "Invalid attendance data in the list. Each item must have non-empty roll_no and a valid status ('present' or 'absent').".
Definition savedMessage (date : string) : string :=
  ("Attendance for " +:+ date +:+ " saved successfully.")%string.
Definition attendanceSaveMessage : string :=
  "Server failed to save the attendance data file.".

Definition validItem (item : Entry) : bool :=
  match att_roll_no item, att_status item with
  | Some r, Some s => negb (String.eqb (trim r) "") && validStatus s
  | _, _ => false
  end.

(** The [map] and [filter(Boolean)] pair of the attendance handler. *)
Definition enrichedAttendance (roster : list Student) (attendanceList : list Entry)
  : list Entry :=
  omap (λ att, match List.find (λ s, sameRoll s att) roster with
               | Some student => Some (withName att (name student))
               | None => None
               end) attendanceList.

(** [data.attendance[date] || []] *)
Definition bucket (a : Att) (date : string) : list Entry :=
  default [] (a !! date).

Definition getStudents (w : World Att) : Response Att * World Att :=
  let '(data, w1) := loadData w in
  (mkResponse 200 (StudentList (students (deref w1 data))), w1).

Definition postStudent `{Collator} (body : StudentBody) (w : World Att)
  : Response Att * World Att :=
  match truthy (body_roll_no body), truthy (body_name body) with
  | Some r, Some n =>
      let '(data, w1) := loadData w in
      match List.find (λ s, String.eqb (roll_no s) r) (students (deref w1 data)) with
      | Some existing => (mkResponse 400 (Message (existsMessage r)), w1)
      | None =>
          let newStudent := mkStudent r n (Some (orElse (body_course body) "N/A")) in
          let w2 := mutate data (λ d,
            mkDocument (arraySort byRollNo (students d ++ [newStudent])) (attendance d)) w1 in
          let '(saved, w3) := saveData data w2 in
          if saved then (mkResponse 201 (StudentRecord newStudent), w3)
          else (mkResponse 500 (Message saveErrorMessage), w3)
      end
  | _, _ => (mkResponse 400 (Message requiredMessage), w)
  end.

Definition deleteStudent (roll_no_to_delete : string) (w : World Att)
  : Response Att * World Att :=
  let '(data, w1) := loadData w in
  let initialLength := length (students (deref w1 data)) in
  let w2 := mutate data (λ d,
    mkDocument (filter (λ s, roll_no s ≠ roll_no_to_delete) (students d)) (attendance d)) w1 in
  if (length (students (deref w2 data)) =? initialLength)%nat then
    (mkResponse 404 (Message (notFoundMessage roll_no_to_delete)), w2)
  else
    let w3 := mutate data (λ d,
      mkDocument (students d)
                 (filter (otherRoll roll_no_to_delete) <$> attendance d)) w2 in
    let '(saved, w4) := saveData data w3 in
    if saved then (mkResponse 200 (Message (deletedMessage roll_no_to_delete)), w4)
    else (mkResponse 500 (Message saveErrorMessage), w4).

Definition getAllAttendance (w : World Att) : Response Att * World Att :=
  let '(data, w1) := loadData w in
  (mkResponse 200 (AttendanceMap (attendance (deref w1 data))), w1).

Definition getAttendance (date : string) (w : World Att) : Response Att * World Att :=
  if negb (dateRegex date) then (mkResponse 400 (Message dateMessage), w)
  else
    let '(data, w1) := loadData w in
    (mkResponse 200 (EntryList (bucket (attendance (deref w1 data)) date)), w1).

Definition postAttendance (date : string) (body : Body) (w : World Att)
  : Response Att * World Att :=
  if negb (dateRegex date) then (mkResponse 400 (Message postDateMessage), w)
  else
    match body with
    | NotAnArray => (mkResponse 400 (Message arrayMessage), w)
    | ArrayOf attendanceList =>
        if negb (forallb validItem attendanceList) then
          (mkResponse 400 (Message listMessage), w)
        else
          let '(data, w1) := loadData w in
          let enriched := enrichedAttendance (students (deref w1 data)) attendanceList in
          let w2 := mutate data (λ d,
            mkDocument (students d) (<[date := enriched]> (attendance d))) w1 in
          let '(saved, w3) := saveData data w2 in
          if saved then (mkResponse 200 (Message (savedMessage date)), w3)
          else (mkResponse 500 (Message attendanceSaveMessage), w3)
    end.

Definition printAttendance (date : string) (w : World Att) : Response Att * World Att :=
  if negb (dateRegex date) then (mkResponse 400 (Message dateMessage), w)
  else
    let '(data, w1) := loadData w in
    let d := deref w1 data in
    (mkResponse 200
       (Printout [date] (filter isPresent (bucket (attendance d) date))
                 (length (students d))), w1).
End Reread.

(** Code-unit order, the order of the default [sort()] and one consistent
    collation. *)
#[export] Program Instance codeUnitCollator : Collator :=
  {| localeCompare := String.compare |}.
Next Obligation. intros a b. apply String.compare_antisym. Qed.
Next Obligation.
  intros a b c Hab Hbc Hac.
  assert (Hlt : ∀ x y, String.compare x y = Gt → String_as_OT.lt y x).
  { intros x y Hxy. apply String_as_OT.cmp_lt. unfold String_as_OT.cmp.
    rewrite String.compare_antisym, Hxy. reflexivity. }
  assert (Heq : ∀ x y, String.compare x y ≠ Gt → x = y ∨ String_as_OT.lt x y).
  { intros x y Hxy. destruct (String.compare x y) eqn:E; [left|right|done].
    - by apply String.compare_eq_iff.
    - by apply String_as_OT.cmp_lt. }
  apply Hlt in Hac.
  destruct (Heq _ _ Hab) as [->|H1], (Heq _ _ Hbc) as [->|H2].
  - by apply String_as_OT.lt_not_eq in Hac.
  - eapply String_as_OT.lt_not_eq; [eapply String_as_OT.lt_trans; eauto|done].
  - eapply String_as_OT.lt_not_eq; [eapply String_as_OT.lt_trans; eauto|done].
  - eapply String_as_OT.lt_not_eq;
      [eapply String_as_OT.lt_trans; [exact Hac|eapply String_as_OT.lt_trans; eauto]|done].
Qed.

(** The order of [localeCompare] in the collation the host uses by default,
    on the characters for which it is reproduced here: the digits and the
    letters of the basic Latin alphabet.  Two strings are compared character
    by character without regard to case, a digit before a letter and a
    prefix before its extensions; strings that differ in case alone are
    decided by the first such difference, the lower case first.  So
    ["alice"] precedes ["Bob"], which the order of the code units has the
    other way round.  The other code units are placed before the digits in
    the order of their codes; that is a choice made here, not the table of
    the host. *)
Definition primaryWeight (c : ascii) : Z :=
  let n := Z.of_nat (nat_of_ascii c) in
  if (48 <=? n) && (n <=? 57) then 1000 + n
  else if (97 <=? n) && (n <=? 122) then 2000 + n
  else if (65 <=? n) && (n <=? 90) then 2032 + n
  else n.

Definition tertiaryWeight (c : ascii) : Z :=
  let n := Z.of_nat (nat_of_ascii c) in
  if (65 <=? n) && (n <=? 90) then 1 else 0.

Fixpoint compareWeights (a b : list Z) : comparison :=
  match a, b with
  | [], [] => Eq
  | [], _ :: _ => Lt
  | _ :: _, [] => Gt
  | x :: a', y :: b' =>
      match x ?= y with
      | Eq => compareWeights a' b'
      | c => c
      end
  end.

Definition latinCompare (a b : string) : comparison :=
  let weights (weight : ascii → Z) (s : string) := weight <$> list_ascii_of_string s in
  match compareWeights (weights primaryWeight a) (weights primaryWeight b) with
  | Eq => compareWeights (weights tertiaryWeight a) (weights tertiaryWeight b)
  | c => c
  end.

Program Definition latinCollator : Collator := {| localeCompare := latinCompare |}.
Next Obligation.
  assert (Hanti : ∀ x y, compareWeights y x = CompOpp (compareWeights x y)).
  { induction x as [|u x IH]; intros [|v y]; cbn; try done.
    rewrite (Z.compare_antisym u v). destruct (u ?= v); cbn; [apply IH|done|done]. }
  intros a b. unfold latinCompare. cbv zeta.
  rewrite (Hanti (primaryWeight <$> list_ascii_of_string a)),
          (Hanti (tertiaryWeight <$> list_ascii_of_string a)).
  by destruct (compareWeights (primaryWeight <$> _) _).
Qed.
Next Obligation.
  assert (Hrefl : ∀ x, compareWeights x x = Eq).
  { induction x as [|u x IH]; cbn; [done|]. by rewrite Z.compare_refl. }
  assert (Heq : ∀ x y, compareWeights x y = Eq → x = y).
  { induction x as [|u x IH]; intros [|v y]; cbn; try done.
    destruct (u ?= v) eqn:Huv; try done.
    apply Z.compare_eq in Huv as ->. by intros ->%IH. }
  assert (Hlt : ∀ x y z, compareWeights x y = Lt → compareWeights y z = Lt →
                         compareWeights x z = Lt).
  { induction x as [|u x IH]; intros [|v y] [|t z]; cbn; try done.
    destruct (u ?= v) eqn:Huv, (v ?= t) eqn:Hvt; try done.
    - apply Z.compare_eq in Huv as ->. rewrite Hvt. apply IH.
    - apply Z.compare_eq in Huv as ->. by rewrite Hvt.
    - apply Z.compare_eq in Hvt as <-. by rewrite Huv.
    - rewrite Z.compare_lt_iff in Huv, Hvt.
      assert (Hut : (u ?= t) = Lt) by (apply Z.compare_lt_iff; lia). by rewrite Hut. }
  assert (Hle : ∀ x y z, compareWeights x y ≠ Gt → compareWeights y z ≠ Gt →
                         compareWeights x z ≠ Gt).
  { intros x y z Hxy Hyz.
    destruct (compareWeights x y) eqn:Exy; [| |done];
      destruct (compareWeights y z) eqn:Eyz; [| |done| | |done].
    - apply Heq in Exy as ->. by rewrite Eyz.
    - apply Heq in Exy as ->. by rewrite Eyz.
    - apply Heq in Eyz as <-. by rewrite Exy.
    - by rewrite (Hlt x y z). }
  intros a b c. unfold latinCompare. cbv zeta.
  destruct (compareWeights (primaryWeight <$> list_ascii_of_string a)
                           (primaryWeight <$> list_ascii_of_string b)) eqn:Eab; [| |done];
    destruct (compareWeights (primaryWeight <$> list_ascii_of_string b)
                             (primaryWeight <$> list_ascii_of_string c)) eqn:Ebc;
    intros Hab Hbc; try done.
  - apply Heq in Eab, Ebc. rewrite Eab, Ebc, Hrefl. by eapply Hle.
  - apply Heq in Eab. by rewrite Eab, Ebc.
  - apply Heq in Ebc. by rewrite <- Ebc, Eab.
  - by rewrite (Hlt _ _ _ Eab Ebc).
Qed.

(** ** Notions used to state the properties of the cached variant *)

(** [dataCache], when set, points into the heap. *)
Definition cacheValid {Att} (w : World Att) : Prop :=
  ∀ data, dataCache w = Some data → (data < length (heap w))%nat.

(** The document the cached loader hands out: the cached object, or the
    document of the file on a miss. *)
Definition currentDocument {Att} `{Empty Att} (w : World Att) : Document Att :=
  match dataCache w with
  | Some data => deref w data
  | None => storedDocument w
  end.

(** The edit [data.attendance[date] = entries] of the flat schema. *)
Definition withFlatBucket (date : string) (entries : list Entry)
    (d : Document Flat.Att) : Document Flat.Att :=
  mkDocument (students d) (<[date := entries]> (attendance d)).

(** The edit of the flat schema that removes a student and the entries. *)
Definition withoutStudentFlat (roll_no_to_delete : string) (d : Document Flat.Att)
  : Document Flat.Att :=
  mkDocument (filter (λ s, roll_no s ≠ roll_no_to_delete) (students d))
    (filter (otherRoll roll_no_to_delete) <$> attendance d).

(** ** The attendance list in the words of its description *)

(** The shape asked of an item: a roll number with a character that is not
    white space, and the status ["present"] or ["absent"]. *)
Definition wellFormedItem (item : Entry) : Prop :=
  ∃ r s, att_roll_no item = Some r ∧ att_status item = Some s
         ∧ (∃ c, c ∈ list_ascii_of_string r ∧ isWhiteSpace c = false)
         ∧ (s = "present"%string ∨ s = "absent"%string).

(** The shape the first flat variant asks: any roll number. *)
Definition typedItem (item : Entry) : Prop :=
  ∃ r s, att_roll_no item = Some r ∧ att_status item = Some s
         ∧ (s = "present"%string ∨ s = "absent"%string).

(** The first student of the roster who has the roll number of the entry,
    and the entry with the name of a student. *)
Definition firstWithRoll (roster : list Student) (att : Entry) (s : Student) : Prop :=
  ∃ before after,
    roster = before ++ s :: after
    ∧ att_roll_no att = Some (roll_no s)
    ∧ Forall (λ t, att_roll_no att ≠ Some (roll_no t)) before.

Definition unknownTo (roster : list Student) (att : Entry) : Prop :=
  Forall (λ t, att_roll_no att ≠ Some (roll_no t)) roster.

Definition carrying (att : Entry) (studentName : string) : Entry :=
  mkEntry (att_roll_no att) (att_status att) (Some studentName) (att_extra att).

(** The stored list when unknown roll numbers are dropped: the entries of
    known students, in the order of the input, each with the name of the
    student. *)
Inductive DropsUnknown (roster : list Student) : list Entry → list Entry → Prop :=
  | drops_nil : DropsUnknown roster [] []
  | drops_known att s l stored :
      firstWithRoll roster att s →
      DropsUnknown roster l stored →
      DropsUnknown roster (att :: l) (carrying att (name s) :: stored)
  | drops_unknown att l stored :
      unknownTo roster att →
      DropsUnknown roster l stored →
      DropsUnknown roster (att :: l) stored.

(** The stored list when unknown roll numbers are kept under the name
    ["Unknown"]. *)
Inductive LabelsUnknown (roster : list Student) : list Entry → list Entry → Prop :=
  | labels_nil : LabelsUnknown roster [] []
  | labels_known att s l stored :
      firstWithRoll roster att s →
      LabelsUnknown roster l stored →
      LabelsUnknown roster (att :: l) (carrying att (name s) :: stored)
  | labels_unknown att l stored :
      unknownTo roster att →
      LabelsUnknown roster l stored →
      LabelsUnknown roster (att :: l) (carrying att "Unknown" :: stored).

(** ** Roster invariants *)

Definition uniqueRollNumbers {Att} (d : Document Att) : Prop :=
  NoDup (roll_no <$> students d).

Definition rosterSorted `{Collator} {Att} (d : Document Att) : Prop :=
  StronglySorted (inOrder byRollNo) (students d).

(** ** The metrics in the words of their description

    An entry counts on a day when its roll number is that of a roster
    student; the rate of a day is the share of those entries marked
    present, in percent, and 0 when there is none. *)

Definition isCurrent (rollNumbers : list string) (entry : Entry) : Prop :=
  DataDir.propertyKey (att_roll_no entry) ∈ rollNumbers.

#[export] Instance isCurrent_dec rollNumbers entry : Decision (isCurrent rollNumbers entry).
Proof. unfold isCurrent. apply _. Defined.

(** No roll number of the roster, no date and no roll number of an entry is
    a name that the tables of the metrics inherit: the roster has no
    student ["__proto__"], the attendance object no date ["__proto__"], and
    no entry carries the name of a member of [Object.prototype]. *)
Definition ordinaryKeys (roster : list Student) (a : gmap string (list Entry)) : Prop :=
  Forall (λ s, roll_no s ≠ "__proto__"%string) roster
  ∧ a !! "__proto__"%string = None
  ∧ ∀ date l, a !! date = Some l →
      Forall (λ entry, inheritedName (DataDir.propertyKey (att_roll_no entry)) = false) l.

Definition validCount (rollNumbers : list string) (l : list Entry) : Z :=
  Z.of_nat (length (filter (isCurrent rollNumbers) l)).

Definition presentCountOf (rollNumbers : list string) (l : list Entry) : Z :=
  Z.of_nat (length (filter isPresent (filter (isCurrent rollNumbers) l))).

Definition percent (part whole : Z) : Q :=
  if 0 <? whole
  then valueOf (doubleMul (doubleDiv (toDouble part) (toDouble whole)) (toDouble 100))
  else 0%Q.

Definition rateOfDay (roster : list Student) (l : list Entry) : Q :=
  percent (presentCountOf (roll_no <$> roster) l) (validCount (roll_no <$> roster) l).

(** The label of a day in the metrics report; an empty date or ["-"] cannot
    be told from the absence of a day. *)
Definition labelOfDay (date : string) (rate : Q) : string :=
  if bool_decide (date = ""%string ∨ date = "-"%string) then "-"%string
  else (date +:+ " (" +:+ toFixed1 rate +:+ "%)")%string.

(** The sum of a count over every bucket of the attendance object. *)
Definition sumOverDays (count : list Entry → Z) (a : gmap string (list Entry)) : Z :=
  foldr (λ day acc, count day.2 + acc) 0 (map_to_list a).

#[export] Instance Qlt_dec (x y : Q) : Decision (x < y)%Q :=
  match Qlt_le_dec x y with
  | left Hlt => left Hlt
  | right Hle => right (Qle_not_lt _ _ Hle)
  end.





(** ** Notions used to state the properties of whole sessions *)

#[export] Instance FsEvent_eq_dec : EqDecision FsEvent.
Proof. solve_decision. Defined.

(** The number of [fs.readFile] calls among file system calls. *)
Definition reads (events : list FsEvent) : nat :=
  length (filter (λ event, event = ReadFile) events).

(** A session: the requests are handled one after the other, oldest first. *)
Definition serve {Req Resp W : Type} (handler : Req → W → Resp * W)
    (requests : list Req) (w : W) : W :=
  fold_left (λ w req, (handler req w).2) requests w.

(** A load from [w]: the cache is set, and the file has been read once more
    exactly when the cache was not set in [w]. *)
Definition loadedFrom {Att} (w w1 : World Att) : Prop :=
  is_Some (dataCache w1)
  ∧ reads (trace w1)
    = (reads (trace w) + match dataCache w with Some _ => 0 | None => 1 end)%nat.

(** The answer reports success. *)
Definition succeeded {Att} (response : Response Att) : bool :=
  (status response =? 200)%nat || (status response =? 201)%nat.

(** Nothing was left on the objects that the attendance object inherits
    from. *)
Definition untouched (realm : Nested.Realm) : Prop :=
  Nested.onPrototype realm = ∅ ∧ Nested.onMethods realm = ∅.

(** The request assigns no list to an inherited object: its subject, when
    it is a [POST] of attendance, names no member of [Object.prototype]. *)
Definition ordinaryRequest (req : Nested.Request) : Prop :=
  match req with
  | Nested.PostAttendance subject _ _ => inheritedName subject = false
  | _ => True
  end.

(** The routes of [server.js] that only read. *)
Definition isQuery (req : Nested.Request) : bool :=
  match req with
  | Nested.GetStudents | Nested.GetAllAttendance
  | Nested.GetAttendance _ _ | Nested.PrintAttendance _ _ => true
  | _ => false
  end.

(** The entry carries the roll number and the name of a roster student. *)
Definition namesRosterStudent (roster : list Student) (e : Entry) : Prop :=
  ∃ s, s ∈ roster ∧ att_roll_no e = Some (roll_no s) ∧ att_name e = Some (name s).

Definition referentialIntegrity (d : Document Nested.Att) : Prop :=
  ∀ subject date e,
    e ∈ Nested.bucket (attendance d) subject date → namesRosterStudent (students d) e.

(** The attendance object has a key for the subject and, under it, one for
    the date. *)
Definition recorded (a : Nested.Att) (subject date : string) : Prop :=
  is_Some (a !! subject ≫= λ byDate, byDate !! date).

(** The module variables of the second unnamed source agree with its files. *)
Definition rosterOnFile (st : DataDir.State) : Prop :=
  DataDir.studentsFile st = Some (DataDir.students st).

Definition attendanceOnFile (st : DataDir.State) : Prop :=
  DataDir.attendanceFile st = Some (DataDir.attendanceData st).

(** No write of the second unnamed source is scheduled to fail. *)
Definition diskReliable (st : DataDir.State) : Prop :=
  Forall (λ outcome, outcome = true) (DataDir.writes st).

(** The request never finds its students file unreadable. *)
Definition studentsReadable (req : DataDir.Request) : Prop :=
  match req with
  | DataDir.DeleteStudent readable _ => readable.1 = true
  | _ => True
  end.

(** The day a well-formed date stands for, as the number YYYYMMDD. *)
Definition calendarDay (date : string) : Z :=
  10000 * numericValue (substring 0 4 date)
  + 100 * numericValue (substring 5 2 date)
  + numericValue (substring 8 2 date).

(** The entries of a day that are counted for a roll number, and the sums
    over all days that the table of a student should hold. *)
Definition entriesOf (rollNo : string) (l : list Entry) : list Entry :=
  filter (λ entry, DataDir.propertyKey (att_roll_no entry) = rollNo) l.

Definition recordsOf (rollNo : string) (a : DataDir.Att) : Z :=
  sumOverDays (λ l, Z.of_nat (length (entriesOf rollNo l))) a.

Definition timesMarked (s rollNo : string) (a : DataDir.Att) : Z :=
  sumOverDays
    (λ l, Z.of_nat (length (filter (λ entry, att_status entry = Some s)
                                   (entriesOf rollNo l)))) a.

(** ** Sample data used by the examples *)

(** An entry as a client posts it, and as the server stores it. *)
Definition mark (r s : string) : Entry := mkEntry (Some r) (Some s) None [].
Definition marked (r s n : string) : Entry := mkEntry (Some r) (Some s) (Some n) [].

Definition freshProcess {Att} (content : FileContent Att) (outcomes : list bool)
  : World Att :=
  mkWorld [] None content outcomes [].

Definition alice : Student := mkStudent "001" "Alice" (Some "N/A").

Definition twoDates : World Nested.Att :=
  freshProcess
    (JsonObject
       (Some [mkStudent "S001" "Asha" (Some "N/A"); mkStudent "S002" "Bilal" (Some "N/A")])
       (Some {[ "Physics"%string :=
                  {[ "2024-01-01"%string :=
                       [marked "S001" "present" "Asha"; marked "S002" "absent" "Bilal"];
                     "2024-01-02"%string := [marked "S001" "absent" "Asha"] ]} ]}))
    [].

Definition oneStudent : World Nested.Att :=
  freshProcess (JsonObject (Some [mkStudent "002" "Bob" (Some "N/A")]) (Some ∅)) [].

Definition aliceBody : StudentBody := mkStudentBody (Some "001") (Some "Alice") None.

Definition physicsMarks : list Entry := [mark "002" "present"; mark "999" "absent"].

Definition flatOneStudent : World Flat.Att :=
  freshProcess (JsonObject (Some [mkStudent "002" "Bob" (Some "N/A")]) (Some ∅)) [].

Definition emptyState : DataDir.State := DataDir.mkState [] ∅ None None [].

(** A process started on an empty roster whose next write will fail. *)
Definition failingDisk {Att} `{Empty Att} : World Att :=
  freshProcess (JsonObject (Some []) (Some ∅)) [false].

Definition rosterOnly : World Nested.Att :=
  freshProcess (JsonObject (Some [alice]) None) [].

(** Two students, one of them present on the only recorded day. *)
Definition endToEnd : DataDir.State :=
  let st1 := (DataDir.postStudent (mkStudentBody (Some "001") (Some "Alice") None)
                emptyState).2 in
  let st2 := (DataDir.postStudent (mkStudentBody (Some "002") (Some "Bob") None) st1).2 in
  (DataDir.postAttendance "2024-01-01"
     (ArrayOf [mark "001" "present"; mark "002" "absent"]) st2).2.

(** A day recorded with an empty list next to a day with full attendance. *)
Definition emptyDay : DataDir.State :=
  DataDir.mkState [mkStudent "001" "Alice" None]
    {[ "2024-01-01"%string := []; "2024-01-02"%string := [mark "001" "present"] ]}
    None None [].

(** One student, and a day with an entry whose roll number is the name of a
    member of [Object.prototype]. *)
Definition strayEntry : DataDir.State :=
  DataDir.mkState [mkStudent "001" "Alice" None]
    {[ "2024-01-01"%string := [mark "constructor" "present"; mark "001" "absent"] ]}
    None None [].

(** One student marked eighty times on one day, twenty-three times present. *)
Definition eightyMarks : DataDir.State :=
  DataDir.mkState [mkStudent "001" "Alice" None]
    {[ "2024-01-01"%string :=
         replicate 23 (mark "001" "present") ++ replicate 57 (mark "001" "absent") ]}
    None None [].


(** Ten recorded days: two students present on nine of them, a third on eight. *)
Definition tenDays : DataDir.State :=
  let day (b c : string) :=
    [mark "A1" "present"; mark "B2" b; mark "C3" c] in
  DataDir.mkState
    [mkStudent "C3" "Chen" None; mkStudent "A1" "Asha" None; mkStudent "B2" "Bilal" None]
    (list_to_map
       [("2024-01-01"%string, day "present" "present");
        ("2024-01-02"%string, day "present" "present");
        ("2024-01-03"%string, day "present" "present");
        ("2024-01-04"%string, day "present" "present");
        ("2024-01-05"%string, day "present" "present");
        ("2024-01-06"%string, day "present" "present");
        ("2024-01-07"%string, day "present" "present");
        ("2024-01-08"%string, day "present" "present");
        ("2024-01-09"%string, [mark "A1" "absent"; mark "B2" "present"; mark "C3" "absent"]);
        ("2024-01-10"%string, [mark "A1" "present"; mark "B2" "absent"; mark "C3" "absent"])])
    None None [].

(** The cached variant after a first read, with one student stored and a
    disk whose next write will fail. *)
Definition cachedFailingDisk : World Flat.Att :=
  (Flat.getStudents
     (freshProcess (JsonObject (Some [mkStudent "002" "Bob" (Some "N/A")]) (Some ∅))
        [false])).2.


(** * Properties *)

(** ** Sorting *)
Section SortFacts.
Context {A : Type} (comparefn : A → A → comparison).
Hypothesis comparefn_total : ∀ x y, comparefn x y = Gt → comparefn y x ≠ Gt.
Hypothesis comparefn_trans :
  ∀ x y z, comparefn x y ≠ Gt → comparefn y z ≠ Gt → comparefn x z ≠ Gt.

Lemma insertSorted_perm (x : A) (l : list A) : insertSorted comparefn x l ≡ₚ x :: l.
Proof using Type.
  induction l as [|y l IH]; simpl; [done|].
  destruct (comparefn x y); try done.
  rewrite IH. apply Permutation_swap.
Qed.

Lemma arraySort_perm (l : list A) : arraySort comparefn l ≡ₚ l.
Proof using Type.
  induction l as [|x l IH]; simpl; [done|].
  rewrite insertSorted_perm. by rewrite IH.
Qed.

Lemma insertSorted_sorted (x : A) (l : list A) :
  StronglySorted (inOrder comparefn) l →
  StronglySorted (inOrder comparefn) (insertSorted comparefn x l).
Proof using comparefn_total comparefn_trans.
  induction 1 as [|y l Hl IH Hy]; simpl.
  - repeat constructor.
  - destruct (comparefn x y) eqn:Hxy.
    + constructor; [by constructor|].
      constructor; [unfold inOrder; congruence|].
      eapply Forall_impl; [exact Hy|].
      intros z Hz. apply (comparefn_trans x y z); [congruence|exact Hz].
    + constructor; [by constructor|].
      constructor; [unfold inOrder; congruence|].
      eapply Forall_impl; [exact Hy|].
      intros z Hz. apply (comparefn_trans x y z); [congruence|exact Hz].
    + constructor; [exact IH|].
      rewrite insertSorted_perm. constructor; [|exact Hy].
      by apply comparefn_total.
Qed.

Lemma arraySort_sorted (l : list A) :
  StronglySorted (inOrder comparefn) (arraySort comparefn l).
Proof using comparefn_total comparefn_trans.
  induction l as [|x l IH]; simpl; [constructor|].
  by apply insertSorted_sorted.
Qed.

Lemma arraySort_elem_of (x : A) (l : list A) : x ∈ arraySort comparefn l ↔ x ∈ l.
Proof using Type. by rewrite arraySort_perm. Qed.
End SortFacts.

Lemma StronglySorted_filter {A} (R : A → A → Prop) (P : A → Prop)
    `{∀ x, Decision (P x)} (l : list A) :
  StronglySorted R l → StronglySorted R (filter P l).
Proof.
  induction 1 as [|x l Hl IH Hx]; [constructor|].
  rewrite filter_cons. case_decide; [|done].
  constructor; [done|].
  rewrite Forall_forall in Hx. apply Forall_forall.
  intros y [_ Hy]%list_elem_of_filter. by apply Hx.
Qed.

Section CollatorFacts.
Context `{Collator}.

Lemma localeCompare_total a b : localeCompare a b = Gt → localeCompare b a ≠ Gt.
Proof. intros Hab. rewrite localeCompare_antisym, Hab. done. Qed.

Lemma byRollNo_total (a b : Student) : byRollNo a b = Gt → byRollNo b a ≠ Gt.
Proof. apply localeCompare_total. Qed.

Lemma byRollNo_trans (a b c : Student) :
  byRollNo a b ≠ Gt → byRollNo b c ≠ Gt → byRollNo a c ≠ Gt.
Proof. apply localeCompare_trans. Qed.

Lemma roster_sorted_after_sort (l : list Student) :
  StronglySorted (inOrder byRollNo) (arraySort byRollNo l).
Proof. apply arraySort_sorted; [apply byRollNo_total|apply byRollNo_trans]. Qed.
End CollatorFacts.

(** ** The document store *)
Section StoreFacts.
Context {Att : Type} `{Empty Att}.
Implicit Types (w : World Att) (d : Document Att).

Lemma deref_fresh (h : list (Document Att)) d c f ws t :
  deref (mkWorld (h ++ [d]) c f ws t) (length h) = d.
Proof. unfold deref; simpl. by rewrite list_lookup_middle. Qed.

Lemma alter_fresh (g : Document Att → Document Att) (h : list (Document Att)) d :
  alter g (length h) (h ++ [d]) = h ++ [g d].
Proof.
  rewrite <- (Nat.add_0_r (length h)) at 1. by rewrite alter_app_r.
Qed.

Lemma backfill_stringify d : backfill (Some (students d)) (Some (attendance d)) = d.
Proof. by destruct d. Qed.

Lemma loadData_loaded w : loadData w = (length (heap w), loaded w).
Proof.
  destruct w as [h c f ws t].
  unfold loadData, loaded, readFile, cacheFresh, storedDocument; simpl.
  destruct f; simpl; try done.
  unfold saveData, writeFile; simpl. rewrite deref_fresh.
  destruct (nextOutcome ws); simpl; by rewrite <- app_assoc.
Qed.

Lemma deref_loaded w : deref (loaded w) (length (heap w)) = storedDocument w.
Proof. destruct w. apply deref_fresh. Qed.

Lemma storedDocument_loaded w : storedDocument (loaded w) = storedDocument w.
Proof.
  destruct w as [h c f ws t]. unfold storedDocument, loaded; simpl.
  destruct f; simpl; try done. by destruct (nextOutcome ws).
Qed.

Lemma deref_mutate_loaded (g : Document Att → Document Att) w :
  deref (mutate (length (heap w)) g (loaded w)) (length (heap w))
  = g (storedDocument w).
Proof.
  destruct w as [h c f ws t]. unfold mutate, loaded; simpl.
  rewrite alter_fresh. apply deref_fresh.
Qed.

Lemma saveData_mutate_loaded (g : Document Att → Document Att) w :
  saveData (length (heap w)) (mutate (length (heap w)) g (loaded w))
  = (nextOutcome (writes (loaded w)), committed (g (storedDocument w)) w).
Proof.
  unfold saveData, writeFile. rewrite deref_mutate_loaded.
  destruct w as [h c f ws t]. unfold mutate, committed, loaded; simpl.
  rewrite alter_fresh.
  by destruct (nextOutcome (if match f with NoFile => true | _ => false end
                            then tail ws else ws)).
Qed.

Lemma storedDocument_committed d w :
  storedDocument (committed d w)
  = if nextOutcome (writes (loaded w)) then d else storedDocument w.
Proof.
  rewrite <- (storedDocument_loaded w).
  unfold committed. generalize (loaded w). intros w1.
  unfold storedDocument at 1. cbn [file].
  destruct (nextOutcome (writes w1)); [|done].
  apply backfill_stringify.
Qed.

Lemma reliable_nextOutcome w : reliable w → nextOutcome (writes w) = true.
Proof. unfold reliable. destruct (writes w); [done|]. by inversion 1. Qed.

Lemma reliable_tail (ws : list bool) :
  Forall (λ outcome, outcome = true) ws → Forall (λ outcome, outcome = true) (tail ws).
Proof. destruct 1; [constructor|done]. Qed.

Lemma reliable_loaded w : reliable w → reliable (loaded w).
Proof.
  unfold reliable, loaded; simpl. intros Hw.
  destruct (file w); try done. by apply reliable_tail.
Qed.

Lemma reliable_committed d w : reliable w → reliable (committed d w).
Proof.
  intros Hw. unfold reliable, committed; simpl.
  apply reliable_tail, (reliable_loaded w Hw).
Qed.
End StoreFacts.

Section MutateFacts.
Context {Att : Type} `{Empty Att}.
Implicit Types (w : World Att) (f g : Document Att → Document Att).

Lemma mutate_mutate data f g w :
  mutate data g (mutate data f w) = mutate data (g ∘ f) w.
Proof. unfold mutate; simpl. by rewrite list_alter_alter_eq. Qed.
End MutateFacts.

Ltac load_step :=
  repeat first
    [ rewrite loadData_loaded
    | rewrite mutate_mutate
    | rewrite deref_loaded
    | rewrite deref_mutate_loaded
    | rewrite saveData_mutate_loaded ];
  cbv beta iota zeta.

Lemma filter_all {A} (P : A → Prop) `{∀ x, Decision (P x)} (l : list A) :
  Forall P l → filter P l = l.
Proof.
  induction 1 as [|x l Hx Hl IH]; [done|].
  rewrite filter_cons. case_decide; [|done]. by rewrite IH.
Qed.

Lemma length_filter_eq {A} (P : A → Prop) `{∀ x, Decision (P x)} (l : list A) :
  length (filter P l) = length l → Forall P l.
Proof.
  induction l as [|x l IH]; [constructor|].
  rewrite filter_cons. case_decide; simpl; intros Hlen.
  - constructor; [done|]. apply IH. lia.
  - pose proof (length_filter P l). lia.
Qed.

(** ** [server.js]: the mutating handlers in closed form *)
Section NestedFacts.
Import Nested.
Context `{Collator}.
Implicit Types (w : World Att) (p : Process).

Lemma saveData_loaded w :
  saveData (length (heap w)) (loaded w)
  = (nextOutcome (writes (loaded w)), committed (storedDocument w) w).
Proof.
  unfold saveData, writeFile. rewrite deref_loaded.
  destruct w as [h c f ws t]. unfold committed, loaded; simpl.
  by destruct (nextOutcome (if match f with NoFile => true | _ => false end
                            then tail ws else ws)).
Qed.

Lemma deleteStudent_closed r w :
  deleteStudent r w =
  let d := storedDocument w in
  if (length (filter (λ s, roll_no s ≠ r) (students d)) =? length (students d))%nat then
    (mkResponse 404 (Message (notFoundMessage r)),
     mutate (length (heap w))
       (λ d, mkDocument (filter (λ s, roll_no s ≠ r) (students d)) (attendance d))
       (loaded w))
  else
    (if nextOutcome (writes (loaded w))
     then mkResponse 200 (Message (deletedMessage r))
     else mkResponse 500 (Message saveErrorMessage),
     committed (withoutStudent r d) w).
Proof.
  unfold deleteStudent. load_step. cbn [students attendance compose].
  destruct (_ =? _)%nat; [done|].
  by destruct (nextOutcome (writes (loaded w))).
Qed.

Lemma postStudent_closed body w r n :
  truthy (body_roll_no body) = Some r →
  truthy (body_name body) = Some n →
  postStudent body w =
  let d := storedDocument w in
  match List.find (λ s, String.eqb (roll_no s) r) (students d) with
  | Some _ => (mkResponse 400 (Message (existsMessage r)), loaded w)
  | None =>
      let newStudent := mkStudent r n (Some (orElse (body_course body) "N/A")) in
      (if nextOutcome (writes (loaded w))
       then mkResponse 201 (StudentRecord newStudent)
       else mkResponse 500 (Message saveErrorMessage),
       committed (withStudent newStudent d) w)
  end.
Proof.
  intros Hr Hn. unfold postStudent. rewrite Hr, Hn. load_step.
  destruct (List.find _ _); [done|].
  by destruct (nextOutcome (writes (loaded w))).
Qed.

(** The attendance handler in closed form: the list goes into the document
    when the subject is a property of the attendance object or is found
    nowhere, and onto the inherited object otherwise. *)
Lemma postAttendance_closed subject date attendanceList p :
  dateRegex date = true →
  subject ≠ ""%string →
  forallb validItem attendanceList = true →
  postAttendance subject date (ArrayOf attendanceList) p =
  let d := storedDocument p.1 in
  let enriched := enrichedAttendance (students d) attendanceList in
  let response :=
    if nextOutcome (writes (loaded p.1))
    then mkResponse 200 (Message (savedMessage subject date))
    else mkResponse 500 (Message attendanceSaveMessage) in
  match holder p.2 (attendance d) subject with
  | None | Some (OwnObject _) =>
      (response, (committed (withBucket subject date enriched d) p.1, p.2))
  | Some inherited => (response, (committed d p.1, hang inherited date enriched p.2))
  end.
Proof.
  intros Hdate Hsubject Hvalid. unfold postAttendance.
  rewrite Hdate, Hvalid. apply String.eqb_neq in Hsubject. rewrite Hsubject.
  cbn [negb]. load_step.
  destruct (holder p.2 (attendance (storedDocument p.1)) subject) as [[byDate| |member|key array]|];
    load_step; rewrite ?saveData_loaded;
    by destruct (nextOutcome (writes (loaded p.1))).
Qed.

(** A subject that names nothing inherited is looked up among the
    properties of the attendance object alone. *)
Lemma holder_ordinary realm (a : Att) subject :
  inheritedName subject = false →
  onPrototype realm !! subject = None →
  holder realm a subject = OwnObject <$> a !! subject.
Proof.
  unfold holder, inheritedName. intros [Hproto Hmethod]%orb_false_elim Hnone.
  destruct (a !! subject); [done|]. by rewrite Hproto, Hmethod, Hnone.
Qed.

Lemma listed_ordinary realm (a : Att) subject date :
  inheritedName subject = false →
  onPrototype realm = ∅ →
  listed realm a subject date = bucket a subject date.
Proof.
  intros Hsubject Hclean. unfold listed, bucket.
  rewrite holder_ordinary by (done || by rewrite Hclean, lookup_empty).
  destruct (a !! subject) as [byDate|]; [|done]. cbn.
  unfold dayOf. rewrite Hclean, lookup_empty. cbn. by destruct (byDate !! date).
Qed.

Lemma postAttendance_ordinary subject date attendanceList p :
  dateRegex date = true →
  subject ≠ ""%string →
  forallb validItem attendanceList = true →
  inheritedName subject = false →
  onPrototype p.2 !! subject = None →
  postAttendance subject date (ArrayOf attendanceList) p =
  let d := storedDocument p.1 in
  (if nextOutcome (writes (loaded p.1))
   then mkResponse 200 (Message (savedMessage subject date))
   else mkResponse 500 (Message attendanceSaveMessage),
   (committed (withBucket subject date (enrichedAttendance (students d) attendanceList) d)
      p.1, p.2)).
Proof.
  intros Hdate Hsubject Hvalid Hordinary Hnone.
  rewrite postAttendance_closed by done. cbv zeta.
  rewrite holder_ordinary by done.
  by destruct (attendance (storedDocument p.1) !! subject).
Qed.
End NestedFacts.
Section NestedBuckets.
Import Nested.

Lemma bucket_withoutStudent r (d : Document Att) subject date :
  bucket (attendance (withoutStudent r d)) subject date
  = filter (otherRoll r) (bucket (attendance d) subject date).
Proof.
  unfold bucket, withoutStudent; cbn [attendance].
  rewrite lookup_fmap. destruct (attendance d !! subject) as [byDate|]; [|done].
  cbn. rewrite lookup_fmap. by destruct (byDate !! date).
Qed.

Lemma bucket_withBucket subject date entries (d : Document Att) :
  bucket (attendance (withBucket subject date entries d)) subject date = entries.
Proof.
  unfold bucket, withBucket; cbn [attendance].
  rewrite lookup_insert_eq. cbn. by rewrite lookup_insert_eq.
Qed.
End NestedBuckets.

(** ** The roster *)

Lemma find_roll_None (r : string) (l : list Student) :
  List.find (λ s, String.eqb (roll_no s) r) l = None ↔ r ∉ (roll_no <$> l).
Proof.
  induction l as [|s l IH]; simpl.
  - split; [intros _; apply not_elem_of_nil|done].
  - rewrite not_elem_of_cons. destruct (String.eqb_spec (roll_no s) r) as [->|Hne].
    + split; [done|]. by intros [? _].
    + rewrite IH. split; [by intros ?; split|by intros [_ ?]].
Qed.

Lemma NoDup_fmap_filter {A B} (f : A → B) (P : A → Prop) `{∀ x, Decision (P x)}
    (l : list A) :
  NoDup (f <$> l) → NoDup (f <$> filter P l).
Proof.
  induction l as [|x l IH]; [done|].
  rewrite fmap_cons, NoDup_cons. intros [Hx Hl].
  rewrite filter_cons. case_decide; [|by apply IH].
  rewrite fmap_cons, NoDup_cons. split; [|by apply IH].
  intros Hin. apply Hx.
  apply list_elem_of_fmap in Hin as (y & Hy & Hin).
  apply list_elem_of_filter in Hin as [_ Hin].
  apply list_elem_of_fmap. eauto.
Qed.

Section RosterFacts.
Import Nested.
Context `{Collator}.
Implicit Types (w : World Att) (d : Document Att).

Lemma unique_withStudent newStudent d :
  roll_no newStudent ∉ (roll_no <$> students d) →
  uniqueRollNumbers d → uniqueRollNumbers (withStudent newStudent d).
Proof.
  unfold uniqueRollNumbers, withStudent; cbn [students]. intros Hfresh Hd.
  rewrite arraySort_perm, fmap_app. cbn.
  rewrite <- Permutation_cons_append. by apply NoDup_cons.
Qed.

Lemma sorted_withStudent newStudent d : rosterSorted (withStudent newStudent d).
Proof. apply roster_sorted_after_sort. Qed.

Lemma unique_withoutStudent r d :
  uniqueRollNumbers d → uniqueRollNumbers (withoutStudent r d).
Proof. apply NoDup_fmap_filter. Qed.

Lemma sorted_withoutStudent r d : rosterSorted d → rosterSorted (withoutStudent r d).
Proof. apply StronglySorted_filter. Qed.

(** Every request leaves the stored document alone or makes one of the
    three edits. *)

(** Every request leaves the stored document alone or makes one of the
    three edits. *)
Lemma handle_stored req (p : Process) :
  let d := storedDocument p.1 in
  let d' := storedDocument (handle req p).2.1 in
  d' = d
  ∨ (∃ newStudent, (roll_no newStudent ∉ (roll_no <$> students d))
                   ∧ d' = withStudent newStudent d)
  ∨ (∃ r, d' = withoutStudent r d)
  ∨ (∃ subject date entries, d' = withBucket subject date entries d).
Proof.
  intros d d'. subst d d'. destruct p as [w realm].
  destruct req as [|body|r| |subject date|subject date body|subject date];
    cbn [handle onWorld fst snd].
  - left. unfold getStudents. load_step. apply storedDocument_loaded.
  - destruct (truthy (body_roll_no body)) as [r|] eqn:Hr;
      [destruct (truthy (body_name body)) as [n|] eqn:Hn|].
    + rewrite (postStudent_closed body w r n Hr Hn). cbv zeta.
      destruct (List.find _ _) eqn:Hfind; cbn [snd].
      * left. apply storedDocument_loaded.
      * rewrite storedDocument_committed.
        destruct (nextOutcome _); [|by left].
        right; left. eexists. split; [|done]. by apply find_roll_None.
    + left. unfold postStudent. by rewrite Hr, Hn.
    + left. unfold postStudent. by rewrite Hr.
  - rewrite deleteStudent_closed. cbv zeta. destruct (_ =? _)%nat; cbn [snd].
    + left. apply (storedDocument_loaded w).
    + rewrite storedDocument_committed.
      destruct (nextOutcome _); [|by left]. right; right; left. eauto.
  - left. unfold getAllAttendance. load_step. apply storedDocument_loaded.
  - left. unfold getAttendance.
    destruct (negb _); [done|]. destruct (String.eqb _ _); [done|].
    cbn [fst snd]. load_step. apply storedDocument_loaded.
  - destruct (dateRegex date) eqn:Hdate;
      [|by left; unfold postAttendance; rewrite Hdate].
    destruct (String.eqb_spec subject "") as [->|Hsubject];
      [by left; unfold postAttendance; rewrite Hdate|].
    destruct body as [|attendanceList];
      [left; unfold postAttendance; rewrite Hdate;
       apply String.eqb_neq in Hsubject; by rewrite Hsubject|].
    destruct (forallb validItem attendanceList) eqn:Hvalid;
      [|left; unfold postAttendance; rewrite Hdate, Hvalid;
        apply String.eqb_neq in Hsubject; by rewrite Hsubject].
    rewrite postAttendance_closed by done. cbv zeta. cbn [fst snd].
    destruct (holder realm _ subject) as [[byDate| |member|key array]|];
      cbn [fst snd]; rewrite storedDocument_committed;
      destruct (nextOutcome _); eauto 10.
  - left. unfold printAttendance.
    destruct (negb _); [done|]. destruct (String.eqb _ _); [done|].
    cbn [fst snd]. load_step. apply storedDocument_loaded.
Qed.
End RosterFacts.

Lemma truthy_Some (field : option string) s :
  truthy field = Some s ↔ field = Some s ∧ s ≠ ""%string.
Proof.
  unfold truthy. destruct field as [t|]; [|by split; [|intros [? _]]].
  destruct (String.eqb_spec t ""); split; try done.
  - intros [[= ->] ?]. done.
  - by intros [= ->].
  - by intros [[= ->] _].
Qed.

Lemma truthy_None (field : option string) :
  truthy field = None ↔ field = None ∨ field = Some ""%string.
Proof.
  unfold truthy. destruct field as [t|]; [|by split; [left|]].
  destruct (String.eqb_spec t "") as [->|Hne]; split; try done.
  - by right.
  - by intros [?|[= ?]].
Qed.

(** C6.  [POST /api/students] of [server.js].  A roll number or a name that
    is absent or empty is refused with 400 and nothing is loaded; a roll
    number already stored is refused with 400 and the stored document stays
    as it was.  Otherwise, when no write fails, the answer is 201 with the
    new record, whose course is the one given or ["N/A"] when none or an
    empty one was given; the stored roster consists of the old students and
    the new one and is in the order of [localeCompare] on roll numbers; the
    attendance is untouched and the file holds just that document.  Whatever
    the request, a stored roster without a repeated roll number stays so, and
    a stored roster in the order of [localeCompare] on roll numbers stays
    so. *)
Theorem C6_addStudent `{Collator} (body : StudentBody) (w : World Nested.Att) :
  let d := storedDocument w in
  let response := (Nested.postStudent body w).1 in
  let w' := (Nested.postStudent body w).2 in
  let missing (field : option string) := field = None ∨ field = Some ""%string in
  let sortedByRollNo (l : list Student) :=
    StronglySorted (λ a b, localeCompare (roll_no a) (roll_no b) ≠ Gt) l in
  (missing (body_roll_no body) ∨ missing (body_name body) →
     response = mkResponse 400 (Message "Roll number and name are required.") ∧ w' = w)
  ∧ (∀ r n,
       body_roll_no body = Some r → r ≠ ""%string →
       body_name body = Some n → n ≠ ""%string →
       (r ∈ (roll_no <$> students d) →
          response
          = mkResponse 400
              (Message ("Student with roll number " +:+ r +:+ " already exists."))
          ∧ storedDocument w' = d)
       ∧ (r ∉ (roll_no <$> students d) → reliable w →
          ∃ c, ((missing (body_course body) ∧ c = "N/A"%string)
                ∨ (body_course body = Some c ∧ c ≠ ""%string))
               ∧ response = mkResponse 201 (StudentRecord (mkStudent r n (Some c)))
               ∧ students (storedDocument w') ≡ₚ mkStudent r n (Some c) :: students d
               ∧ sortedByRollNo (students (storedDocument w'))
               ∧ attendance (storedDocument w') = attendance d
               ∧ file w'
                 = JsonObject (Some (students (storedDocument w'))) (Some (attendance d))))
  ∧ (∀ req realm,
       NoDup (roll_no <$> students d) →
       NoDup (roll_no <$> students (storedDocument (Nested.handle req (w, realm)).2.1)))
  ∧ (∀ req realm,
       sortedByRollNo (students d) →
       sortedByRollNo (students (storedDocument (Nested.handle req (w, realm)).2.1))).
Proof.
  intros d response w' missing sortedByRollNo. subst response w'.
  split; [|split; [|split]].
  - intros Hmissing. unfold Nested.postStudent.
    destruct Hmissing as [Hr%truthy_None | Hn%truthy_None]; [by rewrite Hr|].
    destruct (truthy (body_roll_no body)); [by rewrite Hn|done].
  - intros r n Hr Hr' Hn Hn'.
    assert (Htr : truthy (body_roll_no body) = Some r) by by apply truthy_Some.
    assert (Htn : truthy (body_name body) = Some n) by by apply truthy_Some.
    rewrite (postStudent_closed body w r n Htr Htn). cbv zeta. fold d. split.
    + intros Hdup. destruct (List.find _ _) eqn:Hfind; cbn [fst snd].
      * split; [done|]. apply storedDocument_loaded.
      * by apply find_roll_None in Hfind.
    + intros Hfresh Hw. apply find_roll_None in Hfresh. rewrite Hfresh.
      cbn [fst snd]. rewrite storedDocument_committed.
      unfold committed; cbn [file].
      rewrite (reliable_nextOutcome (loaded w)) by by apply reliable_loaded.
      exists (orElse (body_course body) "N/A"). split.
      { unfold orElse. destruct (truthy (body_course body)) as [c|] eqn:Hc; cbn.
        - right. by apply truthy_Some.
        - left. split; [|done]. by apply truthy_None. }
      split; [done|]. split; [|split; [apply sorted_withStudent|done]].
      unfold Nested.withStudent; cbn [students].
      rewrite arraySort_perm. by rewrite <- Permutation_cons_append.
  - intros req realm Hd.
    destruct (handle_stored req (w, realm))
      as [-> | [(s & Hs & ->) | [(r & ->) | (su & da & en & ->)]]].
    + done.
    + by apply unique_withStudent.
    + by apply unique_withoutStudent.
    + done.
  - intros req realm Hd.
    destruct (handle_stored req (w, realm))
      as [-> | [(s & Hs & ->) | [(r & ->) | (su & da & en & ->)]]].
    + done.
    + apply sorted_withStudent.
    + by apply sorted_withoutStudent.
    + done.
Qed.

Lemma C6_addStudent_witness :
  let physics := mkStudentBody (Some "001") (Some "Alice") (Some "Physics") in
  let added := Nested.postStudent (H := latinCollator) physics oneStudent in
  added.1 = mkResponse 201 (StudentRecord (mkStudent "001" "Alice" (Some "Physics")))
  ∧ students (storedDocument added.2)
    = [mkStudent "001" "Alice" (Some "Physics"); mkStudent "002" "Bob" (Some "N/A")]
  ∧ (Nested.postStudent (H := latinCollator)
       (mkStudentBody (Some "B7") (Some "Cy") None) added.2).1
    = mkResponse 201 (StudentRecord (mkStudent "B7" "Cy" (Some "N/A")))
  ∧ students (storedDocument (Nested.postStudent (H := latinCollator)
       (mkStudentBody (Some "b10") (Some "Di") (Some ""))
       (Nested.postStudent (H := latinCollator)
          (mkStudentBody (Some "B7") (Some "Cy") None) added.2).2).2)
    = [mkStudent "001" "Alice" (Some "Physics"); mkStudent "002" "Bob" (Some "N/A");
       mkStudent "b10" "Di" (Some "N/A"); mkStudent "B7" "Cy" (Some "N/A")]
  ∧ Nested.postStudent (H := latinCollator) (mkStudentBody (Some "001") None None) oneStudent
    = (mkResponse 400 (Message "Roll number and name are required."), oneStudent)
  ∧ (Nested.postStudent (H := latinCollator)
       (mkStudentBody (Some "002") (Some "Bea") None) oneStudent).1
    = mkResponse 400 (Message "Student with roll number 002 already exists.")
  ∧ NoDup (roll_no <$> students (storedDocument
             (Nested.handle (H := latinCollator) (Nested.PostStudent physics)
                (oneStudent, Nested.pristine)).2.1)).
Proof.
  intros physics added.
  destruct (C6_addStudent (H := latinCollator) physics oneStudent)
    as (_ & Hadd & Hunique & _).
  destruct (Hadd "001"%string "Alice"%string eq_refl ltac:(discriminate)
              eq_refl ltac:(discriminate)) as [_ Hfresh].
  destruct Hfresh as (c & Hcourse & Hresponse & _).
  { cbn. by intros ?%list_elem_of_singleton. }
  { constructor. }
  assert (c = "Physics"%string) as ->.
  { destruct Hcourse as [[[Hnone|Hempty] _]|[Hgiven _]]; try discriminate.
    by injection Hgiven. }
  destruct (C6_addStudent (H := latinCollator) (mkStudentBody (Some "001") None None)
              oneStudent) as (Hrequired & _).
  destruct (Hrequired (or_intror (or_introl eq_refl))) as [Hrefused Hsame].
  destruct (C6_addStudent (H := latinCollator)
              (mkStudentBody (Some "002") (Some "Bea") None) oneStudent)
    as (_ & Hdup & _).
  destruct (Hdup "002"%string "Bea"%string eq_refl ltac:(discriminate)
              eq_refl ltac:(discriminate)) as [Hexists _].
  destruct Hexists as [Hexists _]; [left|].
  split; [exact Hresponse|]. split; [vm_compute; reflexivity|].
  split; [vm_compute; reflexivity|]. split; [vm_compute; reflexivity|].
  split; [by apply injective_projections|]. split; [exact Hexists|].
  apply (Hunique (Nested.PostStudent physics) Nested.pristine).
  vm_compute. repeat constructor. apply not_elem_of_nil.
Defined.
Section TrimFacts.

Lemma dropWhile_nil {A} (p : A → bool) (l : list A) :
  dropWhile p l = [] ↔ Forall (λ x, p x = true) l.
Proof.
  induction l as [|x l IH]; cbn; [by split; [constructor|]|].
  destruct (p x) eqn:Hx.
  - rewrite IH. split; [by constructor|]. by intros [_ ?]%Forall_cons.
  - split; [done|]. intros [Hx' _]%Forall_cons. congruence.
Qed.

Lemma dropWhile_head {A} (p : A → bool) (l : list A) x rest :
  dropWhile p l = x :: rest → p x = false.
Proof.
  induction l as [|y l IH]; cbn; [done|].
  destruct (p y) eqn:Hy; [done|]. by intros [= <- <-].
Qed.

(** A string trims to the empty string exactly when it is all white space. *)
Lemma trim_empty (s : string) :
  trim s = ""%string ↔ Forall (λ c, isWhiteSpace c = true) (list_ascii_of_string s).
Proof.
  unfold trim. set (l := list_ascii_of_string s).
  destruct (dropWhile isWhiteSpace l) as [|c front] eqn:Hfront.
  - cbn. split; [intros _|done]. by apply dropWhile_nil.
  - split.
    + intros Hempty. exfalso.
      assert (Hrev : rev (dropWhile isWhiteSpace (rev (c :: front))) = []).
      { destruct (rev (dropWhile isWhiteSpace (rev (c :: front)))); [done|].
        discriminate Hempty. }
      apply (f_equal (@rev ascii)) in Hrev. rewrite rev_involutive in Hrev.
      change (rev []) with (@nil ascii) in Hrev.
      apply dropWhile_nil in Hrev.
      apply dropWhile_head in Hfront.
      rewrite Forall_forall in Hrev.
      assert (Hc : isWhiteSpace c = true).
      { apply Hrev. rewrite list_elem_of_In, <- in_rev. by left. }
      congruence.
    + intros Hall. apply dropWhile_nil in Hall. congruence.
Qed.
End TrimFacts.

(** ** Attendance of [server.js] *)
Section AttendanceFacts.
Import Nested.
Implicit Types (w : World Att) (d : Document Att) (p : Process).

Lemma withBucket_idem subject date entries d :
  withBucket subject date entries (withBucket subject date entries d)
  = withBucket subject date entries d.
Proof.
  unfold withBucket; cbn [students attendance]. f_equal.
  rewrite lookup_insert_eq. cbn. by rewrite !insert_insert_eq.
Qed.

Lemma getAttendance_response subject date p :
  (getAttendance subject date p).1
  = if negb (dateRegex date) then mkResponse 400 (Message dateMessage)
    else if String.eqb subject "" then mkResponse 400 (Message subjectMessage)
    else mkResponse 200
           (EntryList (listed p.2 (attendance (storedDocument p.1)) subject date)).
Proof.
  unfold getAttendance.
  destruct (negb _); [done|]. destruct (String.eqb _ _); [done|].
  by load_step.
Qed.

Lemma postAttendance_reliable subject date attendanceList p :
  dateRegex date = true →
  subject ≠ ""%string →
  forallb validItem attendanceList = true →
  inheritedName subject = false →
  onPrototype p.2 !! subject = None →
  reliable p.1 →
  let d := storedDocument p.1 in
  let d' := withBucket subject date (enrichedAttendance (students d) attendanceList) d in
  postAttendance subject date (ArrayOf attendanceList) p
  = (mkResponse 200 (Message (savedMessage subject date)), (committed d' p.1, p.2))
  ∧ storedDocument (committed d' p.1) = d'
  ∧ file (committed d' p.1) = stringify d'
  ∧ reliable (committed d' p.1).
Proof.
  intros Hdate Hsubject Hvalid Hordinary Hnone Hw d d'.
  rewrite postAttendance_ordinary by done. fold d d'.
  assert (Hok : nextOutcome (writes (loaded p.1)) = true)
    by by apply reliable_nextOutcome, reliable_loaded.
  rewrite storedDocument_committed. unfold committed at 3; cbn [file].
  rewrite Hok. repeat split. by apply reliable_committed.
Qed.

Lemma enrichedAttendance_elem_of roster attendanceList e :
  e ∈ enrichedAttendance roster attendanceList ↔
  ∃ att s, att ∈ attendanceList
           ∧ List.find (λ s, sameRoll s att) roster = Some s
           ∧ e = withName att (name s).
Proof.
  unfold enrichedAttendance. rewrite list_elem_of_omap. split.
  - intros (att & Hatt & He).
    destruct (List.find _ roster) as [s|] eqn:Hfind; [|done].
    exists att, s. by inversion He.
  - intros (att & s & Hatt & Hfind & ->). exists att. by rewrite Hfind.
Qed.

Lemma find_sameRoll_Some roster att s :
  List.find (λ s, sameRoll s att) roster = Some s →
  s ∈ roster ∧ att_roll_no att = Some (roll_no s).
Proof.
  intros [Hin Hsame]%find_some. split; [by apply list_elem_of_In|].
  unfold sameRoll in Hsame. destruct (att_roll_no att) as [r|]; [|done].
  by apply String.eqb_eq in Hsame as <-.
Qed.

Lemma find_sameRoll_None roster att :
  List.find (λ s, sameRoll s att) roster = None ↔
  ∀ s, s ∈ roster → att_roll_no att ≠ Some (roll_no s).
Proof.
  split.
  - intros Hnone s Hs Hroll.
    apply list_elem_of_In in Hs. pose proof (find_none _ _ Hnone s Hs) as Hsame.
    cbn beta in Hsame. unfold sameRoll in Hsame. rewrite Hroll in Hsame.
    by rewrite String.eqb_refl in Hsame.
  - intros Hall. destruct (List.find _ roster) as [s|] eqn:Hfind; [|done].
    apply find_sameRoll_Some in Hfind as [Hs Hroll]. by destruct (Hall s Hs).
Qed.

Lemma find_firstWithRoll roster att s :
  List.find (λ s, sameRoll s att) roster = Some s → firstWithRoll roster att s.
Proof.
  induction roster as [|t roster IH]; [done|]. cbn [List.find].
  destruct (sameRoll t att) eqn:Hsame.
  - intros [= ->]. exists [], roster. split; [done|]. split; [|constructor].
    unfold sameRoll in Hsame. destruct (att_roll_no att) as [r|]; [|done].
    by apply String.eqb_eq in Hsame as <-.
  - intros (before & after & -> & Hroll & Hbefore)%IH.
    exists (t :: before), after. split; [done|]. split; [done|].
    constructor; [|done]. intros Heq. unfold sameRoll in Hsame.
    rewrite Heq in Hsame. by rewrite String.eqb_refl in Hsame.
Qed.

Lemma find_unknownTo roster att :
  List.find (λ s, sameRoll s att) roster = None → unknownTo roster att.
Proof.
  intros Hnone. apply Forall_forall. by apply find_sameRoll_None.
Qed.

(** The enrichment of [server.js] keeps the entries of known students. *)
Lemma enrichedAttendance_drops roster attendanceList :
  DropsUnknown roster attendanceList (enrichedAttendance roster attendanceList).
Proof.
  induction attendanceList as [|att l IH]; [constructor|].
  unfold enrichedAttendance. cbn [omap list_omap].
  destruct (List.find (λ s, sameRoll s att) roster) as [s|] eqn:Hfind.
  - apply (drops_known roster att s); [by apply find_firstWithRoll|exact IH].
  - apply drops_unknown; [by apply find_unknownTo|exact IH].
Qed.

Lemma validItem_wellFormed (item : Entry) : wellFormedItem item → validItem item = true.
Proof.
  intros (r & s & Hr & Hs & (c & Hc & Hws) & Hstatus).
  unfold validItem. rewrite Hr, Hs.
  apply andb_true_iff. split.
  - apply negb_true_iff, String.eqb_neq. rewrite trim_empty.
    rewrite Forall_forall. intros Hall. specialize (Hall c Hc). congruence.
  - unfold validStatus. by destruct Hstatus as [-> | ->].
Qed.

Lemma validItems_wellFormed (l : list Entry) :
  Forall wellFormedItem l → forallb validItem l = true.
Proof.
  induction 1 as [|item l Hitem _ IH]; [done|].
  cbn [forallb]. by rewrite validItem_wellFormed, IH.
Qed.
End AttendanceFacts.
(** ** The cached variant *)
Section FlatFacts.
Import Flat.
Implicit Types (w : World Att) (d : Document Att).

Lemma loadDataCached_miss w :
  dataCache w = None → reliable w →
  loadDataCached w = (Some (length (heap w)), loaded w).
Proof.
  intros Hcache Hw. unfold loadDataCached. rewrite Hcache.
  pose proof (reliable_nextOutcome w Hw) as Hok.
  destruct w as [h c f ws t]; cbn in *.
  unfold loaded, storedDocument; cbn. destruct f; cbn; try done.
  unfold saveData, writeFile; cbn. rewrite deref_fresh, Hok. cbn.
  by rewrite <- app_assoc.
Qed.

(** A successful [POST /api/attendance/:date]: the world it leaves. *)
Lemma postAttendance_flat_reliable date attendanceList w :
  dateRegex date = true →
  forallb validItem attendanceList = true →
  reliable w → cacheValid w →
  let d := currentDocument w in
  let d' := withFlatBucket date (enrichedAttendance (students d) attendanceList) d in
  ∃ w', postAttendance date (ArrayOf attendanceList) w
        = (mkResponse 200 (Message (savedMessage date)), w')
        ∧ currentDocument w' = d'
        ∧ file w' = stringify d'
        ∧ reliable w' ∧ cacheValid w'.
Proof.
  intros Hdate Hvalid Hw Hcache d d'. unfold postAttendance.
  rewrite Hdate, Hvalid. cbn [negb].
  destruct (dataCache w) as [data|] eqn:Hdata.
  - unfold loadDataCached. rewrite Hdata.
    pose proof (Hcache data Hdata) as Hlt.
    assert (Hd : d = deref w data) by (unfold d, currentDocument; by rewrite Hdata).
    set (g := λ d0 : Document Att,
           mkDocument (students d0)
             (<[date := enrichedAttendance (students (deref w data)) attendanceList]>
                (attendance d0))).
    assert (Hderef : deref (mutate data g w) data = g (deref w data)).
    { unfold deref, mutate; cbn [heap]. rewrite list_lookup_alter.
      destruct (lookup_lt_is_Some_2 (heap w) data Hlt) as [d0 Hd0].
      rewrite decide_True by done. by rewrite Hd0. }
    unfold saveData, writeFile. rewrite Hderef. cbn [writes mutate].
    rewrite (reliable_nextOutcome w Hw).
    eexists. split; [done|].
    unfold currentDocument; cbn [dataCache]. unfold deref; cbn [heap].
    fold (deref (mutate data g w) data). rewrite Hderef.
    unfold d', withFlatBucket. rewrite Hd.
    split; [done|]. split; [done|]. split.
    + unfold reliable; cbn [writes]. by apply reliable_tail.
    + intros data' [= <-]. cbn. by rewrite length_alter.
  - rewrite (loadDataCached_miss w Hdata Hw).
    assert (Hd : d = storedDocument w) by (unfold d, currentDocument; by rewrite Hdata).
    load_step. rewrite (reliable_nextOutcome (loaded w)) by by apply reliable_loaded.
    eexists. split; [done|].
    unfold currentDocument, committed; cbn [dataCache file heap writes].
    rewrite deref_fresh.
    rewrite (reliable_nextOutcome (loaded w)) by by apply reliable_loaded.
    unfold d', withFlatBucket. rewrite Hd.
    split; [done|]. split; [done|]. split.
    + apply reliable_tail, (reliable_loaded w Hw).
    + intros data' [= <-]. cbn [heap]. rewrite length_app. cbn. lia.
Qed.

Lemma withFlatBucket_idem date entries d :
  withFlatBucket date entries (withFlatBucket date entries d)
  = withFlatBucket date entries d.
Proof. unfold withFlatBucket; cbn. by rewrite insert_insert_eq. Qed.

Lemma getAttendance_flat_response date w :
  reliable w →
  (getAttendance date w).1
  = if negb (dateRegex date) then mkResponse 400 (Message dateMessage)
    else mkResponse 200 (EntryList (bucket (attendance (currentDocument w)) date)).
Proof.
  intros Hw. unfold getAttendance. destruct (negb _); [done|].
  unfold currentDocument. destruct (dataCache w) as [data|] eqn:Hdata.
  - unfold loadDataCached. by rewrite Hdata.
  - rewrite (loadDataCached_miss w Hdata Hw). cbn [fst]. by rewrite deref_loaded.
Qed.
End FlatFacts.

Lemma enrichedAttendance_labels roster attendanceList :
  LabelsUnknown roster attendanceList (Flat.enrichedAttendance roster attendanceList).
Proof.
  induction attendanceList as [|att l IH]; [constructor|].
  unfold Flat.enrichedAttendance. cbn [map].
  destruct (List.find (λ s, sameRoll s att) roster) as [s|] eqn:Hfind.
  - apply (labels_known roster att s); [by apply find_firstWithRoll|exact IH].
  - apply labels_unknown; [by apply find_unknownTo|exact IH].
Qed.

Lemma validItems_typed (l : list Entry) :
  Forall typedItem l → forallb Flat.validItem l = true.
Proof.
  induction 1 as [|item l (r & s & Hr & Hs & Hstatus) _ IH]; [done|].
  cbn [forallb]. rewrite IH. unfold Flat.validItem, validStatus. rewrite Hr, Hs.
  by destruct Hstatus as [-> | ->].
Qed.

Lemma bucket_key_withBucket subject date entries (d : Document Nested.Att) :
  attendance (Nested.withBucket subject date entries d) !! subject
    ≫= (λ byDate, byDate !! date)
  = Some entries.
Proof.
  unfold Nested.withBucket; cbn [attendance].
  rewrite lookup_insert_eq. cbn. by rewrite lookup_insert_eq.
Qed.

Lemma listed_own realm (a : Nested.Att) subject date entries :
  a !! subject ≫= (λ byDate, byDate !! date) = Some entries →
  Nested.listed realm a subject date = entries.
Proof.
  unfold Nested.listed, Nested.holder, Nested.dayOf.
  destruct (a !! subject) as [byDate|]; [|done]. cbn. by intros ->.
Qed.

(** C3 (amended).  In [server.js], for a well-formed date, a subject that is
    not empty and names nothing the attendance object inherits, a list
    whose items each carry a roll number that is not blank and a status
    that is ["present"] or ["absent"], and no failing write: the call
    answers 200; the bucket stored for the subject and the date holds the
    input entries whose roll number is that of a roster student, in the
    order of the input, each with that student's name, and nothing else; an
    input entry whose roll number matches no roster student leaves no entry
    with that roll number; the file holds just that, and a [GET] of the
    bucket returns it.  In the first flat variant every entry is stored: one
    whose roll number matches no roster student is stored under the name
    ["Unknown"]. *)
Theorem C3_unknown_entries_dropped (subject date : string)
    (attendanceList : list Entry) (p : Nested.Process) (wf : World Flat.Att) :
  dateRegex date = true →
  (subject ≠ ""%string →
   Forall wellFormedItem attendanceList →
   inheritedName subject = false →
   Nested.onPrototype p.2 !! subject = None →
   reliable p.1 →
   let d := storedDocument p.1 in
   let result := Nested.postAttendance subject date (ArrayOf attendanceList) p in
   result.1
   = mkResponse 200
       (Message ("Attendance for " +:+ subject +:+ " on " +:+ date +:+ " saved successfully."))
   ∧ ∃ stored,
       attendance (storedDocument result.2.1) !! subject ≫= (λ byDate, byDate !! date)
       = Some stored
       ∧ DropsUnknown (students d) attendanceList stored
       ∧ (∀ e, e ∈ stored →
            ∃ att s, att ∈ attendanceList ∧ s ∈ students d
                     ∧ att_roll_no att = Some (roll_no s) ∧ e = carrying att (name s))
       ∧ (∀ att, att ∈ attendanceList → unknownTo (students d) att →
            ∀ e, e ∈ stored → att_roll_no e ≠ att_roll_no att)
       ∧ file result.2.1
         = JsonObject (Some (students d))
             (Some (<[subject := <[date := stored]> (default ∅ (attendance d !! subject))]>
                      (attendance d)))
       ∧ (Nested.getAttendance subject date result.2).1
         = mkResponse 200 (EntryList stored))
  ∧ (Forall typedItem attendanceList →
     reliable wf → cacheValid wf →
     let d := currentDocument wf in
     let result := Flat.postAttendance date (ArrayOf attendanceList) wf in
     result.1
     = mkResponse 200 (Message ("Attendance for " +:+ date +:+ " saved successfully."))
     ∧ ∃ stored,
         file result.2
         = JsonObject (Some (students d)) (Some (<[date := stored]> (attendance d)))
         ∧ LabelsUnknown (students d) attendanceList stored
         ∧ length stored = length attendanceList
         ∧ (∀ att, att ∈ attendanceList → unknownTo (students d) att →
              carrying att "Unknown" ∈ stored)
         ∧ (Flat.getAttendance date result.2).1 = mkResponse 200 (EntryList stored)).
Proof.
  intros Hdate. split.
  - intros Hsubject Hitems Hordinary Hnone Hw d result.
    pose proof (validItems_wellFormed _ Hitems) as Hvalid.
    destruct (postAttendance_reliable subject date attendanceList p)
      as (Hresult & Hstored & Hfile & _); try done.
    cbv zeta in Hresult, Hstored, Hfile. fold d in Hresult, Hstored, Hfile.
    unfold result. rewrite Hresult. cbn [fst snd]. split; [done|].
    exists (Nested.enrichedAttendance (students d) attendanceList).
    rewrite Hstored. split; [apply bucket_key_withBucket|].
    split; [apply enrichedAttendance_drops|]. split; [|split; [|split]].
    + intros e (att & s & Hatt & Hfind & ->)%enrichedAttendance_elem_of.
      apply find_sameRoll_Some in Hfind as [Hs Hroll]. by exists att, s.
    + intros att Hatt Hunknown e (att' & s & Hatt' & Hfind & ->)%enrichedAttendance_elem_of.
      apply find_sameRoll_Some in Hfind as [Hs Hroll]. cbn [withName att_roll_no].
      rewrite Hroll. intros Heq. unfold unknownTo in Hunknown.
      rewrite Forall_forall in Hunknown.
      by apply (Hunknown s Hs).
    + by rewrite Hfile.
    + rewrite getAttendance_response, Hdate. cbn [negb fst snd].
      apply String.eqb_neq in Hsubject. rewrite Hsubject, Hstored.
      f_equal. f_equal. apply listed_own, bucket_key_withBucket.
  - intros Hitems Hw Hcache d result.
    pose proof (validItems_typed _ Hitems) as Hvalid.
    destruct (postAttendance_flat_reliable date attendanceList wf Hdate Hvalid Hw Hcache)
      as (w' & Hresult & Hcurrent & Hfile & Hw' & _).
    cbv zeta in Hcurrent, Hfile. fold d in Hcurrent, Hfile.
    unfold result. rewrite Hresult. cbn [fst snd]. split; [done|].
    exists (Flat.enrichedAttendance (students d) attendanceList).
    split; [by rewrite Hfile|]. split; [apply enrichedAttendance_labels|].
    split; [unfold Flat.enrichedAttendance; by rewrite length_map|]. split.
    + intros att Hatt Hunknown. unfold Flat.enrichedAttendance.
      apply list_elem_of_In, in_map_iff. exists att. split; [|by apply list_elem_of_In].
      unfold unknownTo in Hunknown. rewrite Forall_forall in Hunknown.
      apply find_sameRoll_None in Hunknown.
      by rewrite Hunknown.
    + rewrite getAttendance_flat_response by done. rewrite Hdate. cbn [negb].
      rewrite Hcurrent. unfold withFlatBucket, Flat.bucket; cbn [attendance].
      by rewrite lookup_insert_eq.
Qed.

Lemma C3_unknown_entries_dropped_witness :
  let bob := mkStudent "002" "Bob" (Some "N/A") in
  let nested :=
    Nested.postAttendance "Physics" "2024-01-01" (ArrayOf physicsMarks)
      (oneStudent, Nested.pristine) in
  let flat := Flat.postAttendance "2024-01-01" (ArrayOf physicsMarks) flatOneStudent in
  (nested.1
   = mkResponse 200 (Message "Attendance for Physics on 2024-01-01 saved successfully.")
   ∧ file nested.2.1
     = JsonObject (Some [bob])
         (Some {[ "Physics"%string :=
                    {[ "2024-01-01"%string := [marked "002" "present" "Bob"] ]} ]})
   ∧ (Nested.getAttendance "Physics" "2024-01-01" nested.2).1
     = mkResponse 200 (EntryList [marked "002" "present" "Bob"]))
  ∧ (flat.1 = mkResponse 200 (Message "Attendance for 2024-01-01 saved successfully.")
     ∧ file flat.2
       = JsonObject (Some [bob])
           (Some {[ "2024-01-01"%string :=
                      [marked "002" "present" "Bob"; marked "999" "absent" "Unknown"] ]})).
Proof.
  intros bob nested flat.
  destruct (C3_unknown_entries_dropped "Physics" "2024-01-01" physicsMarks
              (oneStudent, Nested.pristine) flatOneStudent eq_refl) as [Hnested Hflat].
  assert (Hshape : ∀ r s c, c ∈ list_ascii_of_string r → isWhiteSpace c = false →
                     s = "present"%string ∨ s = "absent"%string →
                     wellFormedItem (mark r s)).
  { intros r s c Hc Hws Hs. exists r, s. repeat split; eauto. }
  destruct Hnested as [Hresponse _].
  - discriminate.
  - repeat constructor.
    + apply (Hshape _ _ "0"%char); [by left|done|by left].
    + apply (Hshape _ _ "9"%char); [by left|done|by right].
  - reflexivity.
  - reflexivity.
  - constructor.
  - destruct Hflat as [Hflat _].
    + repeat constructor.
      * exists "002"%string, "present"%string. repeat split; by left.
      * exists "999"%string, "absent"%string. repeat split; by right.
    + constructor.
    + intros data Hdata. discriminate Hdata.
    + split; [split; [exact Hresponse|split; vm_compute; reflexivity]|].
      split; [exact Hflat|vm_compute; reflexivity].
Defined.

Lemma C3_flat_variant_stores_unknown_entries :
  let result :=
    Flat.postAttendance "2024-01-01" (ArrayOf [mark "999" "absent"]) flatOneStudent in
  result.1 = mkResponse 200 (Message (Flat.savedMessage "2024-01-01"))
  ∧ file result.2
    = JsonObject (Some [mkStudent "002" "Bob" (Some "N/A")])
        (Some {[ "2024-01-01"%string := [marked "999" "absent" "Unknown"] ]})
  ∧ (Nested.postAttendance "Physics" "2024-01-01" (ArrayOf [mark " " "present"])
       (oneStudent, Nested.pristine)).1
    = mkResponse 400 (Message Nested.listMessage).
Proof. repeat split; vm_compute; reflexivity. Qed.
(** ** Date validation *)

Lemma dateRegex_shape (date : string) :
  dateRegex date = true ↔
  ∃ y1 y2 y3 y4 m1 m2 d1 d2,
    forallb isDigit [y1; y2; y3; y4; m1; m2; d1; d2] = true
    ∧ date = string_of_list_ascii [y1; y2; y3; y4; "-"; m1; m2; "-"; d1; d2]%char.
Proof.
  split.
  - unfold dateRegex. intros Hdate.
    rewrite <- (string_of_list_ascii_of_string date).
    destruct (list_ascii_of_string date)
      as [|y1 [|y2 [|y3 [|y4 [|h1 [|m1 [|m2 [|h2 [|d1 [|d2 [|extra rest]]]]]]]]]]];
      try discriminate Hdate.
    apply andb_prop in Hdate as [Hdate Hh2]. apply andb_prop in Hdate as [Hdigits Hh1].
    apply Ascii.eqb_eq in Hh1 as ->. apply Ascii.eqb_eq in Hh2 as ->.
    by exists y1, y2, y3, y4, m1, m2, d1, d2.
  - intros (y1 & y2 & y3 & y4 & m1 & m2 & d1 & d2 & Hdigits & ->).
    unfold dateRegex. rewrite list_ascii_of_string_of_list_ascii.
    by rewrite Hdigits.
Qed.


Section InheritedFacts.
Import Nested.

(** What [data.attendance[subject]] can be, and when. *)
Lemma holder_cases realm (a : Att) subject :
  match holder realm a subject with
  | Some (OwnObject byDate) => a !! subject = Some byDate
  | Some ThePrototype => a !! subject = None ∧ subject = "__proto__"%string
  | Some (Method member) =>
      a !! subject = None ∧ member = subject ∧ String.eqb subject "__proto__" = false
      ∧ isPrototypeMethod subject = true
  | Some (HungArray key array) =>
      a !! subject = None ∧ key = subject ∧ String.eqb subject "__proto__" = false
      ∧ isPrototypeMethod subject = false ∧ onPrototype realm !! subject = Some array
  | None =>
      a !! subject = None ∧ inheritedName subject = false
      ∧ onPrototype realm !! subject = None
  end.
Proof.
  unfold holder, inheritedName. destruct (a !! subject) as [byDate|]; [done|].
  destruct (String.eqb_spec subject "__proto__") as [->|Hne]; [done|].
  destruct (isPrototypeMethod subject) eqn:Hmethod; [done|].
  by destruct (onPrototype realm !! subject).
Qed.

(** Wherever the list went, a later look at the same subject and date finds
    it. *)
Lemma listed_hang realm (a : Att) subject date enriched inherited :
  holder realm a subject = Some inherited →
  (∀ byDate, inherited ≠ OwnObject byDate) →
  listed (hang inherited date enriched realm) a subject date = enriched.
Proof.
  intros Hholder Hinherited. pose proof (holder_cases realm a subject) as Hcases.
  rewrite Hholder in Hcases. unfold listed, holder, dayOf.
  destruct inherited as [byDate| |member|key array].
  - by destruct (Hinherited byDate).
  - destruct Hcases as [Hown ->]. rewrite Hown. cbn.
    by rewrite lookup_insert_eq.
  - destruct Hcases as (Hown & -> & Hproto & Hmethod). rewrite Hown, Hproto, Hmethod.
    cbn. rewrite lookup_insert_eq. cbn. by rewrite lookup_insert_eq.
  - destruct Hcases as (Hown & -> & Hproto & Hmethod & Harray).
    rewrite Hown, Hproto, Hmethod. cbn. rewrite lookup_insert_eq. cbn.
    by rewrite lookup_insert_eq.
Qed.

(** The list a successful [POST] leaves is what the next [GET] of the same
    subject and date finds, whatever the subject. *)
Lemma postAttendance_then_listed subject date attendanceList (p : Process) :
  dateRegex date = true →
  subject ≠ ""%string →
  forallb validItem attendanceList = true →
  reliable p.1 →
  let result := postAttendance subject date (ArrayOf attendanceList) p in
  result.1 = mkResponse 200 (Message (savedMessage subject date))
  ∧ reliable result.2.1
  ∧ students (storedDocument result.2.1) = students (storedDocument p.1)
  ∧ listed result.2.2 (attendance (storedDocument result.2.1)) subject date
    = enrichedAttendance (students (storedDocument p.1)) attendanceList.
Proof.
  intros Hdate Hsubject Hvalid Hw result. subst result.
  rewrite postAttendance_closed by done. cbv zeta.
  assert (Hok : nextOutcome (writes (loaded p.1)) = true)
    by by apply reliable_nextOutcome, reliable_loaded.
  rewrite Hok.
  destruct (holder p.2 (attendance (storedDocument p.1)) subject)
    as [inherited|] eqn:Hholder.
  - destruct inherited as [byDate| |member|key array]; cbn [fst snd];
      rewrite storedDocument_committed, Hok;
      (split; [done|]); (split; [by apply reliable_committed|]); (split; [done|]);
      try (by apply listed_own, bucket_key_withBucket);
      by apply listed_hang.
  - cbn [fst snd]. rewrite storedDocument_committed, Hok.
    split; [done|]. split; [by apply reliable_committed|]. split; [done|].
    apply listed_own, bucket_key_withBucket.
Qed.
End InheritedFacts.

Ltac other_answer H :=
  cbn [negb] in H;
  unfold dateMessage, subjectMessage, arrayMessage, Nested.listMessage, Flat.listMessage,
    Reread.listMessage, Reread.postDateMessage in H;
  repeat case_match; simplify_eq/=.

(** C10.  Every attendance endpoint of [server.js], of the first flat
    variant and of the third unnamed source accepts a date exactly when it
    consists of four digits, a dash, two digits, a dash and two digits.  A
    date that does not is answered with 400 and the process is left
    exactly as it was: nothing is read and nothing is written.  A date that
    does is never refused for being a date, and it is used as it stands as
    the key of the bucket, with no check against the calendar: after a
    [POST] that succeeds, the list is found under just that date by the
    next [GET], and, for a subject that names nothing inherited, under that
    key of the stored document.  ["2024-13-99"] is accepted and
    ["2024-1-1"] is not. *)
Theorem C10_date_validation (date : string) :
  let refusal {Att} : Response Att := mkResponse 400 (Message dateMessage) in
  (dateRegex date = true ↔
     ∃ y1 y2 y3 y4 m1 m2 d1 d2,
       forallb isDigit [y1; y2; y3; y4; m1; m2; d1; d2] = true
       ∧ date = string_of_list_ascii [y1; y2; y3; y4; "-"; m1; m2; "-"; d1; d2]%char)
  ∧ (dateRegex date = false →
     ∀ subject body (p : Nested.Process) (wf : World Flat.Att) (wr : World Reread.Att),
       Nested.getAttendance subject date p = (refusal, p)
       ∧ Nested.postAttendance subject date body p = (refusal, p)
       ∧ Nested.printAttendance subject date p = (refusal, p)
       ∧ Flat.getAttendance date wf = (refusal, wf)
       ∧ Flat.postAttendance date body wf = (refusal, wf)
       ∧ Flat.printAttendance date wf = (refusal, wf)
       ∧ Reread.getAttendance date wr = (refusal, wr)
       ∧ Reread.postAttendance date body wr
         = (mkResponse 400 (Message "Invalid date format. Use YNNN-MM-DD."), wr)
       ∧ Reread.printAttendance date wr = (refusal, wr))
  ∧ (dateRegex date = true →
     ∀ subject body (p : Nested.Process) (wf : World Flat.Att) (wr : World Reread.Att),
       (Nested.getAttendance subject date p).1 ≠ refusal
       ∧ (Nested.postAttendance subject date body p).1 ≠ refusal
       ∧ (Nested.printAttendance subject date p).1 ≠ refusal
       ∧ (Flat.getAttendance date wf).1 ≠ refusal
       ∧ (Flat.postAttendance date body wf).1 ≠ refusal
       ∧ (Flat.printAttendance date wf).1 ≠ refusal
       ∧ (Reread.getAttendance date wr).1 ≠ refusal
       ∧ (Reread.postAttendance date body wr).1
         ≠ mkResponse 400 (Message "Invalid date format. Use YNNN-MM-DD.")
       ∧ (Reread.printAttendance date wr).1 ≠ refusal)
  ∧ (dateRegex date = true →
     ∀ subject attendanceList (p : Nested.Process),
       subject ≠ ""%string →
       Forall wellFormedItem attendanceList →
       reliable p.1 →
       let result := Nested.postAttendance subject date (ArrayOf attendanceList) p in
       status result.1 = 200%nat
       ∧ ∃ stored,
           DropsUnknown (students (storedDocument p.1)) attendanceList stored
           ∧ (Nested.getAttendance subject date result.2).1
             = mkResponse 200 (EntryList stored)
           ∧ (inheritedName subject = false →
              Nested.onPrototype p.2 !! subject = None →
              attendance (storedDocument result.2.1) !! subject
                ≫= (λ byDate, byDate !! date)
              = Some stored))
  ∧ (dateRegex date = true →
     ∀ attendanceList (wf : World Flat.Att),
       Forall typedItem attendanceList →
       reliable wf → cacheValid wf →
       let result := Flat.postAttendance date (ArrayOf attendanceList) wf in
       status result.1 = 200%nat
       ∧ ∃ stored,
           LabelsUnknown (students (currentDocument wf)) attendanceList stored
           ∧ (Flat.getAttendance date result.2).1 = mkResponse 200 (EntryList stored)
           ∧ attendance (currentDocument result.2) !! date = Some stored)
  ∧ dateRegex "2024-13-99" = true
  ∧ dateRegex "2024-1-1" = false.
Proof.
  intros refusal.
  split; [apply dateRegex_shape|]. split; [|split; [|split; [|split; [|done]]]].
  - intros Hdate subject body p wf wr.
    unfold Nested.getAttendance, Nested.postAttendance, Nested.printAttendance,
      Flat.getAttendance, Flat.postAttendance, Flat.printAttendance,
      Reread.getAttendance, Reread.postAttendance, Reread.printAttendance.
    by rewrite Hdate.
  - intros Hdate subject body p wf wr. unfold refusal.
    repeat split; intros Heq.
    + unfold Nested.getAttendance in Heq. rewrite Hdate in Heq. other_answer Heq.
    + unfold Nested.postAttendance in Heq. rewrite Hdate in Heq. other_answer Heq.
    + unfold Nested.printAttendance in Heq. rewrite Hdate in Heq. other_answer Heq.
    + unfold Flat.getAttendance in Heq. rewrite Hdate in Heq. other_answer Heq.
    + unfold Flat.postAttendance in Heq. rewrite Hdate in Heq. other_answer Heq.
    + unfold Flat.printAttendance in Heq. rewrite Hdate in Heq. other_answer Heq.
    + unfold Reread.getAttendance in Heq. rewrite Hdate in Heq. other_answer Heq.
    + unfold Reread.postAttendance in Heq. rewrite Hdate in Heq. other_answer Heq.
    + unfold Reread.printAttendance in Heq. rewrite Hdate in Heq. other_answer Heq.
  - intros Hdate subject attendanceList p Hsubject Hitems Hw result.
    pose proof (validItems_wellFormed _ Hitems) as Hvalid.
    destruct (postAttendance_then_listed subject date attendanceList p)
      as (Hresponse & Hw' & Hroster & Hlisted); try done.
    fold result in Hresponse, Hw', Hroster, Hlisted.
    rewrite Hresponse. split; [done|].
    exists (Nested.enrichedAttendance (students (storedDocument p.1)) attendanceList).
    split; [apply enrichedAttendance_drops|]. split.
    + rewrite getAttendance_response, Hdate. cbn [negb].
      apply String.eqb_neq in Hsubject. by rewrite Hsubject, Hlisted.
    + intros Hordinary Hnone.
      destruct (postAttendance_reliable subject date attendanceList p)
        as (Hresult & Hstored & _); try done.
      cbv zeta in Hresult, Hstored. unfold result. rewrite Hresult. cbn [fst snd].
      rewrite Hstored. apply bucket_key_withBucket.
  - intros Hdate attendanceList wf Hitems Hw Hcache result.
    pose proof (validItems_typed _ Hitems) as Hvalid.
    destruct (postAttendance_flat_reliable date attendanceList wf Hdate Hvalid Hw Hcache)
      as (w' & Hresult & Hcurrent & Hfile & Hw' & _).
    cbv zeta in Hcurrent. unfold result. rewrite Hresult. cbn [fst snd status].
    split; [done|].
    exists (Flat.enrichedAttendance (students (currentDocument wf)) attendanceList).
    split; [apply enrichedAttendance_labels|].
    rewrite getAttendance_flat_response by done. rewrite Hdate, Hcurrent. cbn [negb].
    unfold withFlatBucket, Flat.bucket; cbn [attendance].
    by rewrite lookup_insert_eq.
Qed.

Lemma physicsMarks_wellFormed : Forall wellFormedItem physicsMarks.
Proof.
  repeat constructor.
  - exists "002"%string, "present"%string. repeat split; [|by left].
    exists "0"%char. split; [by left|done].
  - exists "999"%string, "absent"%string. repeat split; [|by right].
    exists "9"%char. split; [by left|done].
Qed.

Lemma C10_date_validation_witness :
  let start := (oneStudent, Nested.pristine) in
  let result := Nested.postAttendance "Physics" "2024-13-99" (ArrayOf physicsMarks) start in
  Nested.getAttendance "Physics" "2024-1-1" start
  = (mkResponse 400 (Message "Invalid date format. Use YYYY-MM-DD."), start)
  ∧ Flat.postAttendance "2024-1-1" (ArrayOf physicsMarks) flatOneStudent
    = (mkResponse 400 (Message "Invalid date format. Use YYYY-MM-DD."), flatOneStudent)
  ∧ status result.1 = 200%nat
  ∧ attendance (storedDocument result.2.1) !! "Physics"%string
      ≫= (λ byDate, byDate !! "2024-13-99"%string)
    = Some [marked "002" "present" "Bob"]
  ∧ (Nested.getAttendance "Physics" "2024-13-99" result.2).1
    = mkResponse 200 (EntryList [marked "002" "present" "Bob"])
  ∧ (Flat.getAttendance "2024-13-99"
       (Flat.postAttendance "2024-13-99" (ArrayOf physicsMarks) flatOneStudent).2).1
    = mkResponse 200
        (EntryList [marked "002" "present" "Bob"; marked "999" "absent" "Unknown"]).
Proof.
  intros start result.
  destruct (C10_date_validation "2024-1-1") as (_ & Hrefused & _).
  destruct (Hrefused eq_refl "Physics"%string (ArrayOf physicsMarks) start flatOneStudent
              (freshProcess NoFile []))
    as (Hget & _ & _ & _ & Hpost & _).
  destruct (C10_date_validation "2024-13-99") as (_ & _ & _ & Haccepted & _).
  destruct (Haccepted eq_refl "Physics"%string physicsMarks start) as [Hstatus _].
  - discriminate.
  - exact physicsMarks_wellFormed.
  - constructor.
  - split; [exact Hget|]. split; [exact Hpost|]. split; [exact Hstatus|].
    repeat split; vm_compute; reflexivity.
Defined.
(** ** The cache and failed saves *)
Section CacheFacts.
Context {Att : Type} `{Empty Att}.
Implicit Types (w : World Att) (d : Document Att).

(** Whatever the write does, the cached object holds the edited document. *)
Lemma committed_cache d w :
  deref (committed d w) <$> dataCache (committed d w) = Some d.
Proof. unfold committed; cbn. by rewrite deref_fresh. Qed.

Lemma committed_file_failed d w :
  nextOutcome (writes (loaded w)) = false →
  file (committed d w) = file (loaded w).
Proof. intros Hfail. unfold committed; cbn [file]. by rewrite Hfail. Qed.
End CacheFacts.

Lemma postStudent_failed_save `{Collator} (body : StudentBody) r n (w : World Nested.Att) :
  truthy (body_roll_no body) = Some r →
  truthy (body_name body) = Some n →
  r ∉ (roll_no <$> students (storedDocument w)) →
  nextOutcome (writes (loaded w)) = false →
  let result := Nested.postStudent body w in
  result.1 = mkResponse 500 (Message Nested.saveErrorMessage)
  ∧ file result.2 = file (loaded w)
  ∧ deref result.2 <$> dataCache result.2
    = Some (Nested.withStudent (mkStudent r n (Some (orElse (body_course body) "N/A")))
              (storedDocument w)).
Proof.
  intros Hr Hn Hfresh Hfail result. unfold result.
  rewrite (postStudent_closed body w r n Hr Hn). cbv zeta.
  apply find_roll_None in Hfresh. rewrite Hfresh, Hfail. cbn [fst snd].
  split; [done|]. split; [by apply committed_file_failed|apply committed_cache].
Qed.

(** C1.  A failed save does not leave the cache at its value from before the
    request.  In [server.js] the failing [POST /api/students] answers 500
    and leaves the file alone, yet the object [dataCache] points to already
    holds the new student.  In the first flat variant, which answers from
    the cache, the next [GET /api/students] returns the student that was
    never written; in the same way a failed deletion makes the student
    disappear from later answers and a failed attendance update shows up in
    later reads, while the file still holds the old document. *)
Theorem C1_failed_save_keeps_mutation :
  let nested := Nested.postStudent aliceBody failingDisk in
  let cached := (Flat.getStudents failingDisk).2 in
  let flat := Flat.postStudent aliceBody cached in
  let bob := mkStudent "002" "Bob" (Some "N/A") in
  let removed := Flat.deleteStudent "002" cachedFailingDisk in
  let marks := Flat.postAttendance "2024-01-01" (ArrayOf [mark "002" "present"])
                 cachedFailingDisk in
  (nested.1 = mkResponse 500 (Message Nested.saveErrorMessage)
   ∧ file nested.2 = JsonObject (Some []) (Some ∅)
   ∧ deref nested.2 <$> dataCache nested.2 = Some (mkDocument [alice] ∅))
  ∧ ((Flat.getStudents failingDisk).1 = mkResponse 200 (StudentList [])
     ∧ flat.1 = mkResponse 500 (Message Flat.saveErrorMessage)
     ∧ file flat.2 = JsonObject (Some []) (Some ∅)
     ∧ (Flat.getStudents flat.2).1 = mkResponse 200 (StudentList [alice]))
  ∧ (removed.1 = mkResponse 500 (Message Flat.saveErrorMessage)
     ∧ file removed.2 = JsonObject (Some [bob]) (Some ∅)
     ∧ (Flat.getStudents removed.2).1 = mkResponse 200 (StudentList []))
  ∧ (marks.1 = mkResponse 500 (Message Flat.saveErrorMessage)
     ∧ file marks.2 = JsonObject (Some [bob]) (Some ∅)
     ∧ (Flat.getAttendance "2024-01-01" marks.2).1
       = mkResponse 200 (EntryList [marked "002" "present" "Bob"])).
Proof. repeat split; vm_compute; reflexivity. Qed.

(** C8 (amended).  The loader of the first flat variant answers from the
    cache whenever [dataCache] is set, without touching the file, and reads
    the file when it is not.  The loader of [server.js] reads the file on
    every call and returns the document of the file, whatever the cache
    holds.  Both complete a parsed object that lacks [students] or
    [attendance] with an empty list or an empty object. *)
Theorem C8_load_amended {Att : Type} `{Empty Att} (w : World Att) :
  (∀ data, dataCache w = Some data → loadDataCached w = (Some data, w))
  ∧ (dataCache w = None →
     ∃ rest, trace (loadDataCached w).2 = trace w ++ ReadFile :: rest)
  ∧ (∃ rest, trace (loadData w).2 = trace w ++ ReadFile :: rest)
  ∧ deref (loadData w).2 (loadData w).1 = storedDocument w
  ∧ (∀ studentsField attendanceField,
       file w = JsonObject studentsField attendanceField →
       let completed := mkDocument (default [] studentsField) (default ∅ attendanceField) in
       deref (loadData w).2 (loadData w).1 = completed
       ∧ (dataCache w = None →
          ∃ data, (loadDataCached w).1 = Some data
                  ∧ deref (loadDataCached w).2 data = completed)).
Proof.
  split; [|split; [|split; [|split]]].
  - intros data Hcache. unfold loadDataCached. by rewrite Hcache.
  - intros Hcache. unfold loadDataCached. rewrite Hcache.
    destruct w as [h c f ws t]; cbn.
    destruct f; cbn; eauto.
    unfold saveData, writeFile; cbn. rewrite deref_fresh.
    destruct (nextOutcome ws); cbn; rewrite <- app_assoc; eauto.
  - rewrite loadData_loaded. unfold loaded; cbn. eauto.
  - rewrite loadData_loaded. cbn [fst snd]. apply deref_loaded.
  - intros studentsField attendanceField Hfile completed. split.
    + rewrite loadData_loaded. cbn [fst snd]. rewrite deref_loaded.
      unfold storedDocument. by rewrite Hfile.
    + intros Hcache. unfold loadDataCached. rewrite Hcache.
      destruct w as [h c f ws t]; cbn in *. subst f. cbn.
      exists (length h). split; [done|]. apply deref_fresh.
Qed.

Lemma C8_load_amended_witness :
  (Flat.getStudents (Flat.getStudents flatOneStudent).2).2
  = (Flat.getStudents flatOneStudent).2
  ∧ deref (loadData rosterOnly).2 (loadData rosterOnly).1 = mkDocument [alice] ∅.
Proof.
  split.
  - destruct (C8_load_amended (Flat.getStudents flatOneStudent).2) as (Hhit & _).
    unfold Flat.getStudents at 1. by rewrite (Hhit 0%nat eq_refl).
  - destruct (C8_load_amended rosterOnly) as (_ & _ & _ & _ & Hfill).
    destruct (Hfill (Some [alice]) None eq_refl) as [Hloaded _].
    exact Hloaded.
Defined.

Lemma C8_server_js_rereads_the_file :
  let w := (Nested.postStudent aliceBody failingDisk).2 in
  let result := loadData w in
  deref w <$> dataCache w = Some (mkDocument [alice] ∅)
  ∧ deref result.2 result.1 = mkDocument [] ∅
  ∧ trace result.2 = trace w ++ [ReadFile].
Proof. repeat split; vm_compute; reflexivity. Qed.

(** ** Objects as ordered property lists *)
Section PropFacts.
Context {V : Type}.
Implicit Types (props : list (string * V)) (k : string).

Lemma getProp_is_Some k props : is_Some (getProp k props) ↔ k ∈ props.*1.
Proof.
  induction props as [|[k' v] props IH]; cbn.
  - split; [by intros [? ?]|by intros ?%elem_of_nil].
  - rewrite elem_of_cons. destruct (String.eqb_spec k' k) as [->|Hne].
    + split; [by left|by eauto].
    + rewrite IH. split; [by right|]. by intros [?|?].
Qed.

Lemma getProp_None k props : getProp k props = None ↔ k ∉ props.*1.
Proof. rewrite <- getProp_is_Some, eq_None_not_Some. done. Qed.

Lemma getProp_setProp_eq k v props : getProp k (setProp k v props) = Some v.
Proof.
  induction props as [|[k' v'] props IH]; cbn.
  - by rewrite String.eqb_refl.
  - destruct (String.eqb_spec k' k) as [->|Hne]; cbn.
    + by rewrite String.eqb_refl.
    + apply String.eqb_neq in Hne. by rewrite Hne.
Qed.

Lemma getProp_setProp_ne k k' v props :
  k ≠ k' → getProp k' (setProp k v props) = getProp k' props.
Proof.
  intros Hne. induction props as [|[k0 v0] props IH]; cbn.
  - apply String.eqb_neq in Hne. by rewrite Hne.
  - destruct (String.eqb_spec k0 k) as [->|Hne0]; cbn.
    + apply String.eqb_neq in Hne. by rewrite Hne.
    + by rewrite IH.
Qed.

Lemma setProp_keys_existing k v props :
  k ∈ props.*1 → (setProp k v props).*1 = props.*1.
Proof.
  induction props as [|[k0 v0] props IH]; cbn.
  - by intros ?%elem_of_nil.
  - intros Hin. destruct (String.eqb_spec k0 k) as [->|Hne]; cbn; [done|].
    f_equal. apply IH. apply elem_of_cons in Hin as [?|?]; [congruence|done].
Qed.

Lemma setProp_keys_fresh k v props :
  k ∉ props.*1 → setProp k v props = props ++ [(k, v)].
Proof.
  induction props as [|[k0 v0] props IH]; cbn; [done|].
  rewrite not_elem_of_cons. intros [Hne Hin].
  apply not_eq_sym, String.eqb_neq in Hne. rewrite Hne. by rewrite IH.
Qed.

Lemma setProp_keys k v props :
  ∀ k', k' ∈ (setProp k v props).*1 ↔ k' = k ∨ k' ∈ props.*1.
Proof.
  intros k'. destruct (decide (k ∈ props.*1)) as [Hin|Hout].
  - rewrite setProp_keys_existing by done. split; [by right|].
    by intros [->|?].
  - rewrite setProp_keys_fresh by done. rewrite fmap_app, elem_of_app. cbn.
    rewrite list_elem_of_singleton. tauto.
Qed.

Lemma ownKeyOrder_perm props : ownKeyOrder props ≡ₚ props.
Proof.
  unfold ownKeyOrder. rewrite arraySort_perm.
  apply (filter_app_complement (λ p : string * V, isArrayIndex p.1 = true)).
Qed.
End PropFacts.

(** ** Counting *)
Section CountingFacts.
Import DataDir.

Lemma initialMetrics_keys (roster : list Student) :
  ∀ k, k ∈ (initialMetrics roster).*1 ↔ k ∈ roll_no <$> roster.
Proof.
  unfold initialMetrics. intros k.
  assert (Hgen : ∀ table,
    k ∈ (fold_left (λ table s, setProp (roll_no s) (mkStudentMetric (name s) 0 0 0) table)
           roster table).*1
    ↔ k ∈ table.*1 ∨ k ∈ roll_no <$> roster).
  { induction roster as [|s roster IH]; intros table; cbn.
    - rewrite elem_of_nil. tauto.
    - rewrite IH, setProp_keys, elem_of_cons. tauto. }
  rewrite Hgen. cbn. rewrite elem_of_nil. tauto.
Qed.

Lemma setNumber_setProp {V} (k : string) (v : V) props :
  k ≠ "__proto__"%string → setNumber k v props = setProp k v props.
Proof. intros Hk%String.eqb_neq. unfold setNumber. by rewrite Hk. Qed.


Lemma countEntry_spec (c : Counters) (entry : Entry) :
  getProp "__proto__" (studentMetrics c) = None →
  inheritedName (propertyKey (att_roll_no entry)) = false →
  let c' := countEntry c entry in
  let keys := (studentMetrics c).*1 in
  (studentMetrics c').*1 = keys
  ∧ presentCount c' = presentCount c + presentCountOf keys [entry]
  ∧ validEntriesCount c' = validEntriesCount c + validCount keys [entry]
  ∧ totalPresentOverall c' = totalPresentOverall c + presentCountOf keys [entry]
  ∧ totalRecordsOverall c' = totalRecordsOverall c + validCount keys [entry]
  ∧ dailyRates c' = dailyRates c.
Proof.
  intros Hproto Hentry.
  assert (Hinherited : inheritedTruthy (studentMetrics c) (propertyKey (att_roll_no entry))
                       = false).
  { unfold inheritedTruthy. by rewrite Hproto. }
  unfold countEntry, presentCountOf, validCount. cbn zeta.
  rewrite !filter_cons, !filter_nil, Hinherited.
  destruct (getProp (propertyKey _) (studentMetrics c)) as [m|] eqn:Hget.
  - assert (Hin : isCurrent (studentMetrics c).*1 entry).
    { apply getProp_is_Some. by rewrite Hget. }
    rewrite decide_True by done. cbn.
    rewrite setProp_keys_existing by done.
    unfold hasStatus.
    destruct (decide (isPresent entry)) as [Hp|Hp].
    + rewrite bool_decide_eq_true_2 by done. cbn. repeat split; lia.
    + rewrite bool_decide_eq_false_2 by done. cbn. repeat split; lia.
  - apply getProp_None in Hget.
    rewrite decide_False by done. cbn. repeat split; lia.
Qed.

Lemma validCount_cons keys entry l :
  validCount keys (entry :: l) = validCount keys [entry] + validCount keys l.
Proof.
  unfold validCount. rewrite !filter_cons, filter_nil.
  destruct (decide _); cbn; lia.
Qed.

Lemma presentCountOf_cons keys entry l :
  presentCountOf keys (entry :: l) = presentCountOf keys [entry] + presentCountOf keys l.
Proof.
  unfold presentCountOf. rewrite !filter_cons, filter_nil.
  destruct (decide (isCurrent _ _)); [|cbn; lia].
  rewrite !filter_cons, filter_nil. destruct (decide _); cbn; lia.
Qed.

Lemma countEntries_spec (l : list Entry) (c : Counters) :
  getProp "__proto__" (studentMetrics c) = None →
  Forall (λ entry, inheritedName (propertyKey (att_roll_no entry)) = false) l →
  let c' := fold_left countEntry l c in
  let keys := (studentMetrics c).*1 in
  (studentMetrics c').*1 = keys
  ∧ presentCount c' = presentCount c + presentCountOf keys l
  ∧ validEntriesCount c' = validEntriesCount c + validCount keys l
  ∧ totalPresentOverall c' = totalPresentOverall c + presentCountOf keys l
  ∧ totalRecordsOverall c' = totalRecordsOverall c + validCount keys l
  ∧ dailyRates c' = dailyRates c.
Proof.
  revert c. induction l as [|entry l IH]; intros c Hproto Hplain; cbn zeta.
  - unfold presentCountOf, validCount. cbn. repeat split; lia.
  - cbn [fold_left]. apply Forall_cons in Hplain as [Hentry Hplain].
    destruct (countEntry_spec c entry Hproto Hentry) as (Hk & Hp & Hv & Htp & Htr & Hr).
    assert (Hproto' : getProp "__proto__" (studentMetrics (countEntry c entry)) = None).
    { apply getProp_None. cbv zeta in Hk. rewrite Hk. by apply getProp_None. }
    destruct (IH (countEntry c entry) Hproto' Hplain)
      as (Hk' & Hp' & Hv' & Htp' & Htr' & Hr').
    cbv zeta in *. rewrite Hk in *.
    rewrite (validCount_cons _ entry l), (presentCountOf_cons _ entry l).
    repeat split; [done|lia..|congruence].
Qed.

Lemma percentage_percent (part whole : Z) : percentage part whole = Some (percent part whole).
Proof.
  unfold percentage, percent, quotient.
  destruct (0 <? whole) eqn:Hpos; [|done].
  apply Z.ltb_lt in Hpos. by rewrite (proj2 (Z.eqb_neq whole 0)) by lia.
Qed.

(** The rates the loop over the dates leaves behind. *)
Lemma countDays_spec (a : Att) (dates : list string) (c : Counters) :
  getProp "__proto__" (studentMetrics c) = None →
  "__proto__"%string ∉ dates →
  (∀ date l, a !! date = Some l →
     Forall (λ entry, inheritedName (propertyKey (att_roll_no entry)) = false) l) →
  let keys := (studentMetrics c).*1 in
  let present date := presentCountOf keys (default [] (a !! date)) in
  let valid date := validCount keys (default [] (a !! date)) in
  ∃ c', countDays a c dates = Some c'
        ∧ (studentMetrics c').*1 = keys
        ∧ totalPresentOverall c'
          = totalPresentOverall c + foldr (λ date acc, present date + acc) 0 dates
        ∧ totalRecordsOverall c'
          = totalRecordsOverall c + foldr (λ date acc, valid date + acc) 0 dates
        ∧ dailyRates c'
          = fold_left (λ rates date, setProp date (percent (present date) (valid date)) rates)
              dates (dailyRates c).
Proof.
  intros Hproto Hdates Hplain. revert c Hproto.
  induction dates as [|date dates IH]; intros c Hproto; cbn zeta.
  - exists c. cbn. repeat split; lia.
  - cbn [countDays]. unfold countDay.
    apply not_elem_of_cons in Hdates as [Hdate Hdates].
    set (c0 := mkCounters _ 0 0 _ _ _).
    assert (Hlist : Forall (λ entry, inheritedName (propertyKey (att_roll_no entry)) = false)
                      (default [] (a !! date))).
    { destruct (a !! date) as [l|] eqn:Hl; [by eapply Hplain|constructor]. }
    destruct (countEntries_spec (default [] (a !! date)) c0 Hproto Hlist)
      as (Hk & Hp & Hv & Htp & Htr & Hr).
    cbv zeta in *. cbn [studentMetrics presentCount validEntriesCount
      totalPresentOverall totalRecordsOverall dailyRates c0] in *.
    rewrite percentage_percent. cbn [mbind option_bind].
    rewrite setNumber_setProp by done.
    set (c1 := mkCounters _ _ _ _ _ _).
    assert (Hproto1 : getProp "__proto__" (studentMetrics c1) = None).
    { apply getProp_None. cbn [studentMetrics c1]. rewrite Hk. by apply getProp_None. }
    destruct (IH Hdates c1 Hproto1) as (c' & Hc' & Hk' & Htp' & Htr' & Hr').
    cbv zeta in *. cbn [studentMetrics presentCount validEntriesCount
      totalPresentOverall totalRecordsOverall dailyRates c1] in *.
    rewrite Hk in *. exists c'. split; [done|]. split; [done|].
    cbn [foldr fold_left]. rewrite Htp', Htr', Hr', Htp, Htr, Hp, Hv, Hr.
    repeat split; lia.
Qed.
End CountingFacts.

Section MetricsFacts.
Import DataDir.

Lemma rates_fold_getProp (f : string → Q) (dates : list string)
    (rates : list (string * Q)) (d : string) :
  getProp d (fold_left (λ r date, setProp date (f date) r) dates rates)
  = if decide (d ∈ dates) then Some (f d) else getProp d rates.
Proof.
  revert rates. induction dates as [|date dates IH]; intros rates; cbn [fold_left].
  - by rewrite decide_False by apply not_elem_of_nil.
  - rewrite IH. destruct (decide (d ∈ dates)) as [Hin|Hout].
    + by rewrite decide_True by by right.
    + destruct (decide (d = date)) as [->|Hne].
      * rewrite decide_True by by left. apply getProp_setProp_eq.
      * rewrite decide_False by by intros [?|?]%elem_of_cons.
        by apply getProp_setProp_ne.
Qed.

Lemma sortedDates_elem_of (a : Att) (d : string) : d ∈ sortedDates a ↔ is_Some (a !! d).
Proof.
  unfold sortedDates. rewrite arraySort_elem_of, list_elem_of_fmap. split.
  - intros ([k l] & -> & Hin). apply elem_of_map_to_list in Hin. by exists l.
  - intros [l Hl]. exists (d, l). split; [done|]. by apply elem_of_map_to_list.
Qed.

Lemma sum_permutation (g : string → Z) (l1 l2 : list string) :
  l1 ≡ₚ l2 →
  foldr (λ date acc, g date + acc) 0 l1 = foldr (λ date acc, g date + acc) 0 l2.
Proof. induction 1; cbn; lia. Qed.

Lemma sum_sortedDates (count : list Entry → Z) (a : Att) :
  foldr (λ date acc, count (default [] (a !! date)) + acc) 0 (sortedDates a)
  = sumOverDays count a.
Proof.
  unfold sortedDates, sumOverDays.
  rewrite (sum_permutation (λ date, count (default [] (a !! date))) _ _
             (arraySort_perm String.compare _)).
  assert (Hlookup : Forall (λ day, a !! day.1 = Some day.2) (map_to_list a)).
  { apply Forall_forall. intros [k l] Hin. by apply elem_of_map_to_list. }
  induction Hlookup as [|[k l] days Hday _ IH]; [done|].
  cbn in *. rewrite Hday, IH. done.
Qed.

Lemma counts_by_roll (roster : list Student) (l : list Entry) :
  validCount (initialMetrics roster).*1 l = validCount (roll_no <$> roster) l
  ∧ presentCountOf (initialMetrics roster).*1 l = presentCountOf (roll_no <$> roster) l.
Proof.
  unfold validCount, presentCountOf.
  rewrite (list_filter_iff (isCurrent (initialMetrics roster).*1)
             (isCurrent (roll_no <$> roster))); [done|].
  intros entry. apply initialMetrics_keys.
Qed.

(** What [calculateMetrics] returns. *)
Lemma initialMetrics_plain (roster : list Student) :
  Forall (λ s, roll_no s ≠ "__proto__"%string) roster →
  getProp "__proto__" (initialMetrics roster) = None.
Proof.
  intros Hroster. apply getProp_None. rewrite initialMetrics_keys.
  intros (s & Hs & Hin)%list_elem_of_fmap. rewrite Forall_forall in Hroster.
  by apply (Hroster s Hin).
Qed.

Lemma sortedDates_plain (a : Att) :
  a !! "__proto__"%string = None → "__proto__"%string ∉ sortedDates a.
Proof. intros Hnone [l Hl]%sortedDates_elem_of. congruence. Qed.

Lemma calculateMetrics_spec (roster : list Student) (a : Att) :
  ordinaryKeys roster a →
  let rolls := roll_no <$> roster in
  ∃ m, calculateMetrics roster a = Some m
       ∧ (∀ date, getProp date (ratesOfDays m) = rateOfDay roster <$> a !! date)
       ∧ avgAttendance m
         = percent (sumOverDays (presentCountOf rolls) a) (sumOverDays (validCount rolls) a)
       ∧ (metricsOfStudents m).*1 = (initialMetrics roster).*1
       ∧ bestDay m
         = (if (0 <? length (ratesOfDays m))%nat
            then (dayWith (ratesOfDays m) (mathMax (ownKeyOrder (ratesOfDays m)).*2),
                  mathMax (ownKeyOrder (ratesOfDays m)).*2)
            else ("-"%string, 0%Q))
       ∧ worstDay m
         = (if (0 <? length (ratesOfDays m))%nat
            then (dayWith (ratesOfDays m) (mathMin (ownKeyOrder (ratesOfDays m)).*2),
                  mathMin (ownKeyOrder (ratesOfDays m)).*2)
            else ("-"%string, 100%Q)).
Proof.
  intros (Hroster & Hdates & Hentries) rolls. unfold calculateMetrics.
  set (c0 := mkCounters (initialMetrics roster) 0 0 0 0 []).
  destruct (countDays_spec a (sortedDates a) c0 (initialMetrics_plain roster Hroster)
              (sortedDates_plain a Hdates) Hentries)
    as (c & Hc & Hkeys & Htp & Htr & Hrates).
  cbv zeta in Hkeys, Htp, Htr, Hrates.
  cbn [studentMetrics totalPresentOverall totalRecordsOverall dailyRates c0] in *.
  rewrite Hc. cbn [mbind option_bind]. rewrite percentage_percent. cbn [mbind option_bind].
  eexists. split; [done|]. cbn [ratesOfDays avgAttendance metricsOfStudents bestDay worstDay].
  split; [|split; [|split; [done|split; done]]].
  - intros date. rewrite Hrates, rates_fold_getProp. cbn [getProp].
    destruct (decide (date ∈ sortedDates a)) as [Hin|Hout].
    + apply sortedDates_elem_of in Hin as [l Hl]. rewrite Hl. cbn.
      unfold rateOfDay. by destruct (counts_by_roll roster l) as [-> ->].
    + rewrite sortedDates_elem_of, <- eq_None_not_Some in Hout. by rewrite Hout.
  - rewrite Htp, Htr, !Z.add_0_l.
    rewrite (sum_sortedDates (presentCountOf (initialMetrics roster).*1)).
    rewrite (sum_sortedDates (validCount (initialMetrics roster).*1)).
    unfold sumOverDays. f_equal.
    + induction (map_to_list a) as [|day days IH]; [done|]. cbn.
      rewrite IH. by destruct (counts_by_roll roster day.2) as [_ ->].
    + induction (map_to_list a) as [|day days IH]; [done|]. cbn.
      rewrite IH. by destruct (counts_by_roll roster day.2) as [-> _].
Qed.
End MetricsFacts.

(** C7.  [calculateMetrics] counts an entry whose roll number is that of no
    student when the roll number names a member of [Object.prototype].  With
    one student, ["001"], and a day that holds one entry for
    ["constructor"], marked present, and one for ["001"], marked absent,
    one entry is that of a current student and it is not marked present, so
    the rate of the day and the average over the entries of current
    students are 0; the report gives 50.0% for both. *)
Theorem C7_inherited_name_is_counted :
  let roster := DataDir.students strayEntry in
  let day := [mark "constructor" "present"; mark "001" "absent"] in
  DataDir.attendanceData strayEntry = {[ "2024-01-01"%string := day ]}
  ∧ ("constructor"%string ∉ roll_no <$> roster)
  ∧ validCount (roll_no <$> roster) day = 1
  ∧ presentCountOf (roll_no <$> roster) day = 0
  ∧ ∃ report,
      DataDir.getMetrics strayEntry = Some report
      ∧ DataDir.report_avgAttendance report = "50.0%"%string
      ∧ DataDir.report_bestDay report = "2024-01-01 (50.0%)"%string
      ∧ DataDir.report_worstDay report = "2024-01-01 (50.0%)"%string.
Proof.
  split; [reflexivity|]. split; [by intros ?%list_elem_of_singleton|].
  split; [reflexivity|]. split; [reflexivity|].
  eexists. split; [vm_compute; reflexivity|]. repeat split.
Qed.

(** X27.  When no roll number of the roster, no date and no roll number of
    an entry names a member of [Object.prototype], [calculateMetrics]
    divides by no zero and counts, on every day, just the entries whose
    roll number is that of a roster student.  The rate of a recorded day is
    the number of those entries marked present over their number, times
    100, in the arithmetic of doubles, and 0 when there is none; the overall
    average is the same quotient of the totals over all days, and 0 when no
    day has such an entry. *)
Theorem X27_metrics_count_roster_entries (roster : list Student) (a : DataDir.Att) :
  ordinaryKeys roster a →
  let current (entry : Entry) :=
    DataDir.propertyKey (att_roll_no entry) ∈ roll_no <$> roster in
  let valid (l : list Entry) := Z.of_nat (length (filter current l)) in
  let present (l : list Entry) :=
    Z.of_nat (length (filter (λ entry, att_status entry = Some "present"%string)
                             (filter current l))) in
  let totalValid := foldr (λ day acc, valid day.2 + acc) 0 (map_to_list a) in
  let totalPresent := foldr (λ day acc, present day.2 + acc) 0 (map_to_list a) in
  let hundredfold (part whole : Z) :=
    valueOf (doubleMul (doubleDiv (toDouble part) (toDouble whole)) (toDouble 100)) in
  ∃ m, DataDir.calculateMetrics roster a = Some m
       ∧ (∀ date l, a !! date = Some l →
            getProp date (DataDir.ratesOfDays m)
            = Some (if 0 <? valid l then hundredfold (present l) (valid l) else 0%Q))
       ∧ (∀ date, a !! date = None → getProp date (DataDir.ratesOfDays m) = None)
       ∧ DataDir.avgAttendance m
         = (if 0 <? totalValid then hundredfold totalPresent totalValid else 0%Q).
Proof.
  intros Hkeys current valid present totalValid totalPresent hundredfold.
  destruct (calculateMetrics_spec roster a Hkeys) as (m & Hm & Hrates & Havg & _).
  exists m. split; [done|]. split; [|split].
  - intros date l Hl. by rewrite Hrates, Hl.
  - intros date Hnone. by rewrite Hrates, Hnone.
  - exact Havg.
Qed.

Lemma endToEnd_ordinary :
  ordinaryKeys (DataDir.students endToEnd) (DataDir.attendanceData endToEnd).
Proof.
  split; [by repeat constructor|]. split; [reflexivity|].
  intros date l Hl.
  destruct (decide (date = "2024-01-01"%string)) as [->|Hne].
  - injection Hl as <-. by repeat constructor.
  - change (DataDir.attendanceData endToEnd)
      with (<["2024-01-01"%string := [mark "001" "present"; mark "002" "absent"]]>
              (∅ : DataDir.Att)) in Hl.
    rewrite lookup_insert_ne in Hl by done. by rewrite lookup_empty in Hl.
Qed.

Lemma X27_metrics_count_roster_entries_witness :
  ∃ m, DataDir.calculateMetrics (DataDir.students endToEnd)
         (DataDir.attendanceData endToEnd) = Some m
       ∧ getProp "2024-01-01" (DataDir.ratesOfDays m)
         = Some (valueOf (doubleMul (doubleDiv (toDouble 1) (toDouble 2)) (toDouble 100)))
       ∧ (valueOf (doubleMul (doubleDiv (toDouble 1) (toDouble 2)) (toDouble 100)) == 50)%Q.
Proof.
  destruct (X27_metrics_count_roster_entries (DataDir.students endToEnd)
              (DataDir.attendanceData endToEnd) endToEnd_ordinary)
    as (m & Hm & Hrate & _).
  exists m. split; [exact Hm|]. split; [|reflexivity].
  exact (Hrate "2024-01-01"%string [mark "001" "present"; mark "002" "absent"] eq_refl).
Defined.
(** ** Best and worst day *)
Section ExtremeFacts.
Import DataDir.

Lemma Qmaximum_spec (a b : Q) :
  (Qmaximum a b = a ∨ Qmaximum a b = b) ∧ (a <= Qmaximum a b)%Q ∧ (b <= Qmaximum a b)%Q.
Proof.
  unfold Qmaximum. destruct (Qle_bool a b) eqn:Hle.
  - apply Qle_bool_iff in Hle. split; [by right|]. split; [done|apply Qle_refl].
  - split; [by left|]. split; [apply Qle_refl|].
    apply Qlt_le_weak, Qnot_le_lt. intros Hab.
    apply Qle_bool_iff in Hab. congruence.
Qed.

Lemma Qminimum_spec (a b : Q) :
  (Qminimum a b = a ∨ Qminimum a b = b) ∧ (Qminimum a b <= a)%Q ∧ (Qminimum a b <= b)%Q.
Proof.
  unfold Qminimum. destruct (Qle_bool a b) eqn:Hle.
  - apply Qle_bool_iff in Hle. split; [by left|]. split; [apply Qle_refl|done].
  - split; [by right|]. split; [|apply Qle_refl].
    apply Qlt_le_weak, Qnot_le_lt. intros Hab.
    apply Qle_bool_iff in Hab. congruence.
Qed.

Lemma fold_Qmaximum_spec (rates : list Q) (r : Q) :
  fold_left Qmaximum rates r ∈ r :: rates
  ∧ ∀ x, x ∈ r :: rates → (x <= fold_left Qmaximum rates r)%Q.
Proof.
  revert r. induction rates as [|y rates IH]; intros r; cbn [fold_left].
  - split; [by left|]. intros x ->%list_elem_of_singleton. apply Qle_refl.
  - destruct (IH (Qmaximum r y)) as [Hin Hmax].
    destruct (Qmaximum_spec r y) as (Hcase & Hr & Hy). split.
    + apply elem_of_cons in Hin as [->|Hin]; [|by right; right].
      destruct Hcase as [->| ->]; [by left|by right; left].
    + intros x Hx. apply elem_of_cons in Hx as [->|Hx].
      * eapply Qle_trans; [exact Hr|]. apply Hmax. by left.
      * apply elem_of_cons in Hx as [->|Hx].
        -- eapply Qle_trans; [exact Hy|]. apply Hmax. by left.
        -- apply Hmax. by right.
Qed.

Lemma fold_Qminimum_spec (rates : list Q) (r : Q) :
  fold_left Qminimum rates r ∈ r :: rates
  ∧ ∀ x, x ∈ r :: rates → (fold_left Qminimum rates r <= x)%Q.
Proof.
  revert r. induction rates as [|y rates IH]; intros r; cbn [fold_left].
  - split; [by left|]. intros x ->%list_elem_of_singleton. apply Qle_refl.
  - destruct (IH (Qminimum r y)) as [Hin Hmin].
    destruct (Qminimum_spec r y) as (Hcase & Hr & Hy). split.
    + apply elem_of_cons in Hin as [->|Hin]; [|by right; right].
      destruct Hcase as [->| ->]; [by left|by right; left].
    + intros x Hx. apply elem_of_cons in Hx as [->|Hx].
      * eapply Qle_trans; [|exact Hr]. apply Hmin. by left.
      * apply elem_of_cons in Hx as [->|Hx].
        -- eapply Qle_trans; [|exact Hy]. apply Hmin. by left.
        -- apply Hmin. by right.
Qed.

Lemma mathMax_spec (rates : list Q) :
  rates ≠ [] → mathMax rates ∈ rates ∧ ∀ x, x ∈ rates → (x <= mathMax rates)%Q.
Proof. destruct rates as [|r rates]; [done|]. intros _. apply fold_Qmaximum_spec. Qed.

Lemma mathMin_spec (rates : list Q) :
  rates ≠ [] → mathMin rates ∈ rates ∧ ∀ x, x ∈ rates → (mathMin rates <= x)%Q.
Proof. destruct rates as [|r rates]; [done|]. intros _. apply fold_Qminimum_spec. Qed.

Lemma toFixed1_Qeq (x y : Q) : (x == y)%Q → toFixed1 x = toFixed1 y.
Proof.
  intros Hxy. unfold toFixed1. cbv zeta.
  assert (Hle : Qle_bool 0 x = Qle_bool 0 y).
  { apply eq_true_iff_eq. rewrite !Qle_bool_iff. by rewrite Hxy. }
  assert (Hpos : Qfloor (x * (10 # 1) + (1 # 2)) = Qfloor (y * (10 # 1) + (1 # 2))).
  { apply Qfloor_comp. by rewrite Hxy. }
  assert (Hneg : Qfloor (Qopp x * (10 # 1) + (1 # 2)) = Qfloor (Qopp y * (10 # 1) + (1 # 2))).
  { apply Qfloor_comp. by rewrite Hxy. }
  by rewrite Hle, Hpos, Hneg.
Qed.

Lemma getProp_elem_of {V} (k : string) (v : V) (props : list (string * V)) :
  getProp k props = Some v → (k, v) ∈ props.
Proof.
  induction props as [|[k' v'] props IH]; cbn; [done|].
  destruct (String.eqb_spec k' k) as [->|Hne].
  - intros [= ->]. by left.
  - intros Hget. right. by apply IH.
Qed.

Lemma elem_of_getProp {V} (k : string) (v : V) (props : list (string * V)) :
  NoDup props.*1 → (k, v) ∈ props → getProp k props = Some v.
Proof.
  induction props as [|[k' v'] props IH]; cbn.
  - by intros _ ?%elem_of_nil.
  - rewrite NoDup_cons. intros [Hk' Hprops] Hin.
    apply elem_of_cons in Hin as [[= -> ->]|Hin].
    + by rewrite String.eqb_refl.
    + destruct (String.eqb_spec k' k) as [->|Hne]; [|by apply IH].
      destruct Hk'. apply list_elem_of_fmap. by exists (k, v).
Qed.

Lemma setProp_NoDup {V} (k : string) (v : V) (props : list (string * V)) :
  NoDup props.*1 → NoDup (setProp k v props).*1.
Proof.
  intros Hprops. destruct (decide (k ∈ props.*1)) as [Hin|Hout].
  - by rewrite setProp_keys_existing.
  - rewrite setProp_keys_fresh by done. rewrite fmap_app. cbn.
    rewrite <- Permutation_cons_append. by apply NoDup_cons.
Qed.

Lemma fold_setProp_NoDup (f : string → Q) (dates : list string) (rates : list (string * Q)) :
  NoDup rates.*1 →
  NoDup (fold_left (λ r date, setProp date (f date) r) dates rates).*1.
Proof.
  revert rates. induction dates as [|date dates IH]; intros rates Hrates; [done|].
  cbn [fold_left]. by apply IH, setProp_NoDup.
Qed.

(** The first day, in the order of [Object.keys], whose rate is [val]. *)
Lemma dayWith_spec (rates : list (string * Q)) (val : Q) :
  val ∈ rates.*2 →
  ∃ date rate, (date, rate) ∈ rates ∧ (rate == val)%Q
               ∧ dayWith rates val = orElse (Some date) "-".
Proof.
  intros Hval. unfold dayWith.
  destruct (List.find _ (ownKeyOrder rates)) as [[date rate]|] eqn:Hfind.
  - apply find_some in Hfind as [Hin Heq]. cbn in Heq.
    exists date, rate. split; [|split; [by apply Qeq_bool_iff|done]].
    rewrite <- (ownKeyOrder_perm rates). by apply list_elem_of_In.
  - apply list_elem_of_fmap in Hval as ([date rate] & -> & Hin).
    rewrite <- (ownKeyOrder_perm rates) in Hin. apply list_elem_of_In in Hin.
    pose proof (find_none _ _ Hfind _ Hin) as Hne. cbn in Hne.
    by rewrite Qeq_bool_refl in Hne.
Qed.

Lemma dayLabel_labelOfDay (date : string) (rate rate' : Q) :
  (rate == rate')%Q →
  dayLabel (orElse (Some date) "-", rate) = labelOfDay date rate'.
Proof.
  intros Hrate. unfold dayLabel, labelOfDay, orElse, truthy; cbn [fst snd].
  destruct (String.eqb_spec date "") as [->|Hne]; cbn.
  - by rewrite bool_decide_eq_true_2 by by left.
  - destruct (String.eqb_spec date "-") as [->|Hne'].
    + by rewrite bool_decide_eq_true_2 by by right.
    + rewrite bool_decide_eq_false_2 by by intros [?|?].
      by rewrite (toFixed1_Qeq rate rate').
Qed.
End ExtremeFacts.


(** A test for [ordinaryKeys] that evaluates. *)
Lemma ordinaryKeys_check (roster : list Student) (a : DataDir.Att) :
  forallb (λ s, negb (String.eqb (roll_no s) "__proto__")) roster
  && bool_decide (a !! "__proto__"%string = None)
  && forallb (λ day : string * list Entry,
                forallb (λ entry,
                           negb (inheritedName (DataDir.propertyKey (att_roll_no entry))))
                        day.2)
             (map_to_list a) = true →
  ordinaryKeys roster a.
Proof.
  rewrite !andb_true_iff. intros [[Hroster Hdate] Hentries].
  split; [|split].
  - apply Forall_forall. intros s Hs. rewrite forallb_forall in Hroster.
    specialize (Hroster s (proj1 (list_elem_of_In _ _) Hs)).
    by apply negb_true_iff, String.eqb_neq in Hroster.
  - by apply bool_decide_eq_true in Hdate.
  - intros date l Hl. apply Forall_forall. intros entry Hentry.
    rewrite forallb_forall in Hentries.
    apply elem_of_map_to_list, list_elem_of_In in Hl.
    specialize (Hentries _ Hl). cbn in Hentries. rewrite forallb_forall in Hentries.
    specialize (Hentries entry (proj1 (list_elem_of_In _ _) Hentry)).
    by apply negb_true_iff in Hentries.
Qed.

Lemma calculateMetrics_rates_NoDup (roster : list Student) (a : DataDir.Att) m :
  ordinaryKeys roster a →
  DataDir.calculateMetrics roster a = Some m → NoDup (DataDir.ratesOfDays m).*1.
Proof.
  intros (Hroster & Hdates & Hentries). unfold DataDir.calculateMetrics.
  set (c0 := DataDir.mkCounters (DataDir.initialMetrics roster) 0 0 0 0 []).
  destruct (countDays_spec a (DataDir.sortedDates a) c0 (initialMetrics_plain roster Hroster)
              (sortedDates_plain a Hdates) Hentries)
    as (c & Hc & _ & _ & _ & Hrates).
  cbv zeta in Hrates. rewrite Hc. cbn [mbind option_bind].
  rewrite percentage_percent. cbn [mbind option_bind].
  intros [= <-]. cbn [DataDir.ratesOfDays]. rewrite Hrates.
  apply fold_setProp_NoDup. cbn. constructor.
Qed.

(** C9 (amended).  When no roll number of the roster, no date and no roll
    number of an entry names a member of [Object.prototype], [GET
    /api/metrics] answers as follows.  With no recorded day both labels are
    ["-"].  Otherwise the best day is a recorded day whose rate no recorded
    day exceeds and the worst day a recorded day whose rate no recorded day
    undercuts, where every key of the attendance object is a recorded day
    and a day without a counted entry has rate 0; each is reported as the
    date, a space, and the rate to one decimal followed by a percent sign in
    brackets (a date that is empty or ["-"] is reported as ["-"]).  The
    rate is the quotient of two counts times 100 in the arithmetic of
    doubles, and the decimal is that of the double.  In the two-student
    example the average is ["50.0%"] and both days are
    ["2024-01-01 (50.0%)"]. *)
Theorem C9_best_and_worst_day (st : DataDir.State) :
  let roster := DataDir.students st in
  let a := DataDir.attendanceData st in
  ordinaryKeys roster a →
  ∃ report,
    DataDir.getMetrics st = Some report
    ∧ (a = ∅ → DataDir.report_bestDay report = "-"%string
               ∧ DataDir.report_worstDay report = "-"%string)
    ∧ (a ≠ ∅ →
       ∃ bestDate bestList worstDate worstList,
         a !! bestDate = Some bestList
         ∧ a !! worstDate = Some worstList
         ∧ (∀ date l, a !! date = Some l →
              (rateOfDay roster l <= rateOfDay roster bestList)%Q
              ∧ (rateOfDay roster worstList <= rateOfDay roster l)%Q)
         ∧ DataDir.report_bestDay report = labelOfDay bestDate (rateOfDay roster bestList)
         ∧ DataDir.report_worstDay report
           = labelOfDay worstDate (rateOfDay roster worstList))
    ∧ (∃ example,
         DataDir.getMetrics endToEnd = Some example
         ∧ DataDir.report_avgAttendance example = "50.0%"%string
         ∧ DataDir.report_bestDay example = "2024-01-01 (50.0%)"%string
         ∧ DataDir.report_worstDay example = "2024-01-01 (50.0%)"%string).
Proof.
  intros roster a Hkeys.
  destruct (calculateMetrics_spec roster a Hkeys)
    as (m & Hm & Hrates & _ & _ & Hbest & Hworst).
  pose proof (calculateMetrics_rates_NoDup roster a m Hkeys Hm) as Hnodup.
  unfold DataDir.getMetrics. fold roster a. rewrite Hm. cbn [mbind option_bind].
  eexists. split; [done|].
  cbn [DataDir.report_bestDay DataDir.report_worstDay].
  split; [|split].
  - intros Hempty.
    assert (Hnil : DataDir.ratesOfDays m = []).
    { destruct (DataDir.ratesOfDays m) as [|[k v] rates]; [done|].
      specialize (Hrates k). cbn in Hrates.
      rewrite String.eqb_refl, Hempty, lookup_empty in Hrates. done. }
    rewrite Hbest, Hworst, Hnil. done.
  - intros Hne. apply map_choose in Hne as (date0 & l0 & Hl0).
    set (rates := DataDir.ratesOfDays m) in *.
    set (values := (ownKeyOrder rates).*2) in *.
    assert (Hvalues : values ≡ₚ rates.*2).
    { unfold values. by rewrite ownKeyOrder_perm. }
    assert (Hrecorded : ∀ date l, a !! date = Some l → rateOfDay roster l ∈ values).
    { intros date l Hl. rewrite Hvalues. apply list_elem_of_fmap.
      exists (date, rateOfDay roster l). split; [done|].
      apply getProp_elem_of. by rewrite Hrates, Hl. }
    assert (Hsome : values ≠ []).
    { intros Hnil. specialize (Hrecorded _ _ Hl0). rewrite Hnil in Hrecorded.
      by apply elem_of_nil in Hrecorded. }
    assert (Hlen : (0 <? length rates)%nat = true).
    { apply Nat.ltb_lt. destruct rates; [|cbn; lia].
      apply Permutation_nil_r in Hvalues. done. }
    assert (Hday : ∀ val, val ∈ values →
              ∃ date l, a !! date = Some l ∧ (rateOfDay roster l == val)%Q
                        ∧ DataDir.dayWith rates val = orElse (Some date) "-").
    { intros val Hval. rewrite Hvalues in Hval.
      destruct (dayWith_spec rates val Hval) as (date & rate & Hin & Heq & Hname).
      apply elem_of_getProp in Hin; [|done]. rewrite Hrates in Hin.
      destruct (a !! date) as [l|] eqn:Hl; [|done]. cbn in Hin.
      exists date, l. split; [done|]. split; [|done].
      injection Hin as <-. exact Heq. }
    destruct (mathMax_spec values Hsome) as [Hmax_in Hmax].
    destruct (mathMin_spec values Hsome) as [Hmin_in Hmin].
    destruct (Hday _ Hmax_in) as (bestDate & bestList & Hbl & Hbr & Hbn).
    destruct (Hday _ Hmin_in) as (worstDate & worstList & Hwl & Hwr & Hwn).
    exists bestDate, bestList, worstDate, worstList.
    split; [done|]. split; [done|]. split; [|split].
    + intros date l Hl. specialize (Hrecorded _ _ Hl). split.
      * rewrite Hbr. by apply Hmax.
      * rewrite Hwr. by apply Hmin.
    + rewrite Hbest, Hlen, Hbn. apply dayLabel_labelOfDay. by symmetry.
    + rewrite Hworst, Hlen, Hwn. apply dayLabel_labelOfDay. by symmetry.
  - eexists. split; [vm_compute; reflexivity|]. by vm_compute.
Qed.

Lemma C9_best_and_worst_day_witness :
  (∃ report,
     DataDir.getMetrics emptyDay = Some report
     ∧ ∃ worstDate worstList,
         DataDir.attendanceData emptyDay !! worstDate = Some worstList
         ∧ DataDir.report_worstDay report
           = labelOfDay worstDate (rateOfDay (DataDir.students emptyDay) worstList))
  ∧ (∃ report,
       DataDir.getMetrics emptyDay = Some report
       ∧ DataDir.report_worstDay report = "2024-01-01 (0.0%)"%string
       ∧ DataDir.report_bestDay report = "2024-01-02 (100.0%)"%string)
  ∧ (∃ report,
       DataDir.getMetrics eightyMarks = Some report
       ∧ DataDir.report_avgAttendance report = "28.7%"%string
       ∧ DataDir.report_bestDay report = "2024-01-01 (28.7%)"%string).
Proof.
  split; [|split].
  - destruct (C9_best_and_worst_day emptyDay) as (report & Hreport & _ & Hdays & _).
    { apply ordinaryKeys_check. vm_compute. reflexivity. }
    exists report. split; [exact Hreport|].
    destruct Hdays as (_ & _ & worstDate & worstList & _ & Hworst & _ & _ & Hlabel).
    + intros Hempty.
      assert (Hlookup : DataDir.attendanceData emptyDay !! "2024-01-01"%string = Some [])
        by reflexivity.
      rewrite Hempty in Hlookup. by rewrite lookup_empty in Hlookup.
    + exists worstDate, worstList. split; [exact Hworst|exact Hlabel].
  - eexists. split; [vm_compute; reflexivity|]. split; reflexivity.
  - eexists. split; [vm_compute; reflexivity|]. split; reflexivity.
Defined.

Lemma C9_empty_day_is_the_worst_day :
  ∃ report other,
    DataDir.getMetrics emptyDay = Some report
    ∧ DataDir.attendanceData emptyDay !! "2024-01-01"%string = Some []
    ∧ DataDir.report_worstDay report = "2024-01-01 (0.0%)"%string
    ∧ DataDir.report_bestDay report = "2024-01-02 (100.0%)"%string
    ∧ DataDir.getMetrics
        (DataDir.mkState [] {[ "2024-01-01"%string := [] ]} None None []) = Some other
    ∧ DataDir.report_bestDay other = "2024-01-01 (0.0%)"%string
    ∧ DataDir.report_worstDay other = "2024-01-01 (0.0%)"%string.
Proof.
  eexists. eexists. split; [vm_compute; reflexivity|].
  split; [reflexivity|]. split; [reflexivity|]. split; [reflexivity|].
  split; [vm_compute; reflexivity|]. split; reflexivity.
Qed.
(** ** Ranking *)
Section RankingFacts.
Import DataDir.
Context `{Collator}.
Implicit Types (s t : Summary) (l : list Summary).






(** *** The running rank *)





End RankingFacts.

Section SummaryFacts.
Import DataDir.
Implicit Types (table : list (string * StudentMetric)).













End SummaryFacts.





(** C4.  In [server.js] the list of a subject that names a member of
    [Object.prototype] is not stored.  The handler finds the inherited
    member where it looks for the bucket of the subject and assigns the
    list to it: the answer is 200 and reports the save, the file is written
    without any bucket for the subject, and only the running process still
    finds the list; a process started afresh on the same file finds
    nothing.  For the subject ["__proto__"] the list lands on
    [Object.prototype] and is then read under every subject that has a
    bucket but no list for that date. *)
Theorem C4_inherited_subject_is_not_stored :
  let bob := mkStudent "002" "Bob" (Some "N/A") in
  let start := (oneStudent, Nested.pristine) in
  let posted :=
    Nested.postAttendance "constructor" "2024-01-01" (ArrayOf [mark "002" "present"])
      start in
  let recorded := (twoDates, Nested.pristine) in
  let polluted :=
    Nested.postAttendance "__proto__" "2024-01-03" (ArrayOf [mark "S001" "present"])
      recorded in
  posted.1
  = mkResponse 200 (Message "Attendance for constructor on 2024-01-01 saved successfully.")
  ∧ file posted.2.1 = JsonObject (Some [bob]) (Some ∅)
  ∧ (Nested.getAttendance "constructor" "2024-01-01" posted.2).1
    = mkResponse 200 (EntryList [marked "002" "present" "Bob"])
  ∧ (Nested.getAttendance "constructor" "2024-01-01" (posted.2.1, Nested.pristine)).1
    = mkResponse 200 (EntryList [])
  ∧ polluted.1
    = mkResponse 200 (Message "Attendance for __proto__ on 2024-01-03 saved successfully.")
  ∧ file polluted.2.1 = file twoDates
  ∧ (Nested.getAttendance "Physics" "2024-01-03" recorded).1
    = mkResponse 200 (EntryList [])
  ∧ (Nested.getAttendance "Physics" "2024-01-03" polluted.2).1
    = mkResponse 200 (EntryList [marked "S001" "present" "Asha"]).
Proof. repeat split; vm_compute; reflexivity. Qed.

(** The nested schema: replacement and idempotence. *)
Lemma postAttendance_nested_idempotent (subject date : string)
    (attendanceList : list Entry) (p : Nested.Process) :
  dateRegex date = true →
  subject ≠ ""%string →
  forallb Nested.validItem attendanceList = true →
  inheritedName subject = false →
  Nested.onPrototype p.2 !! subject = None →
  reliable p.1 →
  let enriched := Nested.enrichedAttendance (students (storedDocument p.1)) attendanceList in
  let once := Nested.postAttendance subject date (ArrayOf attendanceList) p in
  let twice := Nested.postAttendance subject date (ArrayOf attendanceList) once.2 in
  once.1 = mkResponse 200 (Message (Nested.savedMessage subject date))
  ∧ attendance (storedDocument once.2.1) !! subject ≫= (λ byDate, byDate !! date)
    = Some enriched
  ∧ (Nested.getAttendance subject date once.2).1 = mkResponse 200 (EntryList enriched)
  ∧ twice.1 = once.1
  ∧ file twice.2.1 = file once.2.1
  ∧ storedDocument twice.2.1 = storedDocument once.2.1
  ∧ (∀ subject' date',
       (Nested.getAttendance subject' date' twice.2).1
       = (Nested.getAttendance subject' date' once.2).1).
Proof.
  intros Hdate Hsubject Hvalid Hordinary Hnone Hw enriched once twice.
  destruct (postAttendance_reliable subject date attendanceList p)
    as (Honce & Hstored & Hfile & Hreliable); try done.
  cbv zeta in Honce, Hstored, Hfile, Hreliable. fold enriched in Honce, Hstored, Hfile, Hreliable.
  set (d1 := Nested.withBucket subject date enriched (storedDocument p.1)) in *.
  assert (Hw1 : once = (mkResponse 200 (Message (Nested.savedMessage subject date)),
                        (committed d1 p.1, p.2))) by exact Honce.
  destruct (postAttendance_reliable subject date attendanceList (committed d1 p.1, p.2))
    as (Htwice & Hstored2 & Hfile2 & _); try done.
  cbv zeta in Htwice, Hstored2, Hfile2. cbn [fst snd] in Htwice, Hstored2, Hfile2.
  rewrite Hstored in Htwice, Hstored2, Hfile2.
  assert (Hsame : Nested.withBucket subject date
                    (Nested.enrichedAttendance (students d1) attendanceList) d1 = d1).
  { unfold d1 at 1. cbn [Nested.withBucket students]. fold enriched.
    apply withBucket_idem. }
  rewrite Hsame in Htwice, Hstored2, Hfile2.
  assert (Hw2 : twice = (mkResponse 200 (Message (Nested.savedMessage subject date)),
                         (committed d1 (committed d1 p.1), p.2))).
  { unfold twice. rewrite Hw1. exact Htwice. }
  rewrite Hw1, Hw2. cbn [fst snd].
  split; [done|]. split; [rewrite Hstored; apply bucket_key_withBucket|].
  split.
  { rewrite getAttendance_response, Hdate. apply String.eqb_neq in Hsubject.
    rewrite Hsubject. cbn [negb fst snd]. rewrite Hstored. unfold d1.
    f_equal. f_equal. apply listed_own, bucket_key_withBucket. }
  split; [done|]. split; [by rewrite Hfile, Hfile2|].
  split; [by rewrite Hstored, Hstored2|].
  intros subject' date'. rewrite !getAttendance_response. cbn [fst snd].
  by rewrite Hstored, Hstored2.
Qed.

Lemma postAttendance_flat_idempotent (date : string) (attendanceList : list Entry)
    (w : World Flat.Att) :
  dateRegex date = true →
  forallb Flat.validItem attendanceList = true →
  reliable w → cacheValid w →
  let enriched := Flat.enrichedAttendance (students (currentDocument w)) attendanceList in
  let once := Flat.postAttendance date (ArrayOf attendanceList) w in
  let twice := Flat.postAttendance date (ArrayOf attendanceList) once.2 in
  once.1 = mkResponse 200 (Message (Flat.savedMessage date))
  ∧ attendance (currentDocument once.2) !! date = Some enriched
  ∧ (Flat.getAttendance date once.2).1 = mkResponse 200 (EntryList enriched)
  ∧ twice.1 = once.1
  ∧ file twice.2 = file once.2
  ∧ currentDocument twice.2 = currentDocument once.2
  ∧ (∀ date', (Flat.getAttendance date' twice.2).1 = (Flat.getAttendance date' once.2).1).
Proof.
  intros Hdate Hvalid Hw Hcache enriched once twice.
  destruct (postAttendance_flat_reliable date attendanceList w)
    as (w1 & Honce & Hcurrent & Hfile & Hw1 & Hcache1); try done.
  cbv zeta in Hcurrent, Hfile. fold enriched in Hcurrent, Hfile.
  destruct (postAttendance_flat_reliable date attendanceList w1)
    as (w2 & Htwice & Hcurrent2 & Hfile2 & Hw2 & _); try done.
  cbv zeta in Hcurrent2, Hfile2. rewrite Hcurrent in Hcurrent2, Hfile2.
  assert (Hsame : withFlatBucket date
                    (Flat.enrichedAttendance
                       (students (withFlatBucket date enriched (currentDocument w)))
                       attendanceList)
                    (withFlatBucket date enriched (currentDocument w))
                  = withFlatBucket date enriched (currentDocument w)).
  { cbn [withFlatBucket students]. fold enriched. apply withFlatBucket_idem. }
  rewrite Hsame in Hcurrent2, Hfile2.
  assert (Hbucket : attendance (currentDocument w1) !! date = Some enriched).
  { rewrite Hcurrent. unfold withFlatBucket; cbn [attendance].
    by rewrite lookup_insert_eq. }
  unfold twice, once. rewrite Honce. cbn [fst snd]. rewrite Htwice. cbn [fst snd].
  split; [done|]. split; [done|]. split.
  { rewrite getAttendance_flat_response by done. unfold Flat.bucket.
    by rewrite Hdate, Hbucket. }
  split; [done|]. split; [by rewrite Hfile, Hfile2|].
  split; [by rewrite Hcurrent, Hcurrent2|].
  intros date'. rewrite !getAttendance_flat_response by done.
  by rewrite Hcurrent, Hcurrent2.
Qed.

(** X28.  Setting the attendance of a day replaces the bucket and is
    idempotent, in [server.js] for a subject that is not empty and names
    nothing the attendance object inherits, and in the first flat variant.
    For a well-formed date, a list whose items have the shape the variant
    asks for, and no failing write: the call answers 200 and the bucket
    holds the list as that variant stores it, whatever the bucket held; the
    same call made again answers the same, leaves the file as the first
    call left it, and every later read of a bucket answers as it did after
    the first call.  The requests are handled one after the other. *)
Theorem X28_setAttendance_replaces_and_repeats (subject date : string)
    (attendanceList : list Entry) (p : Nested.Process) (wf : World Flat.Att) :
  dateRegex date = true →
  (subject ≠ ""%string →
   Forall wellFormedItem attendanceList →
   inheritedName subject = false →
   Nested.onPrototype p.2 !! subject = None →
   reliable p.1 →
   let once := Nested.postAttendance subject date (ArrayOf attendanceList) p in
   let twice := Nested.postAttendance subject date (ArrayOf attendanceList) once.2 in
   ∃ stored,
     DropsUnknown (students (storedDocument p.1)) attendanceList stored
     ∧ status once.1 = 200%nat
     ∧ attendance (storedDocument once.2.1) !! subject ≫= (λ byDate, byDate !! date)
       = Some stored
     ∧ (Nested.getAttendance subject date once.2).1 = mkResponse 200 (EntryList stored)
     ∧ twice.1 = once.1
     ∧ file twice.2.1 = file once.2.1
     ∧ (∀ subject' date',
          (Nested.getAttendance subject' date' twice.2).1
          = (Nested.getAttendance subject' date' once.2).1))
  ∧ (Forall typedItem attendanceList →
     reliable wf → cacheValid wf →
     let once := Flat.postAttendance date (ArrayOf attendanceList) wf in
     let twice := Flat.postAttendance date (ArrayOf attendanceList) once.2 in
     ∃ stored,
       LabelsUnknown (students (currentDocument wf)) attendanceList stored
       ∧ status once.1 = 200%nat
       ∧ attendance (currentDocument once.2) !! date = Some stored
       ∧ (Flat.getAttendance date once.2).1 = mkResponse 200 (EntryList stored)
       ∧ twice.1 = once.1
       ∧ file twice.2 = file once.2
       ∧ (∀ date',
            (Flat.getAttendance date' twice.2).1 = (Flat.getAttendance date' once.2).1)).
Proof.
  intros Hdate. split.
  - intros Hsubject Hitems Hordinary Hnone Hw once twice.
    pose proof (validItems_wellFormed _ Hitems) as Hvalid.
    destruct (postAttendance_nested_idempotent subject date attendanceList p)
      as (H1 & H2 & H3 & H4 & H5 & _ & H7); try done.
    cbv zeta in H1, H2, H3, H4, H5, H7. subst once twice.
    eexists. split; [apply enrichedAttendance_drops|].
    split; [by rewrite H1|]. split; [exact H2|]. split; [exact H3|].
    split; [exact H4|]. split; [exact H5|exact H7].
  - intros Hitems Hw Hcache once twice.
    pose proof (validItems_typed _ Hitems) as Hvalid.
    destruct (postAttendance_flat_idempotent date attendanceList wf)
      as (H1 & H2 & H3 & H4 & H5 & _ & H7); try done.
    cbv zeta in H1, H2, H3, H4, H5, H7. subst once twice.
    eexists. split; [apply enrichedAttendance_labels|].
    split; [by rewrite H1|]. split; [exact H2|]. split; [exact H3|].
    split; [exact H4|]. split; [exact H5|exact H7].
Qed.

Lemma X28_setAttendance_replaces_and_repeats_witness :
  let once :=
    Nested.postAttendance "Physics" "2024-01-01" (ArrayOf physicsMarks)
      (twoDates, Nested.pristine) in
  let twice := Nested.postAttendance "Physics" "2024-01-01" (ArrayOf physicsMarks) once.2 in
  let onceFlat := Flat.postAttendance "2024-01-01" (ArrayOf physicsMarks) flatOneStudent in
  let twiceFlat := Flat.postAttendance "2024-01-01" (ArrayOf physicsMarks) onceFlat.2 in
  (twice.1 = once.1 ∧ file twice.2.1 = file once.2.1)
  ∧ (twiceFlat.1 = onceFlat.1 ∧ file twiceFlat.2 = file onceFlat.2)
  ∧ attendance (storedDocument once.2.1) !! "Physics"%string
      ≫= (λ byDate, byDate !! "2024-01-01"%string)
    = Some []
  ∧ (Nested.getAttendance "Physics" "2024-01-01" (twoDates, Nested.pristine)).1
    = mkResponse 200
        (EntryList [marked "S001" "present" "Asha"; marked "S002" "absent" "Bilal"])
  ∧ (Flat.getAttendance "2024-01-01" twiceFlat.2).1
    = mkResponse 200
        (EntryList [marked "002" "present" "Bob"; marked "999" "absent" "Unknown"]).
Proof.
  intros once twice onceFlat twiceFlat.
  destruct (X28_setAttendance_replaces_and_repeats "Physics" "2024-01-01" physicsMarks
              (twoDates, Nested.pristine) flatOneStudent eq_refl) as [Hnested Hflat].
  destruct Hnested as (stored & _ & _ & _ & _ & Hsame & Hfile & _).
  - discriminate.
  - exact physicsMarks_wellFormed.
  - reflexivity.
  - reflexivity.
  - constructor.
  - destruct Hflat as (storedFlat & _ & _ & _ & _ & HsameFlat & HfileFlat & _).
    + repeat constructor.
      * exists "002"%string, "present"%string. repeat split; by left.
      * exists "999"%string, "absent"%string. repeat split; by right.
    + constructor.
    + intros data Hdata. discriminate Hdata.
    + split; [by split|]. split; [by split|].
      repeat split; vm_compute; reflexivity.
Defined.
(** ** Deleting a student in the cached variant *)
Section FlatDeleteFacts.
Import Flat.
Implicit Types (w : World Att) (d : Document Att).

(** A request of the cached variant that loads, edits and saves, when no
    write fails. *)
Lemma flat_transaction w :
  reliable w → cacheValid w →
  ∃ data w1,
    loadDataCached w = (Some data, w1)
    ∧ deref w1 data = currentDocument w
    ∧ ∀ g : Document Att → Document Att,
        deref (mutate data g w1) data = g (currentDocument w)
        ∧ currentDocument (mutate data g w1) = g (currentDocument w)
        ∧ ∃ w2, saveData data (mutate data g w1) = (true, w2)
                ∧ currentDocument w2 = g (currentDocument w)
                ∧ file w2 = stringify (g (currentDocument w))
                ∧ reliable w2 ∧ cacheValid w2.
Proof.
  intros Hw Hcache. unfold currentDocument.
  destruct (dataCache w) as [data|] eqn:Hdata.
  - exists data, w. unfold loadDataCached. rewrite Hdata.
    split; [done|]. split; [done|]. intros g.
    pose proof (Hcache data Hdata) as Hlt.
    assert (Hderef : deref (mutate data g w) data = g (deref w data)).
    { unfold deref, mutate; cbn [heap]. rewrite list_lookup_alter.
      destruct (lookup_lt_is_Some_2 (heap w) data Hlt) as [d0 Hd0].
      rewrite decide_True by done. by rewrite Hd0. }
    split; [done|]. split; [by cbn [mutate dataCache]; rewrite Hdata|].
    unfold saveData, writeFile. rewrite Hderef. cbn [writes mutate].
    rewrite (reliable_nextOutcome w Hw).
    eexists. split; [done|]. cbn [dataCache file].
    unfold deref; cbn [heap]. fold (deref (mutate data g w) data). rewrite Hderef.
    split; [done|]. split; [done|]. split.
    + unfold reliable; cbn [writes]. by apply reliable_tail.
    + intros data' [= <-]. cbn. by rewrite length_alter.
  - exists (length (heap w)), (loaded w).
    split; [by apply loadDataCached_miss|]. split; [apply deref_loaded|].
    intros g. split; [apply deref_mutate_loaded|].
    split.
    { cbn [mutate dataCache loaded]. apply deref_mutate_loaded. }
    load_step. rewrite (reliable_nextOutcome (loaded w)) by by apply reliable_loaded.
    eexists. split; [done|].
    unfold committed; cbn [dataCache file heap writes].
    rewrite deref_fresh.
    rewrite (reliable_nextOutcome (loaded w)) by by apply reliable_loaded.
    split; [done|]. split; [done|]. split.
    + apply reliable_tail, (reliable_loaded w Hw).
    + intros data' [= <-]. cbn [heap]. rewrite length_app. cbn. lia.
Qed.

Lemma bucket_withoutStudentFlat r d date :
  bucket (attendance (withoutStudentFlat r d)) date
  = filter (otherRoll r) (bucket (attendance d) date).
Proof.
  unfold bucket, withoutStudentFlat; cbn [attendance].
  rewrite lookup_fmap. by destruct (attendance d !! date).
Qed.

Lemma deleteStudent_flat r w :
  reliable w → cacheValid w →
  let d := currentDocument w in
  let response := (deleteStudent r w).1 in
  let w' := (deleteStudent r w).2 in
  ((∀ s, s ∈ students d → roll_no s ≠ r) →
     response = mkResponse 404 (Message (notFoundMessage r))
     ∧ currentDocument w' = d)
  ∧ ((∃ s, s ∈ students d ∧ roll_no s = r) →
     response = mkResponse 200 (Message (deletedMessage r))
     ∧ currentDocument w' = withoutStudentFlat r d
     ∧ file w' = stringify (withoutStudentFlat r d)
     ∧ reliable w').
Proof.
  intros Hw Hcache d response w'. subst response w'. unfold deleteStudent.
  destruct (flat_transaction w Hw Hcache) as (data & w1 & Hload & Hderef & Hedit).
  rewrite Hload, Hderef. fold d.
  set (g1 := λ d0 : Document Att,
         mkDocument (filter (λ s, roll_no s ≠ r) (students d0)) (attendance d0)).
  destruct (Hedit g1) as (Hderef1 & Hcurrent1 & _).
  rewrite Hderef1. fold d. cbn [g1 students].
  split.
  - intros Hnone.
    rewrite filter_all by (apply Forall_forall; exact Hnone).
    rewrite Nat.eqb_refl. cbn [fst snd]. split; [done|].
    rewrite Hcurrent1. fold d. unfold g1.
    rewrite filter_all by (apply Forall_forall; exact Hnone). by destruct d.
  - intros (s & Hs & Hr).
    destruct (_ =? _)%nat eqn:Hlen.
    { apply Nat.eqb_eq, length_filter_eq in Hlen.
      rewrite Forall_forall in Hlen. by destruct (Hlen s Hs). }
    rewrite mutate_mutate.
    set (g := _ ∘ g1).
    destruct (Hedit g) as (_ & _ & w2 & Hsave & Hcurrent & Hfile & Hw2 & Hcache2).
    rewrite Hsave. cbn [fst snd]. fold d in Hcurrent, Hfile.
    assert (Hg : g d = withoutStudentFlat r d) by done.
    rewrite Hg in Hcurrent, Hfile.
    split; [done|]. split; [done|]. split; done.
Qed.
End FlatDeleteFacts.


Lemma listed_untouched realm (a : Nested.Att) subject date :
  untouched realm → Nested.listed realm a subject date = Nested.bucket a subject date.
Proof.
  intros [Hprototype Hmethods]. unfold Nested.listed, Nested.bucket, Nested.holder.
  destruct (a !! subject) as [byDate|]; cbn.
  - unfold Nested.dayOf. rewrite Hprototype, lookup_empty. cbn.
    by destruct (byDate !! date).
  - destruct (String.eqb subject "__proto__"); cbn.
    { unfold Nested.dayOf. by rewrite Hprototype, lookup_empty. }
    destruct (isPrototypeMethod subject); cbn.
    { unfold Nested.dayOf. by rewrite Hprototype, Hmethods, !lookup_empty. }
    by rewrite Hprototype, lookup_empty.
Qed.

(** Deleting a student in [server.js]. *)
Lemma deleteStudent_nested (r : string) (w : World Nested.Att) :
  let d := storedDocument w in
  let response := (Nested.deleteStudent r w).1 in
  let w' := (Nested.deleteStudent r w).2 in
  ((∀ s, s ∈ students d → roll_no s ≠ r) →
     response = mkResponse 404 (Message (notFoundMessage r))
     ∧ storedDocument w' = d
     ∧ trace w' = trace (loaded w))
  ∧ ((∃ s, s ∈ students d ∧ roll_no s = r) → reliable w →
     response = mkResponse 200 (Message (deletedMessage r))
     ∧ trace w' = trace w ++ [ReadFile; WriteFile true]
     ∧ file w' = stringify (Nested.withoutStudent r d)
     ∧ storedDocument w' = Nested.withoutStudent r d).
Proof.
  intros d response w'. subst response w'.
  rewrite deleteStudent_closed. fold d. cbv zeta. split.
  - intros Hnone.
    rewrite filter_all by (apply Forall_forall; exact Hnone).
    rewrite Nat.eqb_refl. cbn [fst snd].
    split; [done|]. split; [|done].
    apply (storedDocument_loaded w).
  - intros (s & Hs & Hr) Hw.
    destruct (_ =? _)%nat eqn:Hlen.
    { apply Nat.eqb_eq, length_filter_eq in Hlen.
      rewrite Forall_forall in Hlen. by destruct (Hlen s Hs). }
    assert (Hfile : ∃ sf af, file w = JsonObject sf af).
    { unfold d, storedDocument in Hs. destruct (file w); try by inversion Hs.
      eauto. }
    destruct Hfile as (sf & af & Hfile).
    assert (Hloaded : writes (loaded w) = writes w ∧ trace (loaded w) = trace w ++ [ReadFile]
                      ∧ file (loaded w) = file w).
    { unfold loaded; cbn. by rewrite Hfile. }
    destruct Hloaded as (Hws & Htr & Hfl).
    assert (Hok : nextOutcome (writes (loaded w)) = true).
    { rewrite Hws. by apply reliable_nextOutcome. }
    rewrite Hok. cbn [fst snd].
    split; [done|]. split.
    { unfold committed; cbn [trace]. rewrite Hok, Htr. by rewrite <- app_assoc. }
    split.
    { unfold committed; cbn [file]. by rewrite Hok. }
    by rewrite storedDocument_committed, Hok.
Qed.

(** C5.  In [server.js] the entries of a deleted student survive on the
    inherited objects.  The handler of [DELETE] filters the buckets that
    the attendance object owns; a list that an earlier [POST] assigned to a
    member of [Object.prototype], here under the subject ["constructor"],
    is not among them.  After the deletion, which answers 200 and removes
    the student from the roster and from the bucket of ["Physics"], a [GET]
    of the subject ["constructor"] still returns the entry of the deleted
    student. *)
Theorem C5_entries_on_inherited_objects_survive :
  let start := (twoDates, Nested.pristine) in
  let posted :=
    Nested.postAttendance "constructor" "2024-01-03" (ArrayOf [mark "S001" "present"])
      start in
  let removed := Nested.handle (H := latinCollator) (Nested.DeleteStudent "S001") posted.2 in
  posted.1
  = mkResponse 200 (Message "Attendance for constructor on 2024-01-03 saved successfully.")
  ∧ removed.1 = mkResponse 200 (Message "Student S001 deleted successfully.")
  ∧ students (storedDocument removed.2.1) = [mkStudent "S002" "Bilal" (Some "N/A")]
  ∧ (Nested.getAttendance "Physics" "2024-01-01" removed.2).1
    = mkResponse 200 (EntryList [marked "S002" "absent" "Bilal"])
  ∧ (Nested.getAttendance "constructor" "2024-01-03" removed.2).1
    = mkResponse 200 (EntryList [marked "S001" "present" "Asha"]).
Proof. repeat split; vm_compute; reflexivity. Qed.

(** X29.  Deleting a student, in [server.js] and in the first flat variant,
    when nothing was left on the objects that the attendance object
    inherits from.  When no student of the document has the roll number
    the answer is 404 and the document is what it was (in [server.js] the
    only file-system calls are those of [loadData]).  When a student has it
    and no write fails, the answer is 200; the roster without the students
    of that roll number and every bucket without the entries of that roll
    number, the other entries in their order, are written together (in
    [server.js]: one read, then one successful write); a later read of a
    bucket returns just those other entries.  The requests are handled one
    after the other. *)
Theorem X29_removeStudent (r : string) (p : Nested.Process) (wf : World Flat.Att) :
  let d := storedDocument p.1 in
  let response := (Nested.deleteStudent r p.1).1 in
  let w' := (Nested.deleteStudent r p.1).2 in
  let df := currentDocument wf in
  let responseFlat := (Flat.deleteStudent r wf).1 in
  let wf' := (Flat.deleteStudent r wf).2 in
  let others (l : list Entry) := filter (λ e, att_roll_no e ≠ Some r) l in
  ((∀ s, s ∈ students d → roll_no s ≠ r) →
     response = mkResponse 404 (Message ("Student with roll number " +:+ r +:+ " not found."))
     ∧ storedDocument w' = d
     ∧ trace w' = trace (loaded p.1))
  ∧ ((∃ s, s ∈ students d ∧ roll_no s = r) → reliable p.1 →
     response = mkResponse 200 (Message ("Student " +:+ r +:+ " deleted successfully."))
     ∧ trace w' = trace p.1 ++ [ReadFile; WriteFile true]
     ∧ file w' = JsonObject (Some (students (storedDocument w')))
                            (Some (attendance (storedDocument w')))
     ∧ students (storedDocument w') = filter (λ s, roll_no s ≠ r) (students d)
     ∧ (∀ subject date,
          Nested.bucket (attendance (storedDocument w')) subject date
          = others (Nested.bucket (attendance d) subject date))
     ∧ (untouched p.2 →
        ∀ subject date, dateRegex date = true → subject ≠ ""%string →
          (Nested.getAttendance subject date (w', p.2)).1
          = mkResponse 200 (EntryList (others (Nested.bucket (attendance d) subject date)))))
  ∧ (reliable wf → cacheValid wf →
     ((∀ s, s ∈ students df → roll_no s ≠ r) →
        responseFlat
        = mkResponse 404 (Message ("Student with roll number " +:+ r +:+ " not found."))
        ∧ currentDocument wf' = df)
     ∧ ((∃ s, s ∈ students df ∧ roll_no s = r) →
        responseFlat = mkResponse 200 (Message ("Student " +:+ r +:+ " deleted successfully."))
        ∧ students (currentDocument wf') = filter (λ s, roll_no s ≠ r) (students df)
        ∧ file wf' = JsonObject (Some (students (currentDocument wf')))
                                (Some (attendance (currentDocument wf')))
        ∧ (∀ date, dateRegex date = true →
             (Flat.getAttendance date wf').1
             = mkResponse 200 (EntryList (others (Flat.bucket (attendance df) date)))))).
Proof.
  intros d response w' df responseFlat wf' others.
  destruct (deleteStudent_nested r p.1) as [Habsent Hfound].
  split; [exact Habsent|]. split.
  - intros Hexists Hw.
    destruct (Hfound Hexists Hw) as (Hresponse & Htrace & Hfile & Hstored).
    fold w' in Htrace, Hfile, Hstored. fold response in Hresponse. fold d in Hfile, Hstored.
    split; [exact Hresponse|]. split; [exact Htrace|].
    split; [by rewrite Hfile, Hstored|]. split; [by rewrite Hstored|].
    split.
    + intros subject date. rewrite Hstored. apply bucket_withoutStudent.
    + intros Hrealm subject date Hdate Hsubject.
      rewrite getAttendance_response, Hdate. apply String.eqb_neq in Hsubject.
      rewrite Hsubject. cbn [negb fst snd].
      rewrite listed_untouched by done. rewrite Hstored.
      by rewrite bucket_withoutStudent.
  - intros Hwf Hcache.
    destruct (deleteStudent_flat r wf Hwf Hcache) as [HabsentFlat HfoundFlat].
    split; [exact HabsentFlat|].
    intros Hexists.
    destruct (HfoundFlat Hexists) as (Hresponse & Hcurrent & Hfile & Hreliable).
    fold wf' in Hcurrent, Hfile, Hreliable. fold responseFlat in Hresponse.
    fold df in Hcurrent, Hfile.
    split; [exact Hresponse|]. split; [by rewrite Hcurrent|].
    split; [by rewrite Hfile, Hcurrent|].
    intros date Hdate. rewrite getAttendance_flat_response by done.
    rewrite Hdate. cbn [negb]. by rewrite Hcurrent, bucket_withoutStudentFlat.
Qed.

Lemma X29_removeStudent_witness :
  let removed := Nested.deleteStudent "S001" twoDates in
  removed.1 = mkResponse 200 (Message "Student S001 deleted successfully.")
  ∧ students (storedDocument removed.2) = [mkStudent "S002" "Bilal" (Some "N/A")]
  ∧ (Nested.getAttendance "Physics" "2024-01-01" (removed.2, Nested.pristine)).1
    = mkResponse 200 (EntryList [marked "S002" "absent" "Bilal"])
  ∧ (Nested.getAttendance "Physics" "2024-01-02" (removed.2, Nested.pristine)).1
    = mkResponse 200 (EntryList [])
  ∧ (Flat.deleteStudent "002" flatOneStudent).1
    = mkResponse 200 (Message "Student 002 deleted successfully.")
  ∧ (Nested.deleteStudent "S009" twoDates).1
    = mkResponse 404 (Message "Student with roll number S009 not found.").
Proof.
  intros removed.
  destruct (X29_removeStudent "S001" (twoDates, Nested.pristine) flatOneStudent)
    as (_ & Hfound & _).
  destruct Hfound as (Hresponse & _ & _ & Hroster & _ & Hget).
  - exists (mkStudent "S001" "Asha" (Some "N/A")). split; [left|reflexivity].
  - constructor.
  - destruct (X29_removeStudent "002" (twoDates, Nested.pristine) flatOneStudent)
      as (_ & _ & Hflat).
    destruct Hflat as [_ Hremoved].
    + constructor.
    + intros data Hdata. discriminate Hdata.
    + destruct Hremoved as (Hflatresponse & _).
      * exists (mkStudent "002" "Bob" (Some "N/A")). split; [left|reflexivity].
      * destruct (X29_removeStudent "S009" (twoDates, Nested.pristine) flatOneStudent)
          as (Habsent & _).
        destruct Habsent as (Hnotfound & _).
        { intros s Hs. cbn in Hs.
          apply elem_of_cons in Hs as [->|Hs]; [discriminate|].
          apply list_elem_of_singleton in Hs as ->. discriminate. }
        split; [exact Hresponse|]. split; [vm_compute; reflexivity|].
        split; [vm_compute; reflexivity|]. split; [vm_compute; reflexivity|].
        split; [exact Hflatresponse|exact Hnotfound].
Defined.
(** * Properties of whole sessions and of the remaining routes *)

(** ** [server.js]: what a request does to the stored document *)
Section SessionFacts.
Import Nested.
Context `{Collator}.
Implicit Types (w : World Att) (d : Document Att) (p : Process).

Lemma file_loaded w : file w ≠ NoFile → file (loaded w) = file w.
Proof. unfold loaded; cbn [file]. by destruct (file w). Qed.

Lemma file_committed_failed d w :
  nextOutcome (writes (loaded w)) = false → file w ≠ NoFile → file (committed d w) = file w.
Proof.
  intros Hfail Hfile. unfold committed; cbn [file]. rewrite Hfail. by apply file_loaded.
Qed.

(** One of three things happens.  The stored document is what it was, and
    so are an existing file and the inherited objects; or the request
    succeeded and made its edit to the document; or the request assigned a
    list to an inherited object and left the stored document as it was. *)
Lemma handle_effect req p :
  let d := storedDocument p.1 in
  let response := (handle req p).1 in
  let p' := (handle req p).2 in
  (storedDocument p'.1 = d ∧ (file p.1 ≠ NoFile → file p'.1 = file p.1) ∧ p'.2 = p.2)
  ∨ (succeeded response = true
     ∧ p'.2 = p.2
     ∧ match req with
       | PostStudent body =>
           ∃ newStudent, (roll_no newStudent ∉ (roll_no <$> students d))
                         ∧ storedDocument p'.1 = withStudent newStudent d
       | DeleteStudent r => storedDocument p'.1 = withoutStudent r d
       | PostAttendance subject date (ArrayOf attendanceList) =>
           storedDocument p'.1
           = withBucket subject date (enrichedAttendance (students d) attendanceList) d
       | _ => False
       end)
  ∨ (storedDocument p'.1 = d
     ∧ ∃ subject date body inherited,
         req = PostAttendance subject date body
         ∧ holder p.2 (attendance d) subject = Some inherited
         ∧ (∀ byDate, inherited ≠ OwnObject byDate)).
Proof.
  intros d response p'. subst d response p'. destruct p as [w realm].
  destruct req as [|body|r| |subject date|subject date body|subject date];
    cbn [handle onWorld fst snd].
  - left. unfold getStudents. load_step. cbn [snd].
    split; [apply storedDocument_loaded|]. split; [apply file_loaded|done].
  - destruct (truthy (body_roll_no body)) as [r|] eqn:Hr;
      [destruct (truthy (body_name body)) as [n|] eqn:Hn|].
    + rewrite (postStudent_closed body w r n Hr Hn). cbv zeta.
      destruct (List.find _ _) eqn:Hfind; cbn [fst snd].
      * left. split; [apply storedDocument_loaded|]. split; [apply file_loaded|done].
      * rewrite storedDocument_committed.
        destruct (nextOutcome _) eqn:Hok.
        -- right. left. split; [done|]. split; [done|].
           eexists. split; [|done]. by apply find_roll_None.
        -- left. split; [done|]. split; [by apply file_committed_failed|done].
    + left. unfold postStudent. by rewrite Hr, Hn.
    + left. unfold postStudent. by rewrite Hr.
  - rewrite deleteStudent_closed. cbv zeta. destruct (_ =? _)%nat; cbn [fst snd].
    + left. split; [apply (storedDocument_loaded w)|]. split; [apply file_loaded|done].
    + rewrite storedDocument_committed.
      destruct (nextOutcome _) eqn:Hok.
      * right. left. by cbn.
      * left. split; [done|]. split; [by apply file_committed_failed|done].
  - left. unfold getAllAttendance. load_step. cbn [snd].
    split; [apply storedDocument_loaded|]. split; [apply file_loaded|done].
  - left. unfold getAttendance.
    destruct (negb _); [done|]. destruct (String.eqb _ _); [done|].
    load_step. cbn [fst snd].
    split; [apply storedDocument_loaded|]. split; [apply file_loaded|done].
  - destruct (dateRegex date) eqn:Hdate;
      [|by left; unfold postAttendance; rewrite Hdate].
    destruct (String.eqb subject "") eqn:Hsubject;
      [by left; unfold postAttendance; rewrite Hdate, Hsubject|].
    destruct body as [|attendanceList];
      [by left; unfold postAttendance; rewrite Hdate, Hsubject|].
    destruct (forallb validItem attendanceList) eqn:Hvalid;
      [|by left; unfold postAttendance; rewrite Hdate, Hsubject, Hvalid].
    apply String.eqb_neq in Hsubject.
    rewrite postAttendance_closed by done. cbv zeta. cbn [fst snd].
    assert (Hown : ∀ response,
      let result : Response Att * Process :=
        (response,
         (committed (withBucket subject date
                       (enrichedAttendance (students (storedDocument w)) attendanceList)
                       (storedDocument w)) w, realm)) in
      response = (if nextOutcome (writes (loaded w))
                  then mkResponse 200 (Message (savedMessage subject date))
                  else mkResponse 500 (Message attendanceSaveMessage)) →
      (storedDocument result.2.1 = storedDocument w
       ∧ (file w ≠ NoFile → file result.2.1 = file w) ∧ result.2.2 = realm)
      ∨ (succeeded result.1 = true ∧ result.2.2 = realm
         ∧ storedDocument result.2.1
           = withBucket subject date
               (enrichedAttendance (students (storedDocument w)) attendanceList)
               (storedDocument w))).
    { intros response result ->. subst result. cbn [fst snd].
      rewrite storedDocument_committed.
      destruct (nextOutcome _) eqn:Hok.
      - by right.
      - left. split; [done|]. split; [by apply file_committed_failed|done]. }
    destruct (holder realm (attendance (storedDocument w)) subject)
      as [[byDate| |member|key array]|] eqn:Hholder.
    + destruct (Hown _ eq_refl) as [Hsame|Hedit]; [by left|by right; left].
    + right. right. cbn [fst snd]. rewrite storedDocument_committed.
      split; [by destruct (nextOutcome _)|].
      by exists subject, date, (ArrayOf attendanceList), ThePrototype.
    + right. right. cbn [fst snd]. rewrite storedDocument_committed.
      split; [by destruct (nextOutcome _)|].
      by exists subject, date, (ArrayOf attendanceList), (Method member).
    + right. right. cbn [fst snd]. rewrite storedDocument_committed.
      split; [by destruct (nextOutcome _)|].
      by exists subject, date, (ArrayOf attendanceList), (HungArray key array).
    + destruct (Hown _ eq_refl) as [Hsame|Hedit]; [by left|by right; left].
  - left. unfold printAttendance.
    destruct (negb _); [done|]. destruct (String.eqb _ _); [done|].
    load_step. cbn [fst snd].
    split; [apply storedDocument_loaded|]. split; [apply file_loaded|done].
Qed.

(** A request whose subject names nothing inherited, in a process where
    nothing was left on the inherited objects, leaves them as they are. *)
Lemma handle_ordinary req p :
  ordinaryRequest req → untouched p.2 →
  let d := storedDocument p.1 in
  let response := (handle req p).1 in
  let p' := (handle req p).2 in
  p'.2 = p.2
  ∧ ((storedDocument p'.1 = d ∧ (file p.1 ≠ NoFile → file p'.1 = file p.1))
     ∨ (succeeded response = true
        ∧ match req with
          | PostStudent body =>
              ∃ newStudent, (roll_no newStudent ∉ (roll_no <$> students d))
                            ∧ storedDocument p'.1 = withStudent newStudent d
          | DeleteStudent r => storedDocument p'.1 = withoutStudent r d
          | PostAttendance subject date (ArrayOf attendanceList) =>
              storedDocument p'.1
              = withBucket subject date (enrichedAttendance (students d) attendanceList) d
          | _ => False
          end)).
Proof.
  intros Hreq [Hprototype Hmethods]. cbv zeta.
  destruct (handle_effect req p) as [(Hd & Hfile & Hrealm)|[(Hok & Hrealm & Hedit)|[_ Hin]]].
  - split; [done|]. by left.
  - split; [done|]. by right.
  - destruct Hin as (subject & date & body & inherited & -> & Hholder & Hnot).
    cbn in Hreq. rewrite holder_ordinary in Hholder
      by (done || by rewrite Hprototype, lookup_empty).
    destruct (attendance (storedDocument p.1) !! subject) as [byDate|]; [|done].
    injection Hholder as <-. by destruct (Hnot byDate).
Qed.

Lemma serve_ordinary requests p :
  Forall ordinaryRequest requests → untouched p.2 →
  (serve handle requests p).2 = p.2.
Proof.
  revert p. induction requests as [|req requests IH]; intros p Hreqs Hrealm; [done|].
  apply Forall_cons in Hreqs as [Hreq Hreqs]. cbn [serve fold_left].
  destruct (handle_ordinary req p Hreq Hrealm) as [Hsame _].
  fold (serve handle requests (handle req p).2).
  rewrite IH; [done|done|]. by rewrite Hsame.
Qed.

(** The stored document after a request is the one before it, or one of the
    three edits of it. *)
Lemma handle_document req p :
  let d := storedDocument p.1 in
  let d' := storedDocument (handle req p).2.1 in
  d' = d
  ∨ match req with
    | PostStudent body =>
        ∃ newStudent, (roll_no newStudent ∉ (roll_no <$> students d))
                      ∧ d' = withStudent newStudent d
    | DeleteStudent r => d' = withoutStudent r d
    | PostAttendance subject date (ArrayOf attendanceList) =>
        d' = withBucket subject date (enrichedAttendance (students d) attendanceList) d
    | _ => False
    end.
Proof.
  cbv zeta.
  destruct (handle_effect req p) as [(Hd & _)|[(_ & _ & Hedit)|[Hd _]]];
    [by left|by right|by left].
Qed.

Lemma bucket_withBucket_other subject date entries d subject' date' :
  (subject', date') ≠ (subject, date) →
  bucket (attendance (withBucket subject date entries d)) subject' date'
  = bucket (attendance d) subject' date'.
Proof.
  intros Hne. unfold bucket, withBucket; cbn [attendance].
  destruct (decide (subject' = subject)) as [->|Hsubject].
  - rewrite lookup_insert_eq. cbn.
    rewrite lookup_insert_ne by congruence.
    by destruct (attendance d !! subject).
  - by rewrite lookup_insert_ne.
Qed.

Lemma integrity_withStudent newStudent d :
  referentialIntegrity d → referentialIntegrity (withStudent newStudent d).
Proof.
  intros Hd subject date e He. destruct (Hd subject date e He) as (s & Hs & Hroll & Hname).
  exists s. split; [|done]. unfold withStudent; cbn [students].
  apply arraySort_elem_of, elem_of_app. by left.
Qed.

Lemma integrity_withoutStudent r d :
  referentialIntegrity d → referentialIntegrity (withoutStudent r d).
Proof.
  intros Hd subject date e. rewrite bucket_withoutStudent.
  intros [Hother He]%list_elem_of_filter.
  destruct (Hd subject date e He) as (s & Hs & Hroll & Hname).
  exists s. split; [|done]. unfold withoutStudent; cbn [students].
  apply list_elem_of_filter. split; [|done].
  intros Heq. apply Hother. by rewrite Hroll, Heq.
Qed.

Lemma integrity_withBucket subject date attendanceList d :
  referentialIntegrity d →
  referentialIntegrity
    (withBucket subject date (enrichedAttendance (students d) attendanceList) d).
Proof.
  intros Hd subject' date' e.
  destruct (decide ((subject', date') = (subject, date))) as [[= -> ->]|Hne].
  - rewrite bucket_withBucket.
    intros (att & s & _ & Hfind & ->)%enrichedAttendance_elem_of.
    apply find_sameRoll_Some in Hfind as [Hs Hroll]. by exists s.
  - rewrite bucket_withBucket_other by done. apply Hd.
Qed.


Lemma handle_integrity req p :
  referentialIntegrity (storedDocument p.1) →
  referentialIntegrity (storedDocument (handle req p).2.1).
Proof.
  intros Hd. destruct (handle_document req p) as [->|Hedit]; [done|].
  destruct req as [|body|r| |subject date|subject date [|attendanceList]|subject date];
    try done.
  - destruct Hedit as (newStudent & _ & ->). by apply integrity_withStudent.
  - rewrite Hedit. by apply integrity_withoutStudent.
  - rewrite Hedit. by apply integrity_withBucket.
Qed.
End SessionFacts.

(** X1.  Referential integrity of [server.js], the requests handled one
    after the other.  When every stored attendance entry carries the roll
    number and the name of a roster student, this is still so after any
    sequence of requests, whatever the outcome of the writes.  When,
    moreover, nothing was left on the objects that the attendance object
    inherits from and no [POST] of the sequence has a subject that names a
    member of [Object.prototype], every entry that a later [GET] of a
    bucket returns names a student that [GET /api/students] would list. *)
Theorem X1_referential_integrity `{Collator} (requests : list Nested.Request)
    (p : Nested.Process) :
  referentialIntegrity (storedDocument p.1) →
  let p' := serve Nested.handle requests p in
  referentialIntegrity (storedDocument p'.1)
  ∧ (Forall ordinaryRequest requests → untouched p.2 →
     ∀ subject date entries roster,
       payload (Nested.getAttendance subject date p').1 = EntryList entries →
       payload (Nested.getStudents p'.1).1 = StudentList roster →
       ∀ e, e ∈ entries → namesRosterStudent roster e).
Proof.
  intros Hp p'.
  assert (Hp' : referentialIntegrity (storedDocument p'.1)).
  { subst p'. revert p Hp. induction requests as [|req requests IH]; intros p Hp; [done|].
    cbn [serve fold_left]. apply IH. by apply handle_integrity. }
  split; [done|].
  intros Hreqs Hrealm subject date entries roster. rewrite getAttendance_response.
  unfold Nested.getStudents. load_step. cbn [fst payload].
  destruct (negb _); [done|]. destruct (String.eqb _ _); [done|].
  cbn [payload]. unfold p'. rewrite serve_ordinary by done. fold p'.
  rewrite listed_untouched by done.
  intros [= <-] [= <-] e He. by apply (Hp' subject date).
Qed.

Lemma X1_referential_integrity_witness :
  let p' := serve (Nested.handle (H := latinCollator))
              [Nested.PostStudent aliceBody;
               Nested.PostAttendance "Physics" "2024-01-03"
                 (ArrayOf [mark "002" "present"; mark "404" "absent"]);
               Nested.DeleteStudent "001"] (oneStudent, Nested.pristine) in
  referentialIntegrity (storedDocument p'.1)
  ∧ (Nested.getAttendance "Physics" "2024-01-03" p').1
    = mkResponse 200 (EntryList [marked "002" "present" "Bob"])
  ∧ (Nested.getStudents p'.1).1
    = mkResponse 200 (StudentList [mkStudent "002" "Bob" (Some "N/A")]).
Proof.
  intros p'.
  split; [|split; vm_compute; reflexivity].
  apply (X1_referential_integrity (H := latinCollator)
           [Nested.PostStudent aliceBody;
            Nested.PostAttendance "Physics" "2024-01-03"
              (ArrayOf [mark "002" "present"; mark "404" "absent"]);
            Nested.DeleteStudent "001"] (oneStudent, Nested.pristine)).
  intros subject date e He. unfold Nested.bucket in He.
  cbn [storedDocument oneStudent freshProcess file backfill attendance default fst] in He.
  unfold id in He. rewrite lookup_empty in He. cbn in He. by apply elem_of_nil in He.
Defined.

(** X2.  Requests of [server.js] are all-or-nothing, the requests handled
    one after the other.  Take a process where nothing was left on the
    objects that the attendance object inherits from and a request that, if
    it is a [POST] of attendance, has a subject that names no member of
    [Object.prototype].  If the request does not answer 200 or 201, or is
    one of the read-only routes whatever it answers, it leaves the stored
    document as it was, leaves an existing file untouched, and changes no
    later answer of [GET /api/students] or of a [GET] of a bucket. *)
Theorem X2_unsuccessful_requests_change_nothing `{Collator} (req : Nested.Request)
    (p : Nested.Process) :
  let response := (Nested.handle req p).1 in
  let p' := (Nested.handle req p).2 in
  ordinaryRequest req → untouched p.2 →
  succeeded response = false ∨ isQuery req = true →
  storedDocument p'.1 = storedDocument p.1
  ∧ (file p.1 ≠ NoFile → file p'.1 = file p.1)
  ∧ (Nested.getStudents p'.1).1 = (Nested.getStudents p.1).1
  ∧ (∀ subject date,
       (Nested.getAttendance subject date p').1 = (Nested.getAttendance subject date p).1).
Proof.
  intros response p' Hreq Hrealm Hquiet.
  destruct (handle_ordinary req p Hreq Hrealm) as [Hsame Heffect].
  fold p' in Hsame, Heffect. fold response in Heffect.
  assert (Hkept : storedDocument p'.1 = storedDocument p.1
                  ∧ (file p.1 ≠ NoFile → file p'.1 = file p.1)).
  { destruct Heffect as [Hkept|[Hok Hedit]]; [done|].
    destruct Hquiet as [Hfail|Hquery]; [congruence|].
    by destruct req as [|?|?| |??|?? [|?]|??]. }
  destruct Hkept as [Hstored Hfile]. split; [done|]. split; [done|]. split.
  - unfold Nested.getStudents. load_step. cbn [fst]. by rewrite Hstored.
  - intros subject date. by rewrite !getAttendance_response, Hstored, Hsame.
Qed.

Lemma X2_unsuccessful_requests_change_nothing_witness :
  storedDocument
    (Nested.handle (H := latinCollator) (Nested.PostStudent aliceBody)
       (failingDisk, Nested.pristine)).2.1
  = storedDocument failingDisk
  ∧ (Nested.handle (H := latinCollator) (Nested.PostStudent aliceBody)
       (failingDisk, Nested.pristine)).1
    = mkResponse 500 (Message "Failed to save data to the server file.")
  ∧ storedDocument
      (Nested.handle (H := latinCollator) (Nested.PrintAttendance "Physics" "2024-01-01")
         (twoDates, Nested.pristine)).2.1
    = storedDocument twoDates.
Proof.
  split; [|split].
  - apply (X2_unsuccessful_requests_change_nothing (H := latinCollator)
             (Nested.PostStudent aliceBody) (failingDisk, Nested.pristine)).
    + exact I.
    + split; reflexivity.
    + left. reflexivity.
  - vm_compute. reflexivity.
  - apply (X2_unsuccessful_requests_change_nothing (H := latinCollator)
             (Nested.PrintAttendance "Physics" "2024-01-01") (twoDates, Nested.pristine)).
    + exact I.
    + split; reflexivity.
    + right. reflexivity.
Defined.

Section BucketFacts.
Import Nested.
Implicit Types (d : Document Att).

Lemma lookup_withBucket_other subject date entries d subject' date' :
  (subject', date') ≠ (subject, date) →
  attendance (withBucket subject date entries d) !! subject' ≫= (λ byDate, byDate !! date')
  = attendance d !! subject' ≫= (λ byDate, byDate !! date').
Proof.
  intros Hne. unfold withBucket; cbn [attendance].
  destruct (decide (subject' = subject)) as [->|Hsubject].
  - rewrite lookup_insert_eq. cbn.
    rewrite lookup_insert_ne by congruence.
    by destruct (attendance d !! subject).
  - by rewrite lookup_insert_ne.
Qed.

Lemma recorded_withoutStudent r d subject date :
  recorded (attendance d) subject date →
  recorded (attendance (withoutStudent r d)) subject date.
Proof.
  unfold recorded, withoutStudent; cbn [attendance]. rewrite lookup_fmap.
  destruct (attendance d !! subject) as [byDate|]; cbn; [|done].
  rewrite lookup_fmap. by destruct (byDate !! date).
Qed.

Lemma recorded_withBucket subject date entries d subject' date' :
  recorded (attendance d) subject' date' →
  recorded (attendance (withBucket subject date entries d)) subject' date'.
Proof.
  unfold recorded.
  destruct (decide ((subject', date') = (subject, date))) as [[= -> ->]|Hne].
  - by rewrite bucket_key_withBucket.
  - by rewrite lookup_withBucket_other.
Qed.
End BucketFacts.

(** X3.  [server.js] never forgets a recorded day.  Once the attendance
    object of the stored document has a key of its own for a subject and,
    under it, one for a date, it has them after any sequence of requests
    handled one after the other, whatever the writes do: deleting students
    empties buckets but removes neither dates nor subjects. *)
Theorem X3_recorded_days_stay `{Collator} (requests : list Nested.Request)
    (p : Nested.Process) (subject date : string) :
  recorded (attendance (storedDocument p.1)) subject date →
  recorded (attendance (storedDocument (serve Nested.handle requests p).1)) subject date.
Proof.
  revert p. induction requests as [|req requests IH]; intros p Hp; [done|].
  cbn [serve fold_left]. apply IH.
  destruct (handle_document req p) as [->|Hedit]; [done|].
  destruct req as [|body|r| |subject' date'|subject' date' [|attendanceList]|subject' date'];
    try done.
  - by destruct Hedit as (newStudent & _ & ->).
  - rewrite Hedit. by apply recorded_withoutStudent.
  - rewrite Hedit. by apply recorded_withBucket.
Qed.

Lemma X3_recorded_days_stay_witness :
  let p' := serve (Nested.handle (H := latinCollator))
              [Nested.DeleteStudent "S001"; Nested.DeleteStudent "S002"]
              (twoDates, Nested.pristine) in
  recorded (attendance (storedDocument p'.1)) "Physics" "2024-01-02"
  ∧ Nested.bucket (attendance (storedDocument p'.1)) "Physics" "2024-01-01" = []
  ∧ students (storedDocument p'.1) = [].
Proof.
  intros p'. split; [|split; vm_compute; reflexivity].
  apply (X3_recorded_days_stay (H := latinCollator)
           [Nested.DeleteStudent "S001"; Nested.DeleteStudent "S002"]
           (twoDates, Nested.pristine) "Physics" "2024-01-02").
  unfold recorded. vm_compute. eexists. reflexivity.
Defined.

(** X4.  [POST /api/attendance/:subject/:date] of [server.js] touches one
    bucket.  Whatever the subject, the body and the outcome of the write,
    the roster and every bucket of the stored document other than the one
    addressed are stored as before.  When the subject names no member of
    [Object.prototype] and nothing was left on the objects that the
    attendance object inherits from, they are left as they are and a [GET]
    of another bucket answers as before. *)
Theorem X4_setAttendance_touches_one_bucket (subject date : string) (body : Body)
    (p : Nested.Process) (subject' date' : string) :
  (subject', date') ≠ (subject, date) →
  let p' := (Nested.postAttendance subject date body p).2 in
  students (storedDocument p'.1) = students (storedDocument p.1)
  ∧ Nested.bucket (attendance (storedDocument p'.1)) subject' date'
    = Nested.bucket (attendance (storedDocument p.1)) subject' date'
  ∧ (inheritedName subject = false → untouched p.2 →
     p'.2 = p.2
     ∧ (Nested.getAttendance subject' date' p').1
       = (Nested.getAttendance subject' date' p).1).
Proof.
  intros Hne p'.
  assert (Hboth : students (storedDocument p'.1) = students (storedDocument p.1)
                  ∧ Nested.bucket (attendance (storedDocument p'.1)) subject' date'
                    = Nested.bucket (attendance (storedDocument p.1)) subject' date').
  { destruct (handle_document (H := codeUnitCollator)
                (Nested.PostAttendance subject date body) p) as [Hsame|Hedit].
    - cbn [Nested.handle] in Hsame. fold p' in Hsame. by rewrite Hsame.
    - destruct body as [|attendanceList]; [done|].
      cbn [Nested.handle] in Hedit. fold p' in Hedit. rewrite Hedit.
      split; [done|]. by apply bucket_withBucket_other. }
  destruct Hboth as [Hroster Hbucket]. split; [done|]. split; [done|].
  intros Hsubject Hrealm.
  destruct (handle_ordinary (H := codeUnitCollator)
              (Nested.PostAttendance subject date body) p Hsubject Hrealm) as [Hsame _].
  cbn [Nested.handle] in Hsame. fold p' in Hsame. split; [done|].
  rewrite !getAttendance_response, Hsame. rewrite !listed_untouched by done.
  by rewrite Hbucket.
Qed.

Lemma X4_setAttendance_touches_one_bucket_witness :
  let p' := (Nested.postAttendance "Physics" "2024-01-02" (ArrayOf [])
               (twoDates, Nested.pristine)).2 in
  Nested.bucket (attendance (storedDocument p'.1)) "Physics" "2024-01-01"
  = Nested.bucket (attendance (storedDocument twoDates)) "Physics" "2024-01-01"
  ∧ (Nested.getAttendance "Physics" "2024-01-01" p').1
    = mkResponse 200
        (EntryList [marked "S001" "present" "Asha"; marked "S002" "absent" "Bilal"])
  ∧ (Nested.getAttendance "Physics" "2024-01-02" p').1 = mkResponse 200 (EntryList []).
Proof.
  intros p'. split; [|split; vm_compute; reflexivity].
  apply (X4_setAttendance_touches_one_bucket "Physics" "2024-01-02" (ArrayOf [])
           (twoDates, Nested.pristine) "Physics" "2024-01-01").
  intros Heq. discriminate Heq.
Defined.

(** ** Adding to a sorted roster *)
Section SortedInsertion.
Context {A : Type} (comparefn : A → A → comparison).

Lemma insertSorted_least (x : A) (l : list A) :
  Forall (inOrder comparefn x) l → insertSorted comparefn x l = x :: l.
Proof.
  destruct 1 as [|y l Hy _]; [done|]. cbn. unfold inOrder in Hy.
  by destruct (comparefn x y).
Qed.

(** Sorting a sorted array with one more element pushed at its end puts
    the new element somewhere and moves nothing else. *)
Lemma arraySort_push_sorted (x : A) (l : list A) :
  StronglySorted (inOrder comparefn) l →
  ∃ l1 l2, l = l1 ++ l2 ∧ arraySort comparefn (l ++ [x]) = l1 ++ x :: l2.
Proof.
  unfold arraySort. rewrite fold_right_app. cbn [foldr insertSorted].
  induction 1 as [|y l Hl IH Hy]; [by exists [], []|].
  destruct IH as (l1 & l2 & -> & IH). cbn [foldr]. rewrite IH.
  destruct l1 as [|z l1].
  - cbn [app insertSorted]. destruct (comparefn y x) eqn:Hyx.
    + by exists [y], l2.
    + by exists [y], l2.
    + exists [], (y :: l2). split; [done|]. cbn [app].
      by rewrite insertSorted_least.
  - exists (y :: z :: l1), l2. split; [done|]. cbn [app insertSorted].
    apply Forall_cons in Hy as [Hyz _]. unfold inOrder in Hyz.
    by destruct (comparefn y z).
Qed.
End SortedInsertion.

(** X5.  Adding a student to [server.js] and deleting it again is a round
    trip.  For a roll number that no stored student and no stored entry
    carries, a stored roster that is sorted by roll number, and no failing
    write: the [POST] answers 201, the [DELETE] that follows answers 200, and
    the stored document is again what it was before the two requests. *)
Theorem X5_add_then_delete_restores `{Collator} (body : StudentBody) (r n : string)
    (w : World Nested.Att) :
  truthy (body_roll_no body) = Some r →
  truthy (body_name body) = Some n →
  r ∉ (roll_no <$> students (storedDocument w)) →
  rosterSorted (storedDocument w) →
  (∀ subject date e,
     e ∈ Nested.bucket (attendance (storedDocument w)) subject date →
     att_roll_no e ≠ Some r) →
  reliable w →
  let added := Nested.postStudent body w in
  let removed := Nested.deleteStudent r added.2 in
  status added.1 = 201%nat
  ∧ status removed.1 = 200%nat
  ∧ storedDocument removed.2 = storedDocument w.
Proof.
  intros Hr Hn Hfresh Hsorted Hentries Hw added removed. subst added removed.
  set (d := storedDocument w) in *.
  set (newStudent := mkStudent r n (Some (orElse (body_course body) "N/A"))).
  assert (Hadded : Nested.postStudent body w
                   = (mkResponse 201 (StudentRecord newStudent),
                      committed (Nested.withStudent newStudent d) w)).
  { rewrite (postStudent_closed body w r n Hr Hn). cbv zeta. fold d.
    apply find_roll_None in Hfresh. rewrite Hfresh.
    by rewrite (reliable_nextOutcome (loaded w)) by by apply reliable_loaded. }
  rewrite Hadded. cbn [fst snd status]. split; [done|].
  set (w1 := committed (Nested.withStudent newStudent d) w).
  assert (Hw1 : reliable w1) by by apply reliable_committed.
  assert (Hd1 : storedDocument w1 = Nested.withStudent newStudent d).
  { unfold w1. rewrite storedDocument_committed.
    by rewrite (reliable_nextOutcome (loaded w)) by by apply reliable_loaded. }
  destruct (arraySort_push_sorted byRollNo newStudent (students d) Hsorted)
    as (l1 & l2 & Hsplit & Hpushed).
  assert (Hothers : Forall (λ s, roll_no s ≠ r) (students d)).
  { apply Forall_forall. intros s Hs Heq. apply Hfresh.
    apply list_elem_of_fmap. by exists s. }
  rewrite Hsplit in Hothers. apply Forall_app in Hothers as [Hl1 Hl2].
  assert (Hroster : filter (λ s, roll_no s ≠ r) (students (Nested.withStudent newStudent d))
                    = students d).
  { unfold Nested.withStudent; cbn [students]. rewrite Hpushed, filter_app, filter_cons.
    rewrite decide_False by (cbn; by intros Hne).
    by rewrite !filter_all, Hsplit by done. }
  assert (Hattendance :
    (λ byDate : gmap string (list Entry), filter (otherRoll r) <$> byDate) <$> attendance d
    = attendance d).
  { rewrite <- (map_fmap_id (attendance d)) at 2.
    apply map_fmap_ext. intros subject byDate HbyDate. cbn.
    rewrite <- (map_fmap_id byDate) at 2.
    apply map_fmap_ext. intros date l Hl. cbn.
    apply filter_all, Forall_forall. intros e He.
    apply (Hentries subject date). unfold Nested.bucket. rewrite HbyDate. cbn.
    by rewrite Hl. }
  assert (Hback : Nested.withoutStudent r (Nested.withStudent newStudent d) = d).
  { unfold Nested.withoutStudent. rewrite Hroster.
    cbn [Nested.withStudent attendance]. rewrite Hattendance. by destruct d. }
  rewrite deleteStudent_closed. cbv zeta. rewrite Hd1, Hroster.
  destruct (_ =? _)%nat eqn:Hlen.
  { apply Nat.eqb_eq in Hlen. unfold Nested.withStudent in Hlen; cbn [students] in Hlen.
    rewrite Hpushed, Hsplit, !length_app in Hlen. cbn in Hlen. lia. }
  rewrite (reliable_nextOutcome (loaded w1)) by by apply reliable_loaded.
  cbn [fst snd status]. split; [done|].
  rewrite storedDocument_committed.
  rewrite (reliable_nextOutcome (loaded w1)) by by apply reliable_loaded.
  exact Hback.
Qed.

Lemma X5_add_then_delete_restores_witness :
  storedDocument (Nested.deleteStudent "001" (Nested.postStudent aliceBody oneStudent).2).2
  = storedDocument oneStudent.
Proof.
  apply (X5_add_then_delete_restores aliceBody "001" "Alice" oneStudent).
  - reflexivity.
  - reflexivity.
  - cbn. by intros ?%list_elem_of_singleton.
  - unfold rosterSorted. cbn. repeat constructor.
  - intros subject date e He. unfold Nested.bucket in He.
    cbn [storedDocument oneStudent freshProcess file backfill attendance default] in He.
    unfold id in He. rewrite lookup_empty in He. cbn in He. by apply elem_of_nil in He.
  - constructor.
Defined.

Lemma enrichedAttendance_rolls_sublist roster attendanceList :
  att_roll_no <$> Nested.enrichedAttendance roster attendanceList
  `sublist_of` att_roll_no <$> attendanceList.
Proof.
  unfold Nested.enrichedAttendance.
  induction attendanceList as [|att l IH]; [constructor|].
  cbn [omap list_omap fmap list_fmap].
  destruct (List.find _ roster); cbn [fmap list_fmap].
  - by apply sublist_skip.
  - by apply sublist_cons.
Qed.

Lemma fmap_sublist {A B} (f : A → B) (l1 l2 : list A) :
  l1 `sublist_of` l2 → f <$> l1 `sublist_of` f <$> l2.
Proof. induction 1; cbn; by constructor. Qed.

(** X6.  The printout of [server.js] after a save, the two requests handled
    one after the other.  After a successful [POST] of a valid list for a
    subject and a date, [GET /admin/print] for them answers 200 and lists
    exactly the saved entries marked present, in the order of the list,
    each with the name of the roster student, next to the size of the
    roster; when no roll number occurs twice in the list, the number of
    students printed as present is at most the size of the roster.  This
    holds for every subject, also for one that names a member of
    [Object.prototype], where the printout reads the list back from the
    inherited object. *)
Theorem X6_printout_after_save (subject date : string) (attendanceList : list Entry)
    (p : Nested.Process) :
  dateRegex date = true →
  subject ≠ ""%string →
  forallb Nested.validItem attendanceList = true →
  reliable p.1 →
  let roster := students (storedDocument p.1) in
  let printed := filter isPresent (Nested.enrichedAttendance roster attendanceList) in
  let p' := (Nested.postAttendance subject date (ArrayOf attendanceList) p).2 in
  (Nested.printAttendance subject date p').1
  = mkResponse 200 (Printout [subject; date] printed (length roster))
  ∧ (∀ e, e ∈ printed ↔
       ∃ att s, att ∈ attendanceList
                ∧ List.find (λ s, sameRoll s att) roster = Some s
                ∧ att_status att = Some "present"%string
                ∧ e = withName att (name s))
  ∧ (NoDup (att_roll_no <$> attendanceList) → (length printed ≤ length roster)%nat).
Proof.
  intros Hdate Hsubject Hvalid Hw roster printed p'.
  destruct (postAttendance_then_listed subject date attendanceList p)
    as (_ & _ & Hstudents & Hlisted); try done.
  cbv zeta in Hstudents, Hlisted. fold p' in Hstudents, Hlisted.
  fold roster in Hstudents, Hlisted.
  split; [|split].
  - unfold Nested.printAttendance.
    rewrite Hdate. apply String.eqb_neq in Hsubject. rewrite Hsubject. cbn [negb].
    load_step. cbn [fst]. by rewrite Hstudents, Hlisted.
  - intros e. unfold printed. rewrite list_elem_of_filter, enrichedAttendance_elem_of.
    split.
    + intros [Hpresent (att & s & Hatt & Hfind & ->)]. by exists att, s.
    + intros (att & s & Hatt & Hfind & Hpresent & ->). split; [done|]. by exists att, s.
  - intros Hnodup.
    assert (Hrolls : NoDup (att_roll_no <$> printed)).
    { eapply sublist_NoDup; [exact Hnodup|].
      etrans; [|apply enrichedAttendance_rolls_sublist].
      apply fmap_sublist, sublist_filter. }
    rewrite <- (length_fmap att_roll_no printed).
    rewrite <- (length_fmap (λ s, Some (roll_no s)) roster).
    apply submseteq_length, NoDup_submseteq; [done|].
    intros x (e & -> & He)%list_elem_of_fmap.
    apply list_elem_of_filter in He as [_ He].
    apply enrichedAttendance_elem_of in He as (att & s & _ & Hfind & ->).
    apply find_sameRoll_Some in Hfind as [Hs Hroll].
    apply list_elem_of_fmap. exists s. by split.
Qed.

Lemma X6_printout_after_save_witness :
  (Nested.printAttendance "Physics" "2024-01-01"
     (Nested.postAttendance "Physics" "2024-01-01" (ArrayOf physicsMarks)
        (oneStudent, Nested.pristine)).2).1
  = mkResponse 200
      (Printout ["Physics"; "2024-01-01"]%string [marked "002" "present" "Bob"] 1)
  ∧ (Nested.printAttendance "toString" "2024-01-01"
       (Nested.postAttendance "toString" "2024-01-01" (ArrayOf physicsMarks)
          (oneStudent, Nested.pristine)).2).1
    = mkResponse 200
        (Printout ["toString"; "2024-01-01"]%string [marked "002" "present" "Bob"] 1).
Proof.
  split.
  - destruct (X6_printout_after_save "Physics" "2024-01-01" physicsMarks
                (oneStudent, Nested.pristine)) as [Hprint _].
    + reflexivity.
    + discriminate.
    + reflexivity.
    + constructor.
    + rewrite Hprint. vm_compute. reflexivity.
  - destruct (X6_printout_after_save "toString" "2024-01-01" physicsMarks
                (oneStudent, Nested.pristine)) as [Hprint _].
    + reflexivity.
    + discriminate.
    + reflexivity.
    + constructor.
    + rewrite Hprint. vm_compute. reflexivity.
Defined.

(** ** The first flat variant over whole sessions *)
Section FlatSessionFacts.
Import Flat.
Context `{Collator}.
Implicit Types (w : World Att) (d : Document Att).

Lemma reads_app (t1 t2 : list FsEvent) : reads (t1 ++ t2) = (reads t1 + reads t2)%nat.
Proof. unfold reads. by rewrite filter_app, length_app. Qed.

Lemma reads_write ok : reads [WriteFile ok] = 0%nat.
Proof. by destruct ok. Qed.

Lemma reads_read : reads [ReadFile] = 1%nat.
Proof. done. Qed.

Lemma loadedFrom_mutate w data g w1 : loadedFrom w w1 → loadedFrom w (mutate data g w1).
Proof. done. Qed.

Lemma loadedFrom_saveData w data w1 : loadedFrom w w1 → loadedFrom w (saveData data w1).2.
Proof.
  intros [Hset Hreads]. unfold loadedFrom, saveData, writeFile.
  destruct (nextOutcome (writes w1)); cbn [snd dataCache trace];
    rewrite reads_app, Hreads, reads_write; (split; [eauto|]); lia.
Qed.

Lemma loadedFrom_loadDataCached w : loadedFrom w (loadDataCached w).2.
Proof.
  unfold loadDataCached. destruct (dataCache w) as [data|] eqn:Hcache; cbn [snd].
  - unfold loadedFrom. rewrite Hcache. split; [eauto|lia].
  - unfold readFile.
    assert (Hread : ∀ d, loadedFrom w
              (mkWorld (heap w ++ [d]) (Some (length (heap w))) (file w) (writes w)
                 (trace w ++ [ReadFile]))).
    { intros d. unfold loadedFrom. cbn [dataCache trace].
      rewrite reads_app, Hcache, reads_read. split; [eauto|lia]. }
    destruct (file w); cbn [cacheFresh heap dataCache file writes trace snd];
      try apply Hread.
    match goal with |- context [saveData ?data ?w0] =>
      pose proof (loadedFrom_saveData w data w0 (Hread _)) as Hs;
      destruct (saveData data w0) as [ok w3] end.
    by destruct ok.
Qed.

(** A request is refused before it loads, or it loads. *)
Lemma handle_loads req w :
  (handle req w).2 = w ∨ loadedFrom w (handle req w).2.
Proof.
  pose proof (loadedFrom_loadDataCached w) as Hload.
  destruct req as [|body|r| |date|date body|date]; cbn [handle].
  - right. unfold getStudents. by destruct (loadDataCached w) as [[data|] w1].
  - unfold postStudent.
    destruct (truthy (body_roll_no body)); [|by left].
    destruct (truthy (body_name body)); [|by left].
    right. destruct (loadDataCached w) as [[data|] w1]; [|done]. cbn [snd] in Hload.
    destruct (List.find _ _); [done|].
    match goal with |- context [saveData data (mutate data ?g w1)] =>
      pose proof (loadedFrom_saveData w data _ (loadedFrom_mutate w data g w1 Hload)) as Hs end.
    by destruct (saveData _ _) as [[|] w3].
  - right. unfold deleteStudent.
    destruct (loadDataCached w) as [[data|] w1]; [|done]. cbn [snd] in Hload.
    destruct (_ =? _)%nat; [done|]. rewrite mutate_mutate.
    match goal with |- context [saveData data (mutate data ?g w1)] =>
      pose proof (loadedFrom_saveData w data _ (loadedFrom_mutate w data g w1 Hload)) as Hs end.
    by destruct (saveData _ _) as [[|] w3].
  - right. unfold getAllAttendance. by destruct (loadDataCached w) as [[data|] w1].
  - unfold getAttendance. destruct (negb _); [by left|].
    right. by destruct (loadDataCached w) as [[data|] w1].
  - unfold postAttendance. destruct (negb _); [by left|].
    destruct body as [|attendanceList]; [by left|].
    destruct (negb _); [by left|].
    right. destruct (loadDataCached w) as [[data|] w1]; [|done]. cbn [snd] in Hload.
    match goal with |- context [saveData data (mutate data ?g w1)] =>
      pose proof (loadedFrom_saveData w data _ (loadedFrom_mutate w data g w1 Hload)) as Hs end.
    by destruct (saveData _ _) as [[|] w3].
  - unfold printAttendance. destruct (negb _); [by left|].
    right. by destruct (loadDataCached w) as [[data|] w1].
Qed.

Lemma serve_cached requests w :
  is_Some (dataCache w) →
  is_Some (dataCache (serve handle requests w))
  ∧ reads (trace (serve handle requests w)) = reads (trace w).
Proof.
  revert w. induction requests as [|req requests IH]; intros w Hw; [done|].
  cbn [serve fold_left].
  assert (Hstep : is_Some (dataCache (handle req w).2)
                  ∧ reads (trace (handle req w).2) = reads (trace w)).
  { destruct (handle_loads req w) as [->|[Hset Hreads]]; [done|].
    split; [done|]. destruct Hw as [data Hw]. rewrite Hw in Hreads. lia. }
  destruct Hstep as [Hset Hreads]. destruct (IH _ Hset) as [Hset' Hreads'].
  split; [done|]. by rewrite <- Hreads.
Qed.
End FlatSessionFacts.

(** X7.  The first flat variant reads [data.json] at most once in the life
    of the process, as long as the requests are handled one after the
    other, each answered before the next one starts (two requests that
    both start before the first load has finished would each read the
    file).  Over any such sequence of requests and whatever the writes do,
    at most one [fs.readFile] is added to the file system calls; once
    [dataCache] is set it stays set and no request reads the file again. *)
Theorem X7_cached_variant_reads_once `{Collator} (requests : list Flat.Request)
    (w : World Flat.Att) :
  let w' := serve Flat.handle requests w in
  (reads (trace w') ≤ S (reads (trace w)))%nat
  ∧ (is_Some (dataCache w) →
     is_Some (dataCache w') ∧ reads (trace w') = reads (trace w)).
Proof.
  cbv zeta. split; [|apply serve_cached].
  revert w. induction requests as [|req requests IH]; intros w; [cbn; lia|].
  cbn [serve fold_left].
  destruct (handle_loads req w) as [->|[Hset Hreads]]; [apply IH|].
  destruct (serve_cached requests _ Hset) as [_ Hstay].
  unfold serve in Hstay. rewrite Hstay, Hreads. destruct (dataCache w); lia.
Qed.

Lemma X7_cached_variant_reads_once_witness :
  let w := (Flat.getStudents flatOneStudent).2 in
  reads (trace (serve Flat.handle
                  [Flat.PostStudent aliceBody; Flat.GetAttendance "2024-01-01";
                   Flat.DeleteStudent "002"] w))
  = reads (trace w).
Proof.
  intros w.
  apply (X7_cached_variant_reads_once
           [Flat.PostStudent aliceBody; Flat.GetAttendance "2024-01-01";
            Flat.DeleteStudent "002"] w).
  eexists. reflexivity.
Defined.

(** ** The cache and the file under a reliable disk *)
Section FlatCoherence.
Import Flat.
Context `{Collator}.
Implicit Types (w : World Att) (d : Document Att).

Lemma flat_load w :
  reliable w → cacheValid w →
  ∃ data w1,
    loadDataCached w = (Some data, w1)
    ∧ deref w1 data = currentDocument w
    ∧ currentDocument w1 = currentDocument w
    ∧ storedDocument w1 = storedDocument w
    ∧ reliable w1 ∧ cacheValid w1
    ∧ ∀ g : Document Att → Document Att,
        deref (mutate data g w1) data = g (currentDocument w)
        ∧ currentDocument (mutate data g w1) = g (currentDocument w)
        ∧ storedDocument (mutate data g w1) = storedDocument w
        ∧ reliable (mutate data g w1) ∧ cacheValid (mutate data g w1)
        ∧ ∃ w2, saveData data (mutate data g w1) = (true, w2)
                ∧ currentDocument w2 = g (currentDocument w)
                ∧ storedDocument w2 = g (currentDocument w)
                ∧ reliable w2 ∧ cacheValid w2.
Proof.
  intros Hw Hcache.
  destruct (flat_transaction w Hw Hcache) as (data & w1 & Hload & Hderef & Hedit).
  exists data, w1. split; [done|]. split; [done|].
  assert (Hw1 : dataCache w1 = Some data ∧ storedDocument w1 = storedDocument w
                ∧ reliable w1 ∧ cacheValid w1).
  { destruct (dataCache w) as [data0|] eqn:Hdata.
    - unfold loadDataCached in Hload. rewrite Hdata in Hload.
      injection Hload as <- <-. done.
    - rewrite (loadDataCached_miss w Hdata Hw) in Hload. injection Hload as <- <-.
      split; [done|]. split; [apply storedDocument_loaded|].
      split; [by apply reliable_loaded|].
      intros data' [= <-]. cbn [loaded heap]. rewrite length_app. cbn. lia. }
  destruct Hw1 as (Hdata1 & Hstored1 & Hrel1 & Hvalid1).
  split; [by unfold currentDocument at 1; rewrite Hdata1|].
  split; [done|]. split; [done|]. split; [done|].
  intros g. destruct (Hedit g) as (Hd & Hc & w2 & Hsave & Hc2 & Hf2 & Hr2 & Hv2).
  split; [done|]. split; [done|]. split; [done|]. split; [done|].
  split; [by intros data' Hdata'; cbn [mutate heap]; rewrite length_alter; apply Hvalid1|].
  exists w2. split; [done|]. split; [done|]. split; [|done].
  unfold storedDocument. rewrite Hf2. apply backfill_stringify.
Qed.

Lemma handle_coherent req w :
  reliable w → cacheValid w → currentDocument w = storedDocument w →
  let w' := (handle req w).2 in
  reliable w' ∧ cacheValid w' ∧ currentDocument w' = storedDocument w'.
Proof.
  intros Hw Hcache Hsync. cbv zeta.
  destruct (flat_load w Hw Hcache)
    as (data & w1 & Hload & Hderef & Hcur1 & Hstored1 & Hrel1 & Hvalid1 & Hedit).
  assert (Hloaded : reliable w1 ∧ cacheValid w1 ∧ currentDocument w1 = storedDocument w1).
  { split; [done|]. split; [done|]. congruence. }
  assert (Hsaved : ∀ g response response',
            let result := saveData data (mutate data g w1) in
            reliable (let '(saved, w3) := result in
                      if saved then (response, w3) else (response', w3) : Response Att * _).2
            ∧ cacheValid (let '(saved, w3) := result in
                          if saved then (response, w3) else (response', w3)).2
            ∧ currentDocument (let '(saved, w3) := result in
                               if saved then (response, w3) else (response', w3)).2
              = storedDocument (let '(saved, w3) := result in
                                if saved then (response, w3) else (response', w3)).2).
  { intros g response response'.
    destruct (Hedit g) as (_ & _ & _ & _ & _ & w2 & Hsave & Hc2 & Hs2 & Hr2 & Hv2).
    cbv zeta. rewrite Hsave. cbn [snd]. split; [done|]. split; [done|]. congruence. }
  destruct req as [|body|r| |date|date body|date]; cbn [handle].
  - unfold getStudents. by rewrite Hload.
  - unfold postStudent.
    destruct (truthy (body_roll_no body)); [|done].
    destruct (truthy (body_name body)); [|done].
    rewrite Hload. destruct (List.find _ _); [done|]. apply Hsaved.
  - unfold deleteStudent. rewrite Hload, Hderef.
    match goal with |- context [mutate data ?g w1] => set (g1 := g) end.
    destruct (Hedit g1) as (Hd1 & Hc1 & Hs1 & Hr1 & Hv1 & _).
    rewrite Hd1. cbn [g1 students].
    destruct (_ =? _)%nat eqn:Hlen; cbn [snd].
    + split; [done|]. split; [done|].
      rewrite Hc1, Hs1, <- Hsync. unfold g1.
      apply Nat.eqb_eq, length_filter_eq in Hlen.
      rewrite filter_all by done. by destruct (currentDocument w).
    + rewrite mutate_mutate. apply Hsaved.
  - unfold getAllAttendance. by rewrite Hload.
  - unfold getAttendance. destruct (negb _); [done|]. by rewrite Hload.
  - unfold postAttendance. destruct (negb _); [done|].
    destruct body as [|attendanceList]; [done|].
    destruct (negb _); [done|].
    rewrite Hload. apply Hsaved.
  - unfold printAttendance. destruct (negb _); [done|]. by rewrite Hload.
Qed.
End FlatCoherence.

(** X8.  In the first flat variant, as long as no write fails and the
    requests are handled one after the other, each answered before the next
    one starts, the cache is never ahead of the file.  If the document the
    server answers from is the document of the file, it is so again after
    any such sequence of requests; then [GET /api/students] answers the
    roster of the file and a [GET] of a date answers the bucket of the
    file, as a restarted process would. *)
Theorem X8_cache_agrees_with_file `{Collator} (requests : list Flat.Request)
    (w : World Flat.Att) :
  reliable w → cacheValid w → currentDocument w = storedDocument w →
  let w' := serve Flat.handle requests w in
  currentDocument w' = storedDocument w'
  ∧ (Flat.getStudents w').1 = mkResponse 200 (StudentList (students (storedDocument w')))
  ∧ (∀ date, dateRegex date = true →
       (Flat.getAttendance date w').1
       = mkResponse 200 (EntryList (Flat.bucket (attendance (storedDocument w')) date))).
Proof.
  intros Hw Hcache Hsync w'.
  assert (Hw' : reliable w' ∧ cacheValid w' ∧ currentDocument w' = storedDocument w').
  { subst w'. revert w Hw Hcache Hsync.
    induction requests as [|req requests IH]; intros w Hw Hcache Hsync; [done|].
    cbn [serve fold_left].
    destruct (handle_coherent req w Hw Hcache Hsync) as (Hw1 & Hcache1 & Hsync1).
    by apply IH. }
  destruct Hw' as (Hrel & Hvalid & Hcur). split; [done|]. split.
  - unfold Flat.getStudents.
    destruct (flat_load w' Hrel Hvalid) as (data & w1 & Hload & Hderef & _).
    rewrite Hload. cbn [fst]. by rewrite Hderef, Hcur.
  - intros date Hdate. rewrite getAttendance_flat_response by done.
    by rewrite Hdate, Hcur.
Qed.

Lemma X8_cache_agrees_with_file_witness :
  let w' := serve Flat.handle
              [Flat.PostStudent aliceBody;
               Flat.PostAttendance "2024-01-01" (ArrayOf [mark "001" "present"]);
               Flat.DeleteStudent "002"] flatOneStudent in
  currentDocument w' = storedDocument w'.
Proof.
  intros w'.
  apply (X8_cache_agrees_with_file
           [Flat.PostStudent aliceBody;
            Flat.PostAttendance "2024-01-01" (ArrayOf [mark "001" "present"]);
            Flat.DeleteStudent "002"] flatOneStudent).
  - constructor.
  - intros data Hdata. discriminate Hdata.
  - reflexivity.
Defined.

(** ** The second unnamed source: memory and files *)
Section DataDirFacts.
Import DataDir.
Implicit Types (st : State).

Lemma loadData_students readable st l :
  studentsFile st = Some l → readable.1 = true →
  students (loadData readable st) = l
  ∧ studentsFile (loadData readable st) = Some l.
Proof.
  intros Hfile Hreadable. unfold loadData. rewrite Hfile, Hreadable.
  cbn [withStudents attendanceFile].
  destruct (attendanceFile st); [by destruct readable.2|done].
Qed.

Lemma handle_roster req st :
  rosterOnFile st → studentsReadable req →
  rosterOnFile (handle req st).2
  ∧ (succeeded (handle req st).1 = false → students (handle req st).2 = students st).
Proof.
  unfold rosterOnFile. intros Hst Hreadable.
  destruct req as [body|readable r|date body]; cbn [handle].
  - unfold postStudent.
    destruct (truthy (body_roll_no body)); [|done].
    destruct (truthy (body_name body)); [|done].
    destruct (existsb _ _); [done|].
    unfold saveStudents, nextWrite. cbn [withStudents students writes studentsFile].
    destruct (nextOutcome (writes st)); cbn [fst snd withStudents students studentsFile].
    + done.
    + by rewrite removelast_last.
  - unfold deleteStudent. cbn [withStudents students].
    destruct (_ <? _)%nat eqn:Hlen.
    + unfold saveStudents, nextWrite. cbn [withStudents students writes studentsFile].
      destruct (nextOutcome (writes st)); cbn [fst snd students studentsFile]; [done|].
      match goal with |- context [loadData readable ?st2] =>
        destruct (loadData_students readable st2 (students st)) as [Hmem Hfile] end;
        [done|done|].
      by rewrite Hmem, Hfile.
    + cbn [fst snd withStudents students studentsFile].
      apply Nat.ltb_ge in Hlen. pose proof (length_filter (λ s, roll_no s ≠ r) (students st)).
      assert (Hall : filter (λ s, roll_no s ≠ r) (students st) = students st).
      { apply filter_all. apply (length_filter_eq (λ s, roll_no s ≠ r)). lia. }
      by rewrite Hall.
  - unfold postAttendance. destruct body as [|attendanceList]; [done|].
    destruct (existsb _ _); [done|].
    unfold saveAttendanceData, nextWrite.
    cbn [withAttendance students writes studentsFile attendanceData].
    by destruct (nextOutcome (writes st)).
Qed.
End DataDirFacts.

(** X9.  In the second unnamed source the roster in memory is the roster on
    file.  If [students] holds what [students.json] holds, this is still so
    after any sequence of add, delete and attendance requests, whatever the
    writes do, as long as the reload that a failed deletion triggers can
    read the file; and a request that does not answer 200 or 201 leaves
    [students] as it was: a failed add is popped, a failed deletion is
    reloaded. *)
Theorem X9_roster_matches_its_file (requests : list DataDir.Request) (st : DataDir.State) :
  rosterOnFile st →
  Forall studentsReadable requests →
  rosterOnFile (serve DataDir.handle requests st)
  ∧ (∀ req, studentsReadable req →
       succeeded (DataDir.handle req st).1 = false →
       DataDir.students (DataDir.handle req st).2 = DataDir.students st).
Proof.
  intros Hst Hreadable. split.
  - revert st Hst. induction Hreadable as [|req requests Hreq _ IH]; intros st Hst; [done|].
    cbn [serve fold_left]. apply IH. by apply handle_roster.
  - intros req Hreq. by apply handle_roster.
Qed.

Lemma X9_roster_matches_its_file_witness :
  let st := DataDir.mkState [alice] ∅ (Some [alice]) (Some ∅) [true; false] in
  rosterOnFile
    (serve DataDir.handle
       [DataDir.PostStudent (mkStudentBody (Some "002") (Some "Bob") None);
        DataDir.DeleteStudent (true, true) "001"] st).
Proof.
  intros st.
  apply (X9_roster_matches_its_file
           [DataDir.PostStudent (mkStudentBody (Some "002") (Some "Bob") None);
            DataDir.DeleteStudent (true, true) "001"] st).
  - reflexivity.
  - repeat constructor.
Defined.

(** X10.  A failed attendance save of the second unnamed source forgets the
    day.  The route checks no format of the date.  When the write fails,
    the answer is 500, the file keeps what it held, and the date is deleted
    from [attendanceData]: the object has no records of its own for the
    date, even when records for it had been saved before, and
    [GET /api/attendance/dates] no longer lists the date.  The records of
    the other dates and the roster stay as they were. *)
Theorem X10_failed_attendance_save_forgets_the_day (date : string)
    (attendanceList : list Entry) (st : DataDir.State) :
  existsb DataDir.incomplete attendanceList = false →
  DataDir.nextWrite st = false →
  let result := DataDir.postAttendance date (ArrayOf attendanceList) st in
  result.1 = mkResponse 500 (Message "Failed to save attendance data.")
  ∧ DataDir.attendanceData result.2 !! date = None
  ∧ (∀ date', date' ≠ date →
       DataDir.attendanceData result.2 !! date' = DataDir.attendanceData st !! date')
  ∧ (date ∉ DataDir.getDates result.2)
  ∧ DataDir.attendanceFile result.2 = DataDir.attendanceFile st
  ∧ DataDir.students result.2 = DataDir.students st.
Proof.
  intros Hcomplete Hfail result. subst result.
  destruct st as [l a lf af ws]. unfold DataDir.nextWrite in Hfail.
  cbn [DataDir.writes] in Hfail.
  unfold DataDir.postAttendance. rewrite Hcomplete.
  unfold DataDir.saveAttendanceData, DataDir.nextWrite, DataDir.withAttendance.
  cbn [DataDir.writes DataDir.attendanceData DataDir.attendanceFile DataDir.students
       DataDir.studentsFile].
  rewrite Hfail.
  cbn [fst snd DataDir.writes DataDir.attendanceData DataDir.attendanceFile
       DataDir.students DataDir.studentsFile].
  assert (Hdeleted : delete date (DataDir.assignDay date attendanceList a) = delete date a).
  { unfold DataDir.assignDay. destruct (_ && _); [done|]. apply delete_insert_eq. }
  rewrite Hdeleted.
  split; [done|]. split; [apply lookup_delete_eq|].
  split; [by intros date' Hne; rewrite lookup_delete_ne|].
  split; [|done].
  unfold DataDir.getDates. cbn [DataDir.attendanceData].
  rewrite list_elem_of_In, <- in_rev, <- list_elem_of_In, arraySort_elem_of.
  intros ((date' & entries) & -> & Hin%elem_of_map_to_list)%list_elem_of_fmap.
  cbn in Hin. by rewrite lookup_delete_eq in Hin.
Qed.

Lemma X10_failed_attendance_save_forgets_the_day_witness :
  let st := DataDir.mkState [alice] {[ "2024-01-01"%string := [mark "001" "present"] ]}
              (Some [alice]) (Some {[ "2024-01-01"%string := [mark "001" "present"] ]})
              [false] in
  let result := DataDir.postAttendance "2024-01-01" (ArrayOf [mark "001" "absent"]) st in
  DataDir.attendanceData st !! "2024-01-01"%string = Some [mark "001" "present"]
  ∧ DataDir.getDates st = ["2024-01-01"%string]
  ∧ DataDir.attendanceData result.2 !! "2024-01-01"%string = None
  ∧ DataDir.getDates result.2 = []
  ∧ DataDir.attendanceFile result.2
    = Some {[ "2024-01-01"%string := [mark "001" "present"] ]}.
Proof.
  intros st result.
  destruct (X10_failed_attendance_save_forgets_the_day "2024-01-01"
              [mark "001" "absent"] st) as (_ & Hgone & _ & _ & Hfile & _).
  - reflexivity.
  - reflexivity.
  - split; [reflexivity|]. split; [vm_compute; reflexivity|].
    split; [exact Hgone|]. split; [vm_compute; reflexivity|exact Hfile].
Defined.

(** X11.  [loadData()] of the second unnamed source brings memory and files
    together.  When both files can be read and no write fails, after
    [loadData()] the roster and the attendance object in memory are what the
    two files hold, whatever they held in memory before; a file that
    existed is left as it was; a missing [students.json] is created with
    the built-in roster of 21 students and a missing [attendance.json] with
    the empty object; and a second [loadData()] changes nothing. *)
Theorem X11_loadData_synchronises (st : DataDir.State) :
  diskReliable st →
  let st' := DataDir.loadData (true, true) st in
  rosterOnFile st' ∧ attendanceOnFile st'
  ∧ DataDir.studentsFile st'
    = Some (default DataDir.defaultStudents (DataDir.studentsFile st))
  ∧ DataDir.attendanceFile st' = Some (default ∅ (DataDir.attendanceFile st))
  ∧ length DataDir.defaultStudents = 21%nat
  ∧ DataDir.loadData (true, true) st' = st'.
Proof.
  intros Hst st'. subst st'. unfold diskReliable in Hst.
  destruct st as [l a [lf|] [af|] ws]; cbn in Hst |- *.
  - done.
  - unfold DataDir.saveAttendanceData, DataDir.nextWrite; cbn.
    destruct Hst as [|? ws -> Hws]; cbn; done.
  - unfold DataDir.saveStudents, DataDir.nextWrite; cbn.
    destruct Hst as [|? ws -> Hws]; cbn; done.
  - unfold DataDir.saveStudents, DataDir.saveAttendanceData, DataDir.nextWrite; cbn.
    destruct Hst as [|? ws -> Hws]; cbn; [done|].
    destruct Hws as [|? ws -> Hws]; cbn; done.
Qed.

Lemma X11_loadData_synchronises_witness :
  rosterOnFile (DataDir.loadData (true, true) emptyState)
  ∧ DataDir.students (DataDir.loadData (true, true) emptyState) = DataDir.defaultStudents.
Proof.
  destruct (X11_loadData_synchronises emptyState) as (Hroster & _).
  - constructor.
  - split; [exact Hroster|reflexivity].
Defined.

(** ** The dates of the second unnamed source *)
Lemma StronglySorted_rev {A} (R : A → A → Prop) (l : list A) :
  StronglySorted R l → StronglySorted (flip R) (rev l).
Proof.
  induction 1 as [|x l Hl IH Hx]; [constructor|].
  cbn [rev]. apply StronglySorted_app. split; [|split; [done|repeat constructor]].
  intros x1 x2 Hx1 ->%list_elem_of_singleton. rewrite Forall_forall in Hx.
  apply Hx. by apply list_elem_of_In, in_rev, list_elem_of_In.
Qed.

Lemma digitValue_compare (c1 c2 : ascii) :
  Ascii.compare c1 c2 = (digitValue c1 ?= digitValue c2).
Proof.
  unfold Ascii.compare, digitValue, nat_of_ascii. rewrite !N_nat_Z, <- N2Z.inj_compare.
  destruct (Z.compare_spec (Z.of_N (N_of_ascii c1)) (Z.of_N (N_of_ascii c2)));
    symmetry; [apply Z.compare_eq_iff|apply Z.compare_lt_iff|apply Z.compare_gt_iff]; lia.
Qed.

Lemma isDigit_digitValue (c : ascii) : isDigit c = true → 0 ≤ digitValue c ≤ 9.
Proof.
  unfold isDigit, digitValue. intros [H1 H2]%andb_prop.
  apply Nat.leb_le in H1, H2. lia.
Qed.

(** On well-formed dates the order of the code units is the order of the
    days. *)
Lemma date_order (x y : string) :
  dateRegex x = true → dateRegex y = true →
  String.compare x y = Gt → calendarDay y < calendarDay x.
Proof.
  intros (a1 & a2 & a3 & a4 & a5 & a6 & a7 & a8 & Hx & ->)%dateRegex_shape.
  intros (b1 & b2 & b3 & b4 & b5 & b6 & b7 & b8 & Hy & ->)%dateRegex_shape.
  cbn [forallb] in Hx, Hy.
  repeat match goal with
         | H : _ && _ = true |- _ => apply andb_prop in H as [?%isDigit_digitValue H]
         end.
  unfold calendarDay, numericValue.
  cbn [string_of_list_ascii substring list_ascii_of_string fold_left String.compare].
  rewrite !digitValue_compare.
  change (Ascii.compare "-" "-") with Eq. cbv iota.
  repeat match goal with
         | |- context [digitValue ?a ?= digitValue ?b] =>
             destruct (Z.compare_spec (digitValue a) (digitValue b))
         end; intros Hgt; try discriminate Hgt; lia.
Qed.

Section DatesFacts.
Import DataDir.

Lemma sortedDates_strict (a : Att) :
  StronglySorted (λ x y, String.compare x y = Lt) (sortedDates a).
Proof.
  unfold sortedDates.
  assert (Hsorted : StronglySorted (inOrder String.compare)
                      (arraySort String.compare (map_to_list a).*1)).
  { apply arraySort_sorted.
    - apply (localeCompare_total (H := codeUnitCollator)).
    - apply (localeCompare_trans (Collator := codeUnitCollator)). }
  assert (Hnodup : NoDup (arraySort String.compare (map_to_list a).*1)).
  { rewrite arraySort_perm. apply NoDup_fst_map_to_list. }
  induction Hsorted as [|x l Hl IH Hx]; [constructor|].
  apply NoDup_cons in Hnodup as [Hfresh Hnodup].
  constructor; [by apply IH|].
  apply Forall_forall. intros y Hy. rewrite Forall_forall in Hx.
  specialize (Hx y Hy). unfold inOrder in Hx.
  destruct (String.compare x y) eqn:Hxy; [|done|done].
  apply String.compare_eq_iff in Hxy as ->. done.
Qed.
End DatesFacts.

(** The metrics are computed whatever the roster and the records hold. *)
Lemma countDays_total (a : DataDir.Att) (dates : list string) (c : DataDir.Counters) :
  ∃ c', DataDir.countDays a c dates = Some c'.
Proof.
  revert c. induction dates as [|date dates IH]; intros c; cbn [DataDir.countDays].
  - by exists c.
  - unfold DataDir.countDay. rewrite percentage_percent. cbn [mbind option_bind].
    apply IH.
Qed.

Lemma calculateMetrics_total (roster : list Student) (a : DataDir.Att) :
  ∃ m, DataDir.calculateMetrics roster a = Some m
       ∧ DataDir.totalClasses m = length (map_to_list a).*1.
Proof.
  unfold DataDir.calculateMetrics.
  destruct (countDays_total a (DataDir.sortedDates a)
              (DataDir.mkCounters (DataDir.initialMetrics roster) 0 0 0 0 []))
    as (c & ->).
  cbn [mbind option_bind]. rewrite percentage_percent. cbn [mbind option_bind].
  by eexists.
Qed.

(** X12.  [GET /api/attendance/dates] of the second unnamed source lists
    every recorded date once, in strictly descending order of code units;
    among dates of the form YYYY-MM-DD this is newest first.  Their number
    is the [totalClasses] that [GET /api/metrics] reports. *)
Theorem X12_dates_newest_first (st : DataDir.State) :
  let dates := DataDir.getDates st in
  (∀ date, date ∈ dates ↔ is_Some (DataDir.attendanceData st !! date))
  ∧ NoDup dates
  ∧ StronglySorted (λ x y, String.compare x y = Gt) dates
  ∧ StronglySorted
      (λ x y, dateRegex x = true → dateRegex y = true → calendarDay y < calendarDay x)
      dates
  ∧ (∃ report, DataDir.getMetrics st = Some report
               ∧ DataDir.report_totalClasses report = length dates).
Proof.
  intros dates.
  assert (Hdates : dates = rev (DataDir.sortedDates (DataDir.attendanceData st))) by done.
  pose proof (sortedDates_strict (DataDir.attendanceData st)) as Hstrict.
  assert (Hdesc : StronglySorted (λ x y, String.compare x y = Gt) dates).
  { rewrite Hdates. apply StronglySorted_rev in Hstrict.
    eapply Sorted.StronglySorted_ind with (P := StronglySorted _); [| |exact Hstrict].
    - constructor.
    - intros x l _ Hl Hx. constructor; [done|].
      eapply Forall_impl; [exact Hx|]. intros y Hyx. unfold flip in Hyx.
      by rewrite String.compare_antisym, Hyx. }
  split; [|split; [|split; [done|split]]].
  - intros date. rewrite Hdates, <- sortedDates_elem_of.
    rewrite !list_elem_of_In. symmetry. apply in_rev.
  - rewrite Hdates. apply NoDup_ListNoDup, NoDup_rev, NoDup_ListNoDup.
    unfold DataDir.sortedDates. rewrite arraySort_perm. apply NoDup_fst_map_to_list.
  - eapply Sorted.StronglySorted_ind with (P := StronglySorted _); [| |exact Hdesc].
    + constructor.
    + intros x l _ Hl Hx. constructor; [done|].
      eapply Forall_impl; [exact Hx|]. intros y Hxy Hdx Hdy. by apply date_order.
  - destruct (calculateMetrics_total (DataDir.students st) (DataDir.attendanceData st))
      as (m & Hm & Htotal).
    unfold DataDir.getMetrics. rewrite Hm. cbn [mbind option_bind].
    eexists. split; [done|]. cbn [DataDir.report_totalClasses].
    rewrite Htotal, Hdates, length_rev. unfold DataDir.sortedDates.
    by rewrite (Permutation_length (arraySort_perm String.compare _)).
Qed.

Lemma X12_dates_newest_first_witness :
  "2024-01-05"%string ∈ DataDir.getDates tenDays
  ∧ NoDup (DataDir.getDates tenDays).
Proof.
  destruct (X12_dates_newest_first tenDays) as (Hdates & Hnodup & _).
  split; [|exact Hnodup]. apply Hdates. vm_compute. eexists. reflexivity.
Defined.

(** ** Entries of students who left the roster *)
Section LeftoverFacts.
Import DataDir.

Lemma countEntry_keys (c : Counters) (entry : Entry) :
  (studentMetrics (countEntry c entry)).*1 = (studentMetrics c).*1.
Proof.
  unfold countEntry.
  destruct (getProp (propertyKey _) (studentMetrics c)) as [m|] eqn:Hget.
  - cbn [studentMetrics]. apply setProp_keys_existing.
    apply getProp_is_Some. by rewrite Hget.
  - by destruct (inheritedTruthy _ _).
Qed.

Lemma fold_countEntry_keys (l : list Entry) (c : Counters) :
  (studentMetrics (fold_left countEntry l c)).*1 = (studentMetrics c).*1.
Proof.
  revert c. induction l as [|entry l IH]; intros c; [done|].
  cbn [fold_left]. by rewrite IH, countEntry_keys.
Qed.

Lemma fold_countEntry_filter (r : string) (l : list Entry) (c : Counters) :
  r ∉ (studentMetrics c).*1 →
  "__proto__"%string ∉ (studentMetrics c).*1 →
  inheritedName r = false →
  fold_left countEntry (filter (otherRoll r) l) c = fold_left countEntry l c.
Proof.
  intros Hr Hproto Hplain. revert c Hr Hproto.
  induction l as [|entry l IH]; intros c Hr Hproto; [done|].
  rewrite filter_cons. destruct (decide (otherRoll r entry)) as [Hother|Hsame].
  - cbn [fold_left]. apply IH; by rewrite countEntry_keys.
  - cbn [fold_left]. rewrite IH by done.
    assert (Hroll : att_roll_no entry = Some r).
    { unfold otherRoll in Hsame. by destruct (decide (att_roll_no entry = Some r)). }
    assert (Hskip : countEntry c entry = c).
    { unfold countEntry. rewrite Hroll. change (propertyKey (Some r)) with r.
      rewrite (proj2 (getProp_None r (studentMetrics c)) Hr).
      unfold inheritedTruthy.
      by rewrite (proj2 (getProp_None "__proto__" (studentMetrics c)) Hproto), Hplain. }
    by rewrite Hskip.
Qed.

Lemma countDay_filter (r : string) (a : Att) (c : Counters) (date : string) :
  r ∉ (studentMetrics c).*1 →
  "__proto__"%string ∉ (studentMetrics c).*1 →
  inheritedName r = false →
  countDay (filter (otherRoll r) <$> a) c date = countDay a c date.
Proof.
  intros Hr Hproto Hplain. unfold countDay. rewrite lookup_fmap.
  assert (Hlist : default [] (filter (otherRoll r) <$> a !! date)
                  = filter (otherRoll r) (default [] (a !! date))).
  { by destruct (a !! date). }
  rewrite Hlist. by rewrite fold_countEntry_filter.
Qed.

Lemma countDay_keys (a : Att) (c c' : Counters) (date : string) :
  countDay a c date = Some c' → (studentMetrics c').*1 = (studentMetrics c).*1.
Proof.
  unfold countDay. rewrite percentage_percent. cbn [mbind option_bind].
  intros [= <-]. cbn [studentMetrics]. by rewrite fold_countEntry_keys.
Qed.

Lemma countDays_filter (r : string) (a : Att) (dates : list string) (c : Counters) :
  r ∉ (studentMetrics c).*1 →
  "__proto__"%string ∉ (studentMetrics c).*1 →
  inheritedName r = false →
  countDays (filter (otherRoll r) <$> a) c dates = countDays a c dates.
Proof.
  intros Hr Hproto Hplain. revert c Hr Hproto.
  induction dates as [|date dates IH]; intros c Hr Hproto; [done|].
  cbn [countDays]. rewrite countDay_filter by done.
  destruct (countDay a c date) as [c'|] eqn:Hday; [|done]. cbn.
  apply IH; by rewrite (countDay_keys a c c' date).
Qed.

Lemma dates_fmap {B} (f : list Entry → B) (a : Att) :
  (map_to_list (f <$> a)).*1 = (map_to_list a).*1.
Proof.
  rewrite map_to_list_fmap, <- list_fmap_compose.
  apply list_fmap_ext. by intros i [k l] _.
Qed.

(** Entries whose roll number no roster student has, and that names nothing
    the table inherits, make no difference. *)
Lemma calculateMetrics_filter (r : string) (roster : list Student) (a : Att) :
  r ∉ roll_no <$> roster →
  Forall (λ s, roll_no s ≠ "__proto__"%string) roster →
  inheritedName r = false →
  calculateMetrics roster (filter (otherRoll r) <$> a) = calculateMetrics roster a.
Proof.
  intros Hr Hroster Hplain. unfold calculateMetrics, sortedDates. rewrite dates_fmap.
  rewrite countDays_filter; [done| | |done]; cbn [studentMetrics];
    rewrite initialMetrics_keys; [done|].
  intros (s & Hs & Hin)%list_elem_of_fmap. rewrite Forall_forall in Hroster.
  by apply (Hroster s Hin).
Qed.
End LeftoverFacts.

(** X13.  A deletion in the second unnamed source leaves the attendance
    records alone, and the records of the deleted student stop counting
    when the roll number names nothing that the table of the metrics
    inherits.  After [DELETE /api/students/:roll_no] has answered 200,
    [attendanceData] is what it was and no student has the roll number.
    When the roll number is not the name of a member of [Object.prototype]
    and no student has the roll number ["__proto__"], the metrics, the
    per-student table and the rankings are those of the attendance object
    with every entry of that roll number removed. *)
Theorem X13_deleted_students_stop_counting `{Collator} (readable : bool * bool)
    (r : string) (st : DataDir.State) :
  let result := DataDir.deleteStudent readable r st in
  let st' := result.2 in
  let cleaned :=
    DataDir.withAttendance
      (filter (λ entry, att_roll_no entry ≠ Some r) <$> DataDir.attendanceData st') st' in
  status result.1 = 200%nat →
  DataDir.attendanceData st' = DataDir.attendanceData st
  ∧ DataDir.students st' = filter (λ s, roll_no s ≠ r) (DataDir.students st)
  ∧ (inheritedName r = false →
     Forall (λ s, roll_no s ≠ "__proto__"%string) (DataDir.students st) →
     DataDir.getMetrics st' = DataDir.getMetrics cleaned
     ∧ DataDir.getStudentMetrics st' = DataDir.getStudentMetrics cleaned
     ∧ DataDir.getRankings st' = DataDir.getRankings cleaned).
Proof.
  intros result st' cleaned Hok.
  assert (Hst' : DataDir.attendanceData st' = DataDir.attendanceData st
                 ∧ DataDir.students st' = filter (λ s, roll_no s ≠ r) (DataDir.students st)).
  { subst st' result. revert Hok. unfold DataDir.deleteStudent.
    destruct (_ <? _)%nat; [|done].
    unfold DataDir.saveStudents, DataDir.nextWrite.
    cbn [DataDir.withStudents DataDir.students DataDir.writes].
    by destruct (nextOutcome (DataDir.writes st)). }
  destruct Hst' as [Hattendance Hroster]. split; [done|]. split; [done|].
  intros Hplain Hstudents.
  assert (Hmetrics :
    DataDir.calculateMetrics (DataDir.students cleaned) (DataDir.attendanceData cleaned)
    = DataDir.calculateMetrics (DataDir.students st') (DataDir.attendanceData st')).
  { unfold cleaned. cbn [DataDir.withAttendance DataDir.students DataDir.attendanceData].
    apply (calculateMetrics_filter r);
      [|rewrite Hroster; apply Forall_forall; intros s [_ Hs]%list_elem_of_filter;
        rewrite Forall_forall in Hstudents; by apply Hstudents|done].
    rewrite Hroster.
    intros (s & Hs & Hin)%list_elem_of_fmap.
    apply list_elem_of_filter in Hin as [Hne _]. by apply Hne. }
  unfold DataDir.getMetrics, DataDir.getStudentMetrics, DataDir.getRankings,
    DataDir.sortedSummary.
  by rewrite Hmetrics.
Qed.

Lemma X13_deleted_students_stop_counting_witness :
  let result := DataDir.deleteStudent (true, true) "002" endToEnd in
  result.1 = mkResponse 200 (Message "Student 002 deleted")
  ∧ DataDir.attendanceData result.2
    = {[ "2024-01-01"%string := [mark "001" "present"; mark "002" "absent"] ]}
  ∧ DataDir.students result.2 = [mkStudent "001" "Alice" None]
  ∧ DataDir.report_avgAttendance <$> DataDir.getMetrics result.2 = Some "100.0%"%string
  ∧ DataDir.report_avgAttendance <$> DataDir.getMetrics endToEnd = Some "50.0%"%string
  ∧ DataDir.getMetrics result.2
    = DataDir.getMetrics
        (DataDir.withAttendance {[ "2024-01-01"%string := [mark "001" "present"] ]}
           result.2).
Proof.
  intros result.
  destruct (X13_deleted_students_stop_counting (H := latinCollator) (true, true) "002"
              endToEnd) as (Hattendance & Hroster & Hcounting).
  - reflexivity.
  - destruct Hcounting as (Hmetrics & _).
    + reflexivity.
    + apply Forall_forall. intros s Hs. vm_compute in Hs.
      apply elem_of_cons in Hs as [->|Hs]; [discriminate|].
      apply list_elem_of_singleton in Hs as ->. discriminate.
    + split; [vm_compute; reflexivity|]. split; [vm_compute; reflexivity|].
      split; [vm_compute; reflexivity|]. split; [vm_compute; reflexivity|].
      split; [vm_compute; reflexivity|].
      fold result in Hmetrics. rewrite Hmetrics. vm_compute. reflexivity.
Defined.

(** ** The table of the students *)
Section StudentTableFacts.
Import DataDir.
Implicit Types (c : Counters) (table : list (string * StudentMetric)) (k : string).

Lemma entriesOf_cons k entry l : entriesOf k (entry :: l) = entriesOf k [entry] ++ entriesOf k l.
Proof. unfold entriesOf. by rewrite <- filter_app. Qed.

Lemma marked_cons (s : string) k entry l :
  Z.of_nat (length (filter (λ e, att_status e = Some s) (entriesOf k (entry :: l))))
  = Z.of_nat (length (filter (λ e, att_status e = Some s) (entriesOf k [entry])))
    + Z.of_nat (length (filter (λ e, att_status e = Some s) (entriesOf k l))).
Proof. rewrite entriesOf_cons, filter_app, length_app. lia. Qed.

Lemma records_cons k entry l :
  Z.of_nat (length (entriesOf k (entry :: l)))
  = Z.of_nat (length (entriesOf k [entry])) + Z.of_nat (length (entriesOf k l)).
Proof. rewrite entriesOf_cons, length_app. lia. Qed.

(** What one entry adds to the line of a roll number. *)
Lemma countEntry_line c entry k m :
  getProp k (studentMetrics c) = Some m →
  ∃ m', getProp k (studentMetrics (countEntry c entry)) = Some m'
        ∧ metric_name m' = metric_name m
        ∧ present m' = present m
            + Z.of_nat (length (filter (λ e, att_status e = Some "present"%string)
                                       (entriesOf k [entry])))
        ∧ absent m' = absent m
            + Z.of_nat (length (filter (λ e, att_status e = Some "absent"%string)
                                       (entriesOf k [entry])))
        ∧ total m' = total m + Z.of_nat (length (entriesOf k [entry])).
Proof.
  intros Hget. unfold countEntry, entriesOf. rewrite filter_cons, filter_nil.
  set (key := propertyKey (att_roll_no entry)).
  destruct (decide (key = k)) as [Hkey|Hkey].
  - rewrite Hkey, Hget. cbn [studentMetrics]. rewrite getProp_setProp_eq.
    eexists. split; [done|]. cbn [metric_name present absent total].
    rewrite !filter_cons, !filter_nil. unfold hasStatus.
    repeat case_bool_decide; repeat case_decide; try congruence;
      cbn [negb andb length]; repeat split; lia.
  - exists m. rewrite !filter_nil. cbn [length].
    split; [|repeat split; lia].
    destruct (getProp key (studentMetrics c)) as [m0|];
      [|by destruct (inheritedTruthy _ _)].
    cbn [studentMetrics]. by rewrite getProp_setProp_ne.
Qed.

Lemma countEntries_line (l : list Entry) c k m :
  getProp k (studentMetrics c) = Some m →
  ∃ m', getProp k (studentMetrics (fold_left countEntry l c)) = Some m'
        ∧ metric_name m' = metric_name m
        ∧ present m' = present m
            + Z.of_nat (length (filter (λ e, att_status e = Some "present"%string)
                                       (entriesOf k l)))
        ∧ absent m' = absent m
            + Z.of_nat (length (filter (λ e, att_status e = Some "absent"%string)
                                       (entriesOf k l)))
        ∧ total m' = total m + Z.of_nat (length (entriesOf k l)).
Proof.
  revert c m. induction l as [|entry l IH]; intros c m Hget.
  - exists m. cbn. split; [done|]. repeat split; lia.
  - cbn [fold_left].
    destruct (countEntry_line c entry k m Hget) as (m1 & Hget1 & Hn1 & Hp1 & Ha1 & Ht1).
    destruct (IH _ m1 Hget1) as (m2 & Hget2 & Hn2 & Hp2 & Ha2 & Ht2).
    exists m2. split; [done|].
    rewrite (marked_cons "present" k entry l), (marked_cons "absent" k entry l),
      (records_cons k entry l).
    repeat split; [congruence|lia..].
Qed.

Lemma countDays_line (a : Att) (dates : list string) c k m :
  getProp k (studentMetrics c) = Some m →
  ∃ c' m', countDays a c dates = Some c'
        ∧ getProp k (studentMetrics c') = Some m'
        ∧ metric_name m' = metric_name m
        ∧ present m' = present m
            + foldr (λ date acc,
                Z.of_nat (length (filter (λ e, att_status e = Some "present"%string)
                                         (entriesOf k (default [] (a !! date))))) + acc)
                0 dates
        ∧ absent m' = absent m
            + foldr (λ date acc,
                Z.of_nat (length (filter (λ e, att_status e = Some "absent"%string)
                                         (entriesOf k (default [] (a !! date))))) + acc)
                0 dates
        ∧ total m' = total m
            + foldr (λ date acc,
                Z.of_nat (length (entriesOf k (default [] (a !! date)))) + acc) 0 dates.
Proof.
  revert c m. induction dates as [|date dates IH]; intros c m Hget.
  - exists c, m. cbn. split; [done|]. split; [done|]. repeat split; lia.
  - cbn [countDays]. unfold countDay. rewrite percentage_percent. cbn [mbind option_bind].
    set (c0 := mkCounters _ 0 0 _ _ _).
    destruct (countEntries_line (default [] (a !! date)) c0 k m Hget)
      as (m1 & Hget1 & Hn1 & Hp1 & Ha1 & Ht1).
    set (c1 := mkCounters _ _ _ _ _ _).
    destruct (IH c1 m1 Hget1) as (c' & m2 & Hc' & Hget2 & Hn2 & Hp2 & Ha2 & Ht2).
    exists c', m2. split; [done|]. split; [done|]. cbn [foldr].
    repeat split; [congruence|lia..].
Qed.

Lemma setProp_Forall {V} (P : string * V → Prop) k (v : V) (props : list (string * V)) :
  Forall P props → P (k, v) → Forall P (setProp k v props).
Proof.
  intros Hprops Hv. induction Hprops as [|[k' v'] props Hkv Hprops IH]; cbn.
  - by repeat constructor.
  - destruct (String.eqb_spec k' k) as [->|Hne]; by constructor.
Qed.

(** The table before any day is counted. *)
Lemma initialMetrics_lines (roster : list Student) k m :
  getProp k (initialMetrics roster) = Some m →
  present m = 0 ∧ absent m = 0 ∧ total m = 0
  ∧ ∃ s, s ∈ roster ∧ roll_no s = k ∧ metric_name m = name s.
Proof.
  intros Hget%getProp_elem_of. revert Hget. unfold initialMetrics.
  assert (Hgen : ∀ rest table,
    (∀ s, s ∈ rest → s ∈ roster) →
    Forall (λ kv, present kv.2 = 0 ∧ absent kv.2 = 0 ∧ total kv.2 = 0
                  ∧ ∃ s, s ∈ roster ∧ roll_no s = kv.1 ∧ metric_name kv.2 = name s) table →
    Forall (λ kv, present kv.2 = 0 ∧ absent kv.2 = 0 ∧ total kv.2 = 0
                  ∧ ∃ s, s ∈ roster ∧ roll_no s = kv.1 ∧ metric_name kv.2 = name s)
      (fold_left (λ table s, setProp (roll_no s) (mkStudentMetric (name s) 0 0 0) table)
         rest table)).
  { induction rest as [|s rest IH]; intros table Hrest Htable; [done|].
    cbn [fold_left]. apply IH; [by intros s' Hs'; apply Hrest; right|].
    apply setProp_Forall; [done|]. cbn. repeat split; try done.
    exists s. split; [apply Hrest; left|done]. }
  intros Hin. specialize (Hgen roster [] (λ s Hs, Hs) (Forall_nil_2 _)).
  rewrite Forall_forall in Hgen. apply (Hgen _ Hin).
Qed.

Lemma initialMetrics_NoDup (roster : list Student) : NoDup (initialMetrics roster).*1.
Proof.
  unfold initialMetrics.
  assert (Hgen : ∀ table : list (string * StudentMetric), NoDup table.*1 →
    NoDup (fold_left (λ table s, setProp (roll_no s) (mkStudentMetric (name s) 0 0 0) table)
             roster table).*1).
  { induction roster as [|s roster IH]; intros table Htable; [done|].
    cbn [fold_left]. by apply IH, setProp_NoDup. }
  apply Hgen. constructor.
Qed.

Lemma countDays_keys (a : Att) (dates : list string) c c' :
  countDays a c dates = Some c' → (studentMetrics c').*1 = (studentMetrics c).*1.
Proof.
  revert c. induction dates as [|date dates IH]; intros c; cbn [countDays].
  - by intros [= <-].
  - destruct (countDay a c date) as [c1|] eqn:Hday; [|done]. cbn [mbind option_bind].
    intros Hrest. rewrite (IH _ Hrest). by apply (countDay_keys a c c1 date).
Qed.

(** The keys of the table are those the roster gave it. *)
Lemma calculateMetrics_keys (roster : list Student) (a : Att) metrics :
  calculateMetrics roster a = Some metrics →
  (metricsOfStudents metrics).*1 = (initialMetrics roster).*1.
Proof.
  unfold calculateMetrics.
  destruct (countDays a _ _) as [c|] eqn:Hc; [|done]. cbn [mbind option_bind].
  rewrite percentage_percent. cbn [mbind option_bind]. intros [= <-].
  cbn [metricsOfStudents]. by rewrite (countDays_keys _ _ _ _ Hc).
Qed.

(** The properties the table owns: every key but ["__proto__"]. *)
Lemma ownProperties_keys table :
  (ownProperties table).*1 = filter (λ k, k ≠ "__proto__"%string) table.*1.
Proof.
  unfold ownProperties. induction table as [|[k m] table IH]; [done|].
  rewrite filter_cons. cbn [fmap list_fmap fst]. rewrite filter_cons.
  destruct (decide (k ≠ "__proto__"%string)); cbn; by rewrite IH.
Qed.

(** The line of a roll number once every day is counted. *)
Lemma calculateMetrics_lines (roster : list Student) (a : Att) metrics k m :
  calculateMetrics roster a = Some metrics →
  (k, m) ∈ metricsOfStudents metrics →
  present m = timesMarked "present" k a
  ∧ absent m = timesMarked "absent" k a
  ∧ total m = recordsOf k a
  ∧ ∃ s, s ∈ roster ∧ roll_no s = k ∧ metric_name m = name s.
Proof.
  intros Hmetrics Hin.
  pose proof (calculateMetrics_keys roster a metrics Hmetrics) as Hkeys.
  assert (Hkey : k ∈ (initialMetrics roster).*1).
  { rewrite <- Hkeys. apply list_elem_of_fmap. by exists (k, m). }
  apply getProp_is_Some in Hkey as [m0 Hm0].
  destruct (initialMetrics_lines roster k m0 Hm0) as (Hp0 & Ha0 & Ht0 & s & Hs & Hroll & Hname).
  set (c0 := mkCounters (initialMetrics roster) 0 0 0 0 []).
  destruct (countDays_line a (sortedDates a) c0 k m0 Hm0)
    as (c & m1 & Hc & Hget & Hn1 & Hp1 & Ha1 & Ht1).
  unfold calculateMetrics in Hmetrics. fold c0 in Hmetrics. rewrite Hc in Hmetrics.
  cbn [mbind option_bind] in Hmetrics. rewrite percentage_percent in Hmetrics.
  cbn [mbind option_bind] in Hmetrics. injection Hmetrics as <-.
  cbn [metricsOfStudents] in *.
  assert (Hget' : getProp k (studentMetrics c) = Some m).
  { apply elem_of_getProp; [|done]. rewrite Hkeys. apply initialMetrics_NoDup. }
  rewrite Hget in Hget'. injection Hget' as ->.
  rewrite Hp1, Ha1, Ht1, Hp0, Ha0, Ht0, !Z.add_0_l.
  unfold timesMarked, recordsOf.
  rewrite <- !sum_sortedDates.
  split; [done|]. split; [done|]. split; [done|]. exists s. by rewrite Hn1.
Qed.

Lemma getStudentMetrics_rows st metrics :
  calculateMetrics (students st) (attendanceData st) = Some metrics →
  getStudentMetrics st
  = Some ((λ kv : string * StudentMetric,
             mkStudentRow kv.1 (metric_name kv.2) (present kv.2) (absent kv.2)
               (toFixed1 (percent (present kv.2) (total kv.2))))
          <$> ownKeyOrder (ownProperties (metricsOfStudents metrics))).
Proof.
  intros Hmetrics. unfold getStudentMetrics. rewrite Hmetrics. cbn [mbind option_bind].
  induction (ownKeyOrder (ownProperties (metricsOfStudents metrics))) as [|[k m] l IH];
    [done|].
  cbn [mapM fmap list_fmap]. rewrite percentage_percent. cbn [mbind option_bind].
  by rewrite IH.
Qed.

Lemma marked_disjoint (l : list Entry) :
  Z.of_nat (length (filter (λ e, att_status e = Some "present"%string) l))
  + Z.of_nat (length (filter (λ e, att_status e = Some "absent"%string) l))
  ≤ Z.of_nat (length l).
Proof.
  induction l as [|e l IH]; [done|]. rewrite !filter_cons.
  destruct (decide (att_status e = Some "present"%string)) as [Hp|Hp].
  - rewrite decide_False by (rewrite Hp; discriminate). cbn [length]. lia.
  - destruct (decide _); cbn [length]; lia.
Qed.

Lemma sumOverDays_le (f g : list Entry → Z) (a : Att) :
  (∀ l, f l ≤ g l) → sumOverDays f a ≤ sumOverDays g a.
Proof.
  intros Hle. unfold sumOverDays.
  induction (map_to_list a) as [|day days IH]; [done|]. cbn. specialize (Hle day.2). lia.
Qed.

Lemma sumOverDays_add (f g : list Entry → Z) (a : Att) :
  sumOverDays f a + sumOverDays g a = sumOverDays (λ l, f l + g l) a.
Proof.
  unfold sumOverDays. induction (map_to_list a) as [|day days IH]; [done|]. cbn. lia.
Qed.

Lemma ownKeyOrder_indices {V} (props : list (string * V)) :
  Forall (λ kv, isArrayIndex kv.1 = true) props →
  StronglySorted (λ x y, numericValue x ≤ numericValue y) (ownKeyOrder props).*1.
Proof.
  intros Hprops. unfold ownKeyOrder.
  assert (Hrest : filter (λ p : string * V, isArrayIndex p.1 ≠ true) props = []).
  { induction Hprops as [|kv props Hkv _ IH]; [done|].
    rewrite filter_cons. by rewrite decide_False by (by intros ?). }
  rewrite Hrest, app_nil_r.
  eapply (StronglySorted_fmap fst); [|apply arraySort_sorted].
  - intros x y Hxy. unfold inOrder in Hxy. by apply Z.compare_le_iff.
  - intros x y Hgt Hgt'. apply Z.compare_gt_iff in Hgt, Hgt'. lia.
  - intros x y z Hxy Hyz. cbn beta in Hxy, Hyz |- *.
    rewrite Z.compare_le_iff in Hxy, Hyz |- *. lia.
Qed.
End StudentTableFacts.

(** X14.  [GET /api/metrics/students] of the second unnamed source always
    answers, with one row per roll number of the roster other than
    ["__proto__"] (the record of a student with that roll number becomes
    the prototype of the table and is no property of it).  A row's
    [present] and [absent] are the numbers of entries, over all recorded
    days, that carry the roll number and are marked ["present"] or
    ["absent"]; together they are at most the number of the student's
    entries, and [attendance_percent] is [present] over that number of
    entries, times 100, both operations in the arithmetic of doubles, to
    one decimal, or ["0.0"] when the student has no entry: days on which
    the student has no entry do not lower it.  The name is that of a roster
    student with the roll number.  When every roll number is a canonical
    array index, as the built-in ones are, the rows come in ascending
    numeric order of the roll number, whatever the order of the roster. *)
Theorem X14_student_metrics_rows (st : DataDir.State) :
  let a := DataDir.attendanceData st in
  let roster := DataDir.students st in
  ∃ rows,
    DataDir.getStudentMetrics st = Some rows
    ∧ NoDup (DataDir.row_roll_no <$> rows)
    ∧ (∀ r, r ∈ DataDir.row_roll_no <$> rows
            ↔ r ∈ roll_no <$> roster ∧ r ≠ "__proto__"%string)
    ∧ (∀ row, row ∈ rows →
         let r := DataDir.row_roll_no row in
         DataDir.row_present row = timesMarked "present" r a
         ∧ DataDir.row_absent row = timesMarked "absent" r a
         ∧ DataDir.row_present row + DataDir.row_absent row ≤ recordsOf r a
         ∧ DataDir.row_attendance_percent row
           = toFixed1 (percent (timesMarked "present" r a) (recordsOf r a))
         ∧ (recordsOf r a = 0 → DataDir.row_attendance_percent row = "0.0"%string)
         ∧ ∃ s, s ∈ roster ∧ roll_no s = r ∧ DataDir.row_name row = name s)
    ∧ (Forall (λ s, isArrayIndex (roll_no s) = true) roster →
       StronglySorted (λ x y, numericValue x ≤ numericValue y)
         (DataDir.row_roll_no <$> rows)).
Proof.
  intros a roster.
  destruct (calculateMetrics_total roster a) as (metrics & Hmetrics & _).
  pose proof (calculateMetrics_keys roster a metrics Hmetrics) as Hkeys.
  rewrite (getStudentMetrics_rows st metrics Hmetrics).
  set (table := DataDir.metricsOfStudents metrics) in *.
  eexists. split; [done|].
  assert (Hrolls : DataDir.row_roll_no
                     <$> ((λ kv : string * DataDir.StudentMetric,
                             DataDir.mkStudentRow kv.1 (DataDir.metric_name kv.2)
                               (DataDir.present kv.2) (DataDir.absent kv.2)
                               (toFixed1 (percent (DataDir.present kv.2) (DataDir.total kv.2))))
                          <$> ownKeyOrder (ownProperties table))
                   = (ownKeyOrder (ownProperties table)).*1).
  { rewrite <- list_fmap_compose. apply list_fmap_ext. by intros i [k m] _. }
  rewrite Hrolls. split; [|split; [|split]].
  - rewrite (ownKeyOrder_perm (ownProperties table)), ownProperties_keys, Hkeys.
    apply NoDup_filter, initialMetrics_NoDup.
  - intros r. rewrite (ownKeyOrder_perm (ownProperties table)), ownProperties_keys, Hkeys.
    rewrite list_elem_of_filter, initialMetrics_keys. by split; intros [? ?].
  - intros row ([k m] & -> & Hin)%list_elem_of_fmap. cbn [DataDir.row_roll_no
      DataDir.row_present DataDir.row_absent DataDir.row_attendance_percent
      DataDir.row_name fst snd]. cbv zeta.
    rewrite (ownKeyOrder_perm (ownProperties table)) in Hin.
    apply list_elem_of_filter in Hin as [_ Hin].
    destruct (calculateMetrics_lines roster a metrics k m Hmetrics Hin)
      as (Hp & Ha & Ht & Hs).
    rewrite Hp, Ha, Ht. split; [done|]. split; [done|].
    split; [|split; [done|split; [|done]]].
    + unfold timesMarked, recordsOf. rewrite sumOverDays_add.
      apply sumOverDays_le. intros l. apply marked_disjoint.
    + intros Hnone. rewrite Hnone. unfold percent. cbn [Z.ltb Z.compare]. done.
  - intros Hindices. apply ownKeyOrder_indices.
    apply Forall_forall. intros [k m] [_ Hin]%list_elem_of_filter. cbn [fst].
    assert (Hk : k ∈ roll_no <$> roster).
    { apply initialMetrics_keys. rewrite <- Hkeys. apply list_elem_of_fmap. by exists (k, m). }
    apply list_elem_of_fmap in Hk as (s & -> & Hs).
    rewrite Forall_forall in Hindices. by apply Hindices.
Qed.

Lemma X14_student_metrics_rows_witness :
  DataDir.getStudentMetrics tenDays
  = Some [DataDir.mkStudentRow "C3" "Chen" 8 2 "80.0";
          DataDir.mkStudentRow "A1" "Asha" 9 1 "90.0";
          DataDir.mkStudentRow "B2" "Bilal" 9 1 "90.0"]
  ∧ DataDir.getStudentMetrics eightyMarks
    = Some [DataDir.mkStudentRow "001" "Alice" 23 57 "28.7"]
  ∧ DataDir.getStudentMetrics
      (DataDir.mkState [mkStudent "__proto__" "Eve" None; mkStudent "7" "Cy" None]
         ∅ None None [])
    = Some [DataDir.mkStudentRow "7" "Cy" 0 0 "0.0"]
  ∧ ∃ rows, DataDir.getStudentMetrics
              (DataDir.mkState
                 [mkStudent "20" "Bea" None; mkStudent "3" "Cy" None] ∅ None None [])
            = Some rows
            ∧ DataDir.row_roll_no <$> rows = ["3"; "20"]%string
            ∧ StronglySorted (λ x y, numericValue x ≤ numericValue y)
                (DataDir.row_roll_no <$> rows).
Proof.
  split; [vm_compute; reflexivity|]. split; [vm_compute; reflexivity|].
  split; [vm_compute; reflexivity|].
  destruct (X14_student_metrics_rows
              (DataDir.mkState [mkStudent "20" "Bea" None; mkStudent "3" "Cy" None]
                 ∅ None None []))
    as (rows & Hrows & _ & _ & _ & Hsorted).
  exists rows. split; [exact Hrows|]. split.
  - vm_compute in Hrows. injection Hrows as <-. reflexivity.
  - apply Hsorted.
    constructor; [vm_compute; reflexivity|].
    constructor; [vm_compute; reflexivity|].
    constructor.
Defined.
(** ** Which day is reported when several share the best rate *)
Section TieFacts.
Import DataDir.

Lemma fold_setProp_fresh {V} (f : string → V) (dates : list string)
    (rates : list (string * V)) :
  NoDup dates → (∀ d, d ∈ dates → d ∉ rates.*1) →
  fold_left (λ r date, setProp date (f date) r) dates rates
  = rates ++ ((λ d, (d, f d)) <$> dates).
Proof.
  intros Hdates. revert rates.
  induction Hdates as [|d dates Hd Hdates IH]; intros rates Hfresh; cbn [fold_left fmap list_fmap].
  - by rewrite app_nil_r.
  - rewrite setProp_keys_fresh by (apply Hfresh; left).
    rewrite IH.
    + by rewrite <- app_assoc.
    + intros d' Hd'. rewrite fmap_app, elem_of_app. cbn.
      rewrite list_elem_of_singleton. intros [Hin| ->]; [|done].
      by apply (Hfresh d'); [right|].
Qed.

Lemma sortedDates_NoDup (a : Att) : NoDup (sortedDates a).
Proof. unfold sortedDates. rewrite arraySort_perm. apply NoDup_fst_map_to_list. Qed.

(** The daily rates are listed in the order of the sorted dates. *)
Lemma calculateMetrics_rate_keys (roster : list Student) (a : Att) metrics :
  ordinaryKeys roster a →
  calculateMetrics roster a = Some metrics → (ratesOfDays metrics).*1 = sortedDates a.
Proof.
  intros (Hroster & Hdates & Hentries). unfold calculateMetrics.
  set (c0 := mkCounters (initialMetrics roster) 0 0 0 0 []).
  destruct (countDays_spec a (sortedDates a) c0 (initialMetrics_plain roster Hroster)
              (sortedDates_plain a Hdates) Hentries) as (c & Hc & _ & _ & _ & Hrates).
  cbv zeta in Hrates. rewrite Hc. cbn [mbind option_bind].
  rewrite percentage_percent. cbn [mbind option_bind].
  intros [= <-]. cbn [ratesOfDays]. rewrite Hrates. cbn [dailyRates c0].
  rewrite fold_setProp_fresh.
  - cbn [app]. rewrite <- list_fmap_compose. by rewrite list_fmap_id.
  - apply sortedDates_NoDup.
  - intros d _. apply not_elem_of_nil.
Qed.

Lemma ownKeyOrder_plain {V} (props : list (string * V)) :
  Forall (λ kv, isArrayIndex kv.1 ≠ true) props → ownKeyOrder props = props.
Proof.
  intros Hprops. unfold ownKeyOrder.
  assert (Hindices : filter (λ p : string * V, isArrayIndex p.1 = true) props = []).
  { induction Hprops as [|kv props Hkv _ IH]; [done|].
    rewrite filter_cons. by rewrite decide_False. }
  rewrite Hindices. cbn. by apply filter_all.
Qed.

Lemma find_first {A} (p : A → bool) (l : list A) (x : A) :
  List.find p l = Some x →
  ∃ l1 l2, l = l1 ++ x :: l2 ∧ p x = true ∧ Forall (λ y, p y = false) l1.
Proof.
  induction l as [|y l IH]; cbn; [done|].
  destruct (p y) eqn:Hy.
  - intros [= <-]. by exists [], l.
  - intros (l1 & l2 & -> & Hx & Hl1)%IH. exists (y :: l1), l2.
    split; [done|]. split; [done|]. by constructor.
Qed.

Lemma compare_refl (x : string) : String.compare x x = Eq.
Proof.
  pose proof (String.compare_antisym x x) as Hanti.
  by destruct (String.compare x x).
Qed.

(** The first day in date order whose rate is [val]. *)
Lemma dayWith_first (rates : list (string * Q)) (val : Q) :
  Forall (λ kv, isArrayIndex kv.1 ≠ true) rates →
  StronglySorted (λ x y, String.compare x y = Lt) rates.*1 →
  val ∈ rates.*2 →
  ∃ date rate, (date, rate) ∈ rates ∧ (rate == val)%Q
               ∧ dayWith rates val = orElse (Some date) "-"
               ∧ ∀ date' rate', (date', rate') ∈ rates → (rate' == val)%Q →
                                String.compare date date' ≠ Gt.
Proof.
  intros Hplain Hsorted Hval. unfold dayWith. rewrite (ownKeyOrder_plain rates Hplain).
  destruct (List.find _ rates) as [[date rate]|] eqn:Hfind.
  - apply find_first in Hfind as (l1 & l2 & Hsplit & Heq & Hl1). cbn [snd] in Heq.
    exists date, rate. split; [|split; [by apply Qeq_bool_iff|split; [done|]]].
    { rewrite Hsplit. apply elem_of_app. right. left. }
    intros date' rate' Hin Hrate'. rewrite Hsplit in Hin, Hsorted.
    apply elem_of_app in Hin as [Hin|Hin].
    + rewrite Forall_forall in Hl1. specialize (Hl1 _ Hin). cbn [snd] in Hl1.
      apply Qeq_bool_iff in Hrate'. congruence.
    + apply elem_of_cons in Hin as [[= -> ->]|Hin]; [by rewrite compare_refl|].
      rewrite fmap_app, fmap_cons in Hsorted.
      apply StronglySorted_app in Hsorted as (_ & _ & Hsorted).
      apply StronglySorted_cons in Hsorted as [Hlater _].
      rewrite Forall_forall in Hlater. cbn [fst] in Hlater.
      rewrite (Hlater date'); [done|]. apply list_elem_of_fmap. by exists (date', rate').
  - apply list_elem_of_fmap in Hval as ([date rate] & -> & Hin).
    apply list_elem_of_In in Hin.
    pose proof (find_none _ _ Hfind _ Hin) as Hne. cbn in Hne.
    by rewrite Qeq_bool_refl in Hne.
Qed.

Lemma dateRegex_not_index (date : string) :
  dateRegex date = true → isArrayIndex date = false.
Proof.
  intros (y1 & y2 & y3 & y4 & m1 & m2 & d1 & d2 & _ & ->)%dateRegex_shape.
  unfold isArrayIndex. rewrite list_ascii_of_string_of_list_ascii. cbn [forallb].
  change (isDigit "-") with false.
  by destruct (isDigit y1), (isDigit y2), (isDigit y3), (isDigit y4).
Qed.
End TieFacts.

(** X16.  Which day [GET /api/metrics] names when several days share the
    best or the worst rate.  Take a roster, records and dates in which no
    roll number and no date names a member of [Object.prototype].  When no
    recorded date is a canonical array index, and a date of the form
    YYYY-MM-DD never is one, the best day is the first date in code-unit
    order among the days with the highest rate, and the worst day the first
    among the days with the lowest rate: of several equally good days the
    earliest is named. *)
Theorem X16_ties_go_to_the_earliest_date (st : DataDir.State) :
  let roster := DataDir.students st in
  let a := DataDir.attendanceData st in
  (∀ date, dateRegex date = true → isArrayIndex date = false)
  ∧ (a ≠ ∅ →
     ordinaryKeys roster a →
     (∀ date, is_Some (a !! date) → isArrayIndex date = false) →
     ∃ metrics bestDate bestList worstDate worstList,
       DataDir.calculateMetrics roster a = Some metrics
       ∧ a !! bestDate = Some bestList
       ∧ a !! worstDate = Some worstList
       ∧ (DataDir.bestDay metrics).1 = orElse (Some bestDate) "-"
       ∧ (DataDir.worstDay metrics).1 = orElse (Some worstDate) "-"
       ∧ (∀ date l, a !! date = Some l →
            (rateOfDay roster l <= rateOfDay roster bestList)%Q
            ∧ ((rateOfDay roster l == rateOfDay roster bestList)%Q →
               String.compare bestDate date ≠ Gt))
       ∧ (∀ date l, a !! date = Some l →
            (rateOfDay roster worstList <= rateOfDay roster l)%Q
            ∧ ((rateOfDay roster l == rateOfDay roster worstList)%Q →
               String.compare worstDate date ≠ Gt))).
Proof.
  intros roster a. split; [apply dateRegex_not_index|].
  intros Hne Hordinary Hdates.
  destruct (calculateMetrics_spec roster a Hordinary)
    as (metrics & Hmetrics & Hrates & _ & _ & Hbest & Hworst).
  pose proof (calculateMetrics_rate_keys roster a metrics Hordinary Hmetrics) as Hkeys.
  pose proof (calculateMetrics_rates_NoDup roster a metrics Hordinary Hmetrics) as Hnodup.
  set (rates := DataDir.ratesOfDays metrics) in *.
  assert (Hplain : Forall (λ kv : string * Q, isArrayIndex kv.1 ≠ true) rates).
  { apply Forall_forall. intros [date rate] Hin. cbn [fst].
    assert (Hdate : date ∈ rates.*1) by (apply list_elem_of_fmap; by exists (date, rate)).
    rewrite Hkeys in Hdate. apply sortedDates_elem_of in Hdate.
    by rewrite (Hdates date Hdate). }
  assert (Hsorted : StronglySorted (λ x y, String.compare x y = Lt) rates.*1).
  { rewrite Hkeys. apply sortedDates_strict. }
  assert (Hrecorded : ∀ date l, a !! date = Some l → (date, rateOfDay roster l) ∈ rates).
  { intros date l Hl. apply getProp_elem_of. by rewrite Hrates, Hl. }
  assert (Hvalue : ∀ date rate, (date, rate) ∈ rates →
            ∃ l, a !! date = Some l ∧ rate = rateOfDay roster l).
  { intros date rate Hin. apply elem_of_getProp in Hin; [|done].
    rewrite Hrates in Hin. destruct (a !! date) as [l|]; [|done].
    exists l. split; [done|]. by injection Hin. }
  apply map_choose in Hne as (date0 & l0 & Hl0).
  assert (Hsome : rates.*2 ≠ []).
  { intros Hnil. pose proof (Hrecorded _ _ Hl0) as Hin.
    assert (Hin' : rateOfDay roster l0 ∈ rates.*2).
    { apply list_elem_of_fmap. by exists (date0, rateOfDay roster l0). }
    rewrite Hnil in Hin'. by apply elem_of_nil in Hin'. }
  assert (Hlen : (0 <? length rates)%nat = true).
  { apply Nat.ltb_lt. destruct rates; [done|cbn; lia]. }
  rewrite (ownKeyOrder_plain rates Hplain) in Hbest, Hworst.
  rewrite Hlen in Hbest, Hworst.
  destruct (mathMax_spec rates.*2 Hsome) as [Hmax_in Hmax].
  destruct (mathMin_spec rates.*2 Hsome) as [Hmin_in Hmin].
  destruct (dayWith_first rates _ Hplain Hsorted Hmax_in)
    as (bestDate & bestRate & Hbin & Hbeq & Hbname & Hbfirst).
  destruct (dayWith_first rates _ Hplain Hsorted Hmin_in)
    as (worstDate & worstRate & Hwin & Hweq & Hwname & Hwfirst).
  destruct (Hvalue _ _ Hbin) as (bestList & Hbl & ->).
  destruct (Hvalue _ _ Hwin) as (worstList & Hwl & ->).
  exists metrics, bestDate, bestList, worstDate, worstList.
  split; [done|]. split; [done|]. split; [done|].
  split; [by rewrite Hbest|]. split; [by rewrite Hworst|].
  split.
  - intros date l Hl. pose proof (Hrecorded _ _ Hl) as Hin.
    assert (Hin' : rateOfDay roster l ∈ rates.*2).
    { apply list_elem_of_fmap. by exists (date, rateOfDay roster l). }
    split.
    + rewrite Hbeq. by apply Hmax.
    + intros Heq. apply (Hbfirst date (rateOfDay roster l)); [done|].
      by rewrite Heq.
  - intros date l Hl. pose proof (Hrecorded _ _ Hl) as Hin.
    assert (Hin' : rateOfDay roster l ∈ rates.*2).
    { apply list_elem_of_fmap. by exists (date, rateOfDay roster l). }
    split.
    + rewrite Hweq. by apply Hmin.
    + intros Heq. apply (Hwfirst date (rateOfDay roster l)); [done|].
      by rewrite Heq.
Qed.

Lemma X16_ties_go_to_the_earliest_date_witness :
  ∃ metrics,
    DataDir.calculateMetrics (DataDir.students tenDays) (DataDir.attendanceData tenDays)
    = Some metrics
    ∧ (DataDir.bestDay metrics).1 = "2024-01-01"%string
    ∧ (DataDir.worstDay metrics).1 = "2024-01-09"%string
    ∧ DataDir.report_worstDay <$> DataDir.getMetrics tenDays
      = Some "2024-01-09 (33.3%)"%string
    ∧ toFixed1 (rateOfDay (DataDir.students tenDays)
                  (default [] (DataDir.attendanceData tenDays !! "2024-01-10"%string)))
      = "33.3"%string.
Proof.
  destruct (X16_ties_go_to_the_earliest_date tenDays) as [Hplain Hties].
  destruct Hties
    as (metrics & bestDate & bestList & _ & _ & Hmetrics & _ & _ & Hbest & _).
  - intros Hempty.
    assert (Hlookup : is_Some (DataDir.attendanceData tenDays !! "2024-01-01"%string))
      by (vm_compute; eexists; reflexivity).
    rewrite Hempty, lookup_empty in Hlookup. by destruct Hlookup.
  - apply ordinaryKeys_check. vm_compute. reflexivity.
  - intros date Hdate. apply Hplain.
    apply sortedDates_elem_of in Hdate.
    assert (Hall : forallb dateRegex (DataDir.sortedDates (DataDir.attendanceData tenDays))
                   = true) by (vm_compute; reflexivity).
    rewrite forallb_forall in Hall. apply Hall. by apply list_elem_of_In.
  - exists metrics. split; [exact Hmetrics|].
    vm_compute in Hmetrics. injection Hmetrics as <-.
    split; [reflexivity|]. split; [reflexivity|].
    split; vm_compute; reflexivity.
Defined.
(** ** The third unnamed source *)
Section RereadFacts.
Import Reread.
Implicit Types (w : World Att) (d : Document Att).

Lemma postAttendance_reread_closed date attendanceList w :
  dateRegex date = true →
  forallb validItem attendanceList = true →
  postAttendance date (ArrayOf attendanceList) w =
  let d := storedDocument w in
  (if nextOutcome (writes (loaded w))
   then mkResponse 200 (Message (savedMessage date))
   else mkResponse 500 (Message attendanceSaveMessage),
   committed (withFlatBucket date (enrichedAttendance (students d) attendanceList) d) w).
Proof.
  intros Hdate Hvalid. unfold postAttendance. rewrite Hdate, Hvalid. cbn [negb].
  load_step. by destruct (nextOutcome (writes (loaded w))).
Qed.

Lemma deleteStudent_reread_closed r w :
  deleteStudent r w =
  let d := storedDocument w in
  if (length (filter (λ s, roll_no s ≠ r) (students d)) =? length (students d))%nat then
    (mkResponse 404 (Message (notFoundMessage r)),
     mutate (length (heap w))
       (λ d, mkDocument (filter (λ s, roll_no s ≠ r) (students d)) (attendance d))
       (loaded w))
  else
    (if nextOutcome (writes (loaded w))
     then mkResponse 200 (Message (deletedMessage r))
     else mkResponse 500 (Message saveErrorMessage),
     committed (withoutStudentFlat r d) w).
Proof.
  unfold deleteStudent. load_step. cbn [students attendance compose].
  destruct (_ =? _)%nat; [done|].
  by destruct (nextOutcome (writes (loaded w))).
Qed.

Lemma getAttendance_reread_response date w :
  (getAttendance date w).1
  = if negb (dateRegex date) then mkResponse 400 (Message dateMessage)
    else mkResponse 200 (EntryList (bucket (attendance (storedDocument w)) date)).
Proof. unfold getAttendance. destruct (negb _); [done|]. by load_step. Qed.

Lemma enrichedAttendance_reread_elem_of roster attendanceList e :
  e ∈ enrichedAttendance roster attendanceList ↔
  ∃ att s, att ∈ attendanceList
           ∧ List.find (λ s, sameRoll s att) roster = Some s
           ∧ e = withName att (name s).
Proof. apply enrichedAttendance_elem_of. Qed.
End RereadFacts.

(** X17.  [POST /api/attendance/:date] of the third unnamed source.  For a
    well-formed date, a list that passes the item check and no failing
    write: the answer is 200; the bucket of the date is replaced by the
    entries of the list whose roll number is that of a roster student, each
    with that student's name, in the order of the list; an entry whose roll
    number matches no student is not stored; the roster and the buckets of
    the other dates stay as they were; and the [GET] of the date returns the
    stored bucket.  A malformed date is answered with 400 and the message
    that names the format YNNN-MM-DD, and nothing is read or written. *)
Theorem X17_third_source_setAttendance (date : string) (attendanceList : list Entry)
    (w : World Reread.Att) :
  (dateRegex date = false →
   ∀ body, Reread.postAttendance date body w
           = (mkResponse 400 (Message "Invalid date format. Use YNNN-MM-DD."), w))
  ∧ (dateRegex date = true →
     forallb Reread.validItem attendanceList = true →
     reliable w →
     let roster := students (storedDocument w) in
     let result := Reread.postAttendance date (ArrayOf attendanceList) w in
     let storedBucket := Reread.bucket (attendance (storedDocument result.2)) date in
     result.1 = mkResponse 200 (Message (Reread.savedMessage date))
     ∧ storedBucket = Reread.enrichedAttendance roster attendanceList
     ∧ (∀ e, e ∈ storedBucket ↔
          ∃ att s, att ∈ attendanceList
                   ∧ List.find (λ s, sameRoll s att) roster = Some s
                   ∧ e = withName att (name s))
     ∧ (∀ att, att ∈ attendanceList →
          (∀ s, s ∈ roster → att_roll_no att ≠ Some (roll_no s)) →
          ∀ e, e ∈ storedBucket → att_roll_no e ≠ att_roll_no att)
     ∧ students (storedDocument result.2) = roster
     ∧ (∀ date', date' ≠ date →
          Reread.bucket (attendance (storedDocument result.2)) date'
          = Reread.bucket (attendance (storedDocument w)) date')
     ∧ (Reread.getAttendance date result.2).1 = mkResponse 200 (EntryList storedBucket)).
Proof.
  split.
  { intros Hdate body. unfold Reread.postAttendance. by rewrite Hdate. }
  intros Hdate Hvalid Hw roster result storedBucket.
  assert (Hok : nextOutcome (writes (loaded w)) = true)
    by by apply reliable_nextOutcome, reliable_loaded.
  assert (Hresult : result
                    = (mkResponse 200 (Message (Reread.savedMessage date)),
                       committed (withFlatBucket date
                                    (Reread.enrichedAttendance roster attendanceList)
                                    (storedDocument w)) w)).
  { unfold result. rewrite postAttendance_reread_closed by done. cbv zeta. by rewrite Hok. }
  assert (Hstored : storedDocument result.2
                    = withFlatBucket date (Reread.enrichedAttendance roster attendanceList)
                        (storedDocument w)).
  { rewrite Hresult. cbn [snd]. by rewrite storedDocument_committed, Hok. }
  assert (Hbucket : storedBucket = Reread.enrichedAttendance roster attendanceList).
  { unfold storedBucket. rewrite Hstored. unfold Reread.bucket, withFlatBucket.
    cbn [attendance]. by rewrite lookup_insert_eq. }
  split; [by rewrite Hresult|]. split; [done|]. split; [|split; [|split; [|split]]].
  - intros e. rewrite Hbucket. apply enrichedAttendance_reread_elem_of.
  - intros att Hatt Hunknown e. rewrite Hbucket.
    intros (att' & s & Hatt' & Hfind & ->)%enrichedAttendance_reread_elem_of.
    apply find_sameRoll_Some in Hfind as [Hs Hroll]. cbn [withName att_roll_no].
    rewrite Hroll. intros Heq. by apply (Hunknown s Hs).
  - by rewrite Hstored.
  - intros date' Hne. rewrite Hstored. unfold Reread.bucket, withFlatBucket.
    cbn [attendance]. by rewrite lookup_insert_ne.
  - rewrite getAttendance_reread_response, Hdate. done.
Qed.

Lemma X17_third_source_setAttendance_witness :
  Reread.bucket
    (attendance
       (storedDocument
          (Reread.postAttendance "2024-01-01" (ArrayOf physicsMarks) flatOneStudent).2))
    "2024-01-01"
  = [marked "002" "present" "Bob"].
Proof.
  destruct (X17_third_source_setAttendance "2024-01-01" physicsMarks flatOneStudent)
    as [_ Hsaved].
  destruct Hsaved as (_ & Hbucket & _).
  - reflexivity.
  - reflexivity.
  - constructor.
  - exact Hbucket.
Defined.

(** X18.  [DELETE /api/students/:roll_no] of the third unnamed source.  When
    no stored student has the roll number the answer is 404 and the stored
    document is what it was.  When one has it, either the write succeeds,
    the answer is 200 and the roster without the student and every date's
    bucket without the entries of that roll number are stored together, so
    that no later [GET] of a date returns such an entry; or the write fails,
    the answer is 500 and the stored document is what it was. *)
Theorem X18_third_source_removeStudent (r : string) (w : World Reread.Att) :
  let d := storedDocument w in
  let response := (Reread.deleteStudent r w).1 in
  let w' := (Reread.deleteStudent r w).2 in
  ((∀ s, s ∈ students d → roll_no s ≠ r) →
     response = mkResponse 404 (Message (notFoundMessage r))
     ∧ storedDocument w' = d)
  ∧ ((∃ s, s ∈ students d ∧ roll_no s = r) →
     (response = mkResponse 200 (Message (deletedMessage r))
      ∧ storedDocument w' = withoutStudentFlat r d
      ∧ (∀ date entries,
           payload (Reread.getAttendance date w').1 = EntryList entries →
           ∀ e, e ∈ entries → att_roll_no e ≠ Some r))
     ∨ (response = mkResponse 500 (Message Reread.saveErrorMessage)
        ∧ storedDocument w' = d))
  ∧ (reliable w → status response ≠ 500%nat).
Proof.
  intros d response w'. subst response w'.
  rewrite deleteStudent_reread_closed. fold d. cbv zeta. split; [|split].
  - intros Hnone.
    rewrite filter_all by (apply Forall_forall; exact Hnone).
    rewrite Nat.eqb_refl. cbn [fst snd]. split; [done|].
    apply (storedDocument_loaded w).
  - intros (s & Hs & Hr).
    destruct (_ =? _)%nat eqn:Hlen.
    { apply Nat.eqb_eq, length_filter_eq in Hlen.
      rewrite Forall_forall in Hlen. by destruct (Hlen s Hs). }
    cbn [fst snd]. rewrite storedDocument_committed.
    destruct (nextOutcome (writes (loaded w))) eqn:Hok; [left|by right].
    split; [done|]. split; [done|].
    intros date entries. rewrite getAttendance_reread_response.
    destruct (negb (dateRegex date)); [done|]. cbn [payload]. intros [= <-] e.
    rewrite storedDocument_committed, Hok.
    change (Reread.bucket ?a date) with (Flat.bucket a date).
    rewrite bucket_withoutStudentFlat.
    by intros [He _]%list_elem_of_filter.
  - intros Hw. destruct (_ =? _)%nat; cbn [fst status]; [done|].
    by rewrite (reliable_nextOutcome (loaded w)) by by apply reliable_loaded.
Qed.

Lemma X18_third_source_removeStudent_witness :
  (Reread.deleteStudent "002" flatOneStudent).1
  = mkResponse 200 (Message (deletedMessage "002"))
  ∨ (Reread.deleteStudent "002" flatOneStudent).1
    = mkResponse 500 (Message Reread.saveErrorMessage).
Proof.
  destruct (X18_third_source_removeStudent "002" flatOneStudent) as (_ & Hfound & _).
  destruct Hfound as [(Hresponse & _)|(Hresponse & _)].
  - exists (mkStudent "002" "Bob" (Some "N/A")). split; [left|reflexivity].
  - left. exact Hresponse.
  - right. exact Hresponse.
Defined.

(** ** Edge cases of loading and of validation *)

(** X19.  [server.js] serves a file it cannot use as an empty document.
    When [data.json] cannot be read for a reason other than its absence,
    does not parse, or holds [null], the read routes answer 200 with no
    student and no attendance and leave the file alone; a [POST
    /api/students] that then succeeds replaces the file with a document that
    holds the new student and nothing else. *)
Theorem X19_unusable_file_is_served_as_empty `{Collator} (w : World Nested.Att) :
  file w = ReadError ∨ file w = NotJson ∨ file w = JsonNull →
  (Nested.getStudents w).1 = mkResponse 200 (StudentList [])
  ∧ (Nested.getAllAttendance w).1 = mkResponse 200 (AttendanceMap ∅)
  ∧ file (Nested.getStudents w).2 = file w
  ∧ (∀ body r n,
       truthy (body_roll_no body) = Some r →
       truthy (body_name body) = Some n →
       nextOutcome (writes w) = true →
       let newStudent := mkStudent r n (Some (orElse (body_course body) "N/A")) in
       (Nested.postStudent body w).1 = mkResponse 201 (StudentRecord newStudent)
       ∧ file (Nested.postStudent body w).2 = JsonObject (Some [newStudent]) (Some ∅)).
Proof.
  intros Hfile.
  assert (Hstored : storedDocument w = emptyDocument).
  { unfold storedDocument. by destruct Hfile as [-> | [-> | ->]]. }
  assert (Hloaded : file (loaded w) = file w ∧ writes (loaded w) = writes w).
  { unfold loaded; cbn [file writes]. by destruct Hfile as [-> | [-> | ->]]. }
  destruct Hloaded as [Hfile' Hwrites].
  split; [|split; [|split]].
  - unfold Nested.getStudents. load_step. cbn [fst]. by rewrite Hstored.
  - unfold Nested.getAllAttendance. load_step. cbn [fst]. by rewrite Hstored.
  - unfold Nested.getStudents. load_step. by cbn [snd].
  - intros body r n Hr Hn Hok newStudent.
    rewrite (postStudent_closed body w r n Hr Hn). cbv zeta.
    rewrite Hstored, Hwrites, Hok. cbn [emptyDocument students List.find fst snd].
    split; [done|]. unfold committed; cbn [file]. by rewrite Hwrites, Hok.
Qed.

Lemma X19_unusable_file_is_served_as_empty_witness :
  (Nested.getStudents (freshProcess NotJson [])).1 = mkResponse 200 (StudentList [])
  ∧ file (Nested.postStudent aliceBody (freshProcess NotJson [])).2
    = JsonObject (Some [alice]) (Some ∅).
Proof.
  destruct (X19_unusable_file_is_served_as_empty (H := codeUnitCollator)
              (freshProcess NotJson [])) as (Hget & _ & _ & Hpost).
  - right. left. reflexivity.
  - split; [exact Hget|].
    exact (proj2 (Hpost aliceBody "001"%string "Alice"%string eq_refl eq_refl eq_refl)).
Defined.

Section DataDirAttendanceFacts.
Import DataDir.

Lemma incomplete_spec (item : Entry) :
  incomplete item = false ↔
  ∃ r s, att_roll_no item = Some r ∧ r ≠ ""%string
         ∧ att_status item = Some s ∧ s ≠ ""%string.
Proof.
  unfold incomplete, truthy.
  destruct (att_roll_no item) as [r|], (att_status item) as [s|];
    repeat match goal with
           | |- context [String.eqb ?x ""] => destruct (String.eqb_spec x "")
           end;
    (split; [intros Hok; try discriminate Hok; by eauto 10
            |intros (r' & s' & Hr & Hr' & Hs & Hs'); by simplify_eq]).
Qed.
End DataDirAttendanceFacts.

(** X20.  [POST /api/attendance/:date] of the second unnamed source stores
    what it is given, under whatever string the path carries: the route
    checks no format of the date.  The list is accepted exactly when every
    item has a non-empty [roll_no] and a non-empty [status], whatever the
    status says and whether or not a student has the roll number; a list
    with an item that lacks one is refused with 400 and nothing changes.
    When the list is accepted and the write succeeds, the answer is 200,
    the records of the other dates and the roster are unchanged, and memory
    and [attendance.json] agree.  For a date other than ["__proto__"] the
    list, as it was posted, becomes the property of [attendanceData] for
    the date, and the date is among the dates of
    [GET /api/attendance/dates].  For the date ["__proto__"], on an object
    without a property of that name, the assignment adds no property and
    [attendanceData] keeps the properties it had. *)
Theorem X20_datadir_attendance_round_trip (date : string) (attendanceList : list Entry)
    (st : DataDir.State) :
  let result := DataDir.postAttendance date (ArrayOf attendanceList) st in
  (existsb DataDir.incomplete attendanceList = false ↔
     Forall (λ item, ∃ r s, att_roll_no item = Some r ∧ r ≠ ""%string
                            ∧ att_status item = Some s ∧ s ≠ ""%string) attendanceList)
  ∧ (existsb DataDir.incomplete attendanceList = true →
     result = (mkResponse 400 (Message "Each attendance record must have roll_no and status."),
               st))
  ∧ (existsb DataDir.incomplete attendanceList = false →
     DataDir.nextWrite st = true →
     result.1
     = mkResponse 200 (Message ("Attendance for " +:+ date +:+ " saved successfully."))
     ∧ (∀ date', date' ≠ date →
          DataDir.attendanceData result.2 !! date' = DataDir.attendanceData st !! date')
     ∧ DataDir.students result.2 = DataDir.students st
     ∧ attendanceOnFile result.2
     ∧ (date ≠ "__proto__"%string →
        DataDir.attendanceData result.2 !! date = Some attendanceList
        ∧ date ∈ DataDir.getDates result.2)
     ∧ (date = "__proto__"%string → DataDir.attendanceData st !! date = None →
        DataDir.attendanceData result.2 = DataDir.attendanceData st)).
Proof.
  intros result. subst result. split; [|split].
  - rewrite <- not_true_iff_false, existsb_exists, Forall_forall. split.
    + intros Hnone item Hitem. apply incomplete_spec.
      destruct (DataDir.incomplete item) eqn:Hbad; [|done].
      destruct Hnone. exists item. split; [by apply list_elem_of_In|done].
    + intros Hall (item & Hitem%list_elem_of_In & Hbad).
      apply Hall, incomplete_spec in Hitem. congruence.
  - intros Hbad. unfold DataDir.postAttendance. by rewrite Hbad.
  - intros Hcomplete Hok. destruct st as [l a lf af ws].
    unfold DataDir.nextWrite in Hok. cbn [DataDir.writes] in Hok.
    unfold DataDir.postAttendance. rewrite Hcomplete.
    unfold DataDir.saveAttendanceData, DataDir.nextWrite, DataDir.withAttendance.
    cbn [DataDir.writes DataDir.attendanceData DataDir.attendanceFile DataDir.students
         DataDir.studentsFile].
    rewrite Hok.
    cbn [fst snd status DataDir.writes DataDir.attendanceData DataDir.attendanceFile
         DataDir.students DataDir.studentsFile].
    unfold attendanceOnFile.
    cbn [DataDir.attendanceData DataDir.attendanceFile].
    split; [done|]. split.
    { intros date' Hne. unfold DataDir.assignDay.
      destruct (_ && _); [done|]. by rewrite lookup_insert_ne. }
    split; [done|]. split; [done|]. split.
    + intros Hdate. unfold DataDir.assignDay.
      rewrite (proj2 (String.eqb_neq date "__proto__") Hdate). cbn [andb].
      split; [by rewrite lookup_insert_eq|].
      unfold DataDir.getDates. cbn [DataDir.attendanceData].
      rewrite list_elem_of_In, <- in_rev, <- list_elem_of_In.
      apply (sortedDates_elem_of (<[date := attendanceList]> a) date).
      rewrite lookup_insert_eq. by eexists.
    + intros -> Hnone. unfold DataDir.assignDay. cbn [String.eqb Ascii.eqb Bool.eqb andb].
      by rewrite bool_decide_eq_true_2.
Qed.

Lemma X20_datadir_attendance_round_trip_witness :
  let posted date :=
    (DataDir.postAttendance date (ArrayOf [mark "999" "late"]) emptyState).2 in
  DataDir.attendanceData (posted "2024-01-01"%string) !! "2024-01-01"%string
  = Some [mark "999" "late"]
  ∧ DataDir.getDates (posted "2024-01-01"%string) = ["2024-01-01"%string]
  ∧ DataDir.getDates (posted "constructor"%string) = ["constructor"%string]
  ∧ DataDir.attendanceFile (posted "no date"%string)
    = Some {[ "no date"%string := [mark "999" "late"] ]}
  ∧ DataDir.attendanceData (posted "__proto__"%string) = ∅.
Proof.
  intros posted.
  destruct (X20_datadir_attendance_round_trip "2024-01-01" [mark "999" "late"] emptyState)
    as (_ & _ & Hsaved).
  destruct Hsaved as (_ & _ & _ & _ & Hown & _).
  - reflexivity.
  - reflexivity.
  - destruct Hown as [Hlist _]; [discriminate|].
    split; [exact Hlist|]. repeat split; vm_compute; reflexivity.
Defined.

(** X21.  The item check of [server.js].  An item of the attendance list
    passes exactly when its [roll_no] is a string with a character that is
    not white space and its [status] is the string ["present"] or
    ["absent"]; the status is compared as it is, so ["Present"] does not
    pass.  A list with one item that does not pass is refused as a whole:
    the answer is 400 and nothing is read, written or cached, nor is
    anything left on an inherited object. *)
Theorem X21_item_check (item : Entry) :
  (Nested.validItem item = true ↔
     ∃ r s, att_roll_no item = Some r ∧ att_status item = Some s
            ∧ (∃ c, c ∈ list_ascii_of_string r ∧ isWhiteSpace c = false)
            ∧ (s = "present"%string ∨ s = "absent"%string))
  ∧ Nested.validItem (mark "S001" "Present") = false
  ∧ (Nested.validItem item = false →
     ∀ subject date before after (p : Nested.Process),
       dateRegex date = true → subject ≠ ""%string →
       Nested.postAttendance subject date (ArrayOf (before ++ item :: after)) p
       = (mkResponse 400 (Message Nested.listMessage), p)).
Proof.
  split; [|split; [done|]].
  - unfold Nested.validItem.
    destruct (att_roll_no item) as [r|];
      [|split; [done|by intros (? & ? & ? & _)]].
    destruct (att_status item) as [s|];
      [|split; [done|by intros (? & ? & _ & ? & _)]].
    rewrite andb_true_iff, negb_true_iff. unfold validStatus. rewrite orb_true_iff.
    rewrite !String.eqb_eq, String.eqb_neq, trim_empty.
    split.
    + intros [Hroll Hstatus]. exists r, s. split; [done|]. split; [done|]. split; [|done].
      apply not_Forall_Exists in Hroll; [|intros c; apply _].
      apply Exists_exists in Hroll as (c & Hc & Hws). exists c.
      split; [done|]. apply not_true_is_false. exact Hws.
    + intros (r' & s' & [= <-] & [= <-] & (c & Hc & Hws) & Hstatus). split; [|done].
      rewrite Forall_forall. intros Hall. specialize (Hall c Hc). congruence.
  - intros Hbad subject date before after p Hdate Hsubject.
    unfold Nested.postAttendance. rewrite Hdate.
    apply String.eqb_neq in Hsubject. rewrite Hsubject. cbn [negb].
    assert (Hall : forallb Nested.validItem (before ++ item :: after) = false).
    { rewrite forallb_app. cbn [forallb]. rewrite Hbad. cbn. apply andb_false_r. }
    by rewrite Hall.
Qed.

Lemma X21_item_check_witness :
  Nested.postAttendance "Physics" "2024-01-01"
    (ArrayOf ([mark "002" "present"] ++ mark "  " "present" :: []))
    (oneStudent, Nested.pristine)
  = (mkResponse 400 (Message Nested.listMessage), (oneStudent, Nested.pristine)).
Proof.
  destruct (X21_item_check (mark "  " "present")) as (_ & _ & Hrefused).
  apply Hrefused.
  - reflexivity.
  - reflexivity.
  - discriminate.
Defined.

(** X22.  The first flat variant can fail to load only once.
    [GET /api/students] answers 500 exactly when nothing is cached, the file
    is missing and the write that should create it fails.  The default
    document is cached all the same: the same request made again answers 200
    with the empty roster, without a read or a write, although there still
    is no file. *)
Theorem X22_load_fails_at_most_once (w : World Flat.Att) :
  let first := Flat.getStudents w in
  let second := Flat.getStudents first.2 in
  (status first.1 = 500%nat ↔
     dataCache w = None ∧ file w = NoFile ∧ nextOutcome (writes w) = false)
  ∧ (status first.1 = 500%nat →
     second.1 = mkResponse 200 (StudentList [])
     ∧ file second.2 = NoFile
     ∧ trace second.2 = trace first.2)
  ∧ status second.1 = 200%nat.
Proof.
  intros first second. subst first second.
  destruct w as [h [data|] f ws t].
  - unfold Flat.getStudents, loadDataCached; cbn.
    split; [|split; [done|done]]. split; [done|by intros [? _]].
  - unfold Flat.getStudents, loadDataCached, readFile, cacheFresh; cbn.
    destruct f; cbn; try (split; [split; [done|by intros (_ & ? & _)]|split; done]).
    unfold saveData, writeFile; cbn. rewrite deref_fresh.
    destruct (nextOutcome ws) eqn:Hok; cbn.
    + split; [split; [done|by intros (_ & _ & ?)]|split; done].
    + unfold deref; cbn. rewrite list_lookup_middle by done. cbn.
      split; [done|]. split; done.
Qed.

Lemma X22_load_fails_at_most_once_witness :
  let w : World Flat.Att := freshProcess NoFile [false] in
  (Flat.getStudents (Flat.getStudents w).2).1 = mkResponse 200 (StudentList []).
Proof.
  intros w.
  destruct (X22_load_fails_at_most_once w) as (_ & Hsecond & _).
  destruct Hsecond as (Hresponse & _).
  - reflexivity.
  - exact Hresponse.
Defined.

(** ** Adding students in the second unnamed source *)
Section DataDirRosterFacts.
Import DataDir.
Implicit Types (st : State).

Lemma existsb_roll (r : string) (l : list Student) :
  existsb (λ s, String.eqb (roll_no s) r) l = true ↔ r ∈ roll_no <$> l.
Proof.
  rewrite existsb_exists, list_elem_of_fmap. split.
  - intros (s & Hs & Heq). apply String.eqb_eq in Heq. exists s.
    split; [done|by apply list_elem_of_In].
  - intros (s & -> & Hs). exists s. split; [by apply list_elem_of_In|apply String.eqb_refl].
Qed.

Lemma defaultStudents_NoDup : NoDup (roll_no <$> defaultStudents).
Proof. apply (bool_decide_unpack _). vm_compute. exact I. Qed.

(** Neither the roster in memory nor the roster on file lists a roll number
    twice. *)
Lemma handle_unique req st :
  NoDup (roll_no <$> students st) →
  (∀ l, studentsFile st = Some l → NoDup (roll_no <$> l)) →
  NoDup (roll_no <$> students (handle req st).2)
  ∧ (∀ l, studentsFile (handle req st).2 = Some l → NoDup (roll_no <$> l)).
Proof.
  intros Hmem Hfile. destruct req as [body|readable r|date body]; cbn [handle].
  - unfold postStudent.
    destruct (truthy (body_roll_no body)) as [r|]; [|done].
    destruct (truthy (body_name body)) as [n|]; [|done].
    destruct (existsb _ _) eqn:Hexists; [done|].
    assert (Hfresh : r ∉ roll_no <$> students st).
    { rewrite <- existsb_roll. congruence. }
    assert (Hnew : NoDup (roll_no <$> students st ++ [mkStudent r n None])).
    { rewrite fmap_app. cbn. rewrite <- Permutation_cons_append. by apply NoDup_cons. }
    unfold saveStudents, nextWrite. cbn [withStudents students writes studentsFile].
    destruct (nextOutcome (writes st)); cbn [fst snd withStudents students studentsFile].
    + split; [done|]. by intros l [= <-].
    + by rewrite removelast_last.
  - unfold deleteStudent. cbn [withStudents students].
    assert (Hfiltered : NoDup (roll_no <$> filter (λ s, roll_no s ≠ r) (students st)))
      by by apply NoDup_fmap_filter.
    destruct (_ <? _)%nat; [|done].
    unfold saveStudents, nextWrite. cbn [withStudents students writes studentsFile].
    destruct (nextOutcome (writes st)); cbn [fst snd students studentsFile].
    + split; [done|]. by intros l [= <-].
    + unfold loadData. cbn [studentsFile].
      destruct (studentsFile st) as [lf|] eqn:Hlf.
      * assert (Hboth : ∀ st1, NoDup (roll_no <$> students st1) →
                  studentsFile st1 = Some lf →
                  NoDup (roll_no <$> students
                           match attendanceFile st1 with
                           | Some attData =>
                               if readable.2 then withAttendance attData st1
                               else withAttendance ∅ st1
                           | None => (saveAttendanceData (withAttendance ∅ st1)).2
                           end)
                  ∧ (∀ l, studentsFile
                            match attendanceFile st1 with
                            | Some attData =>
                                if readable.2 then withAttendance attData st1
                                else withAttendance ∅ st1
                            | None => (saveAttendanceData (withAttendance ∅ st1)).2
                            end = Some l → NoDup (roll_no <$> l))).
        { intros st1 Hst1 Hf1.
          destruct (attendanceFile st1); [destruct readable.2|]; cbn; rewrite ?Hf1;
            (split; [done|]); intros l [= <-]; by apply Hfile. }
        destruct readable.1; apply Hboth; cbn; try done. by apply Hfile. constructor.
      * unfold saveStudents, nextWrite. cbn [withStudents students writes studentsFile snd].
        destruct (nextOutcome _);
          (destruct (attendanceFile _); [destruct readable.2|]); cbn;
          (split; [apply defaultStudents_NoDup|]);
          intros l Hl; try discriminate Hl; injection Hl as <-; apply defaultStudents_NoDup.
  - unfold postAttendance. destruct body as [|attendanceList]; [done|].
    destruct (existsb _ _); [done|].
    unfold saveAttendanceData, nextWrite.
    cbn [withAttendance students writes studentsFile attendanceData].
    by destruct (nextOutcome (writes st)).
Qed.
End DataDirRosterFacts.

(** X23.  [POST /api/students] of the second unnamed source.  A missing or
    empty roll number or name, and a roll number that a student already
    has, are refused with 400 and nothing changes.  Otherwise the new
    student, with the roll number and the name and no other field, is put
    at the end of the roster, which is not sorted; when the write succeeds
    the answer is 201 and the file holds the new roster, and when it fails
    the answer is 500 and the roster is what it was.  When neither the
    roster in memory nor the roster on file lists a roll number twice, this
    is still so for both after any sequence of requests, whatever the
    writes and the reloads do. *)
Theorem X23_datadir_addStudent (body : StudentBody) (st : DataDir.State) :
  let result := DataDir.postStudent body st in
  (truthy (body_roll_no body) = None ∨ truthy (body_name body) = None →
     result = (mkResponse 400 (Message "Roll No and Name are required"), st))
  ∧ (∀ r n,
       truthy (body_roll_no body) = Some r → truthy (body_name body) = Some n →
       (r ∈ roll_no <$> DataDir.students st →
          result = (mkResponse 400 (Message "Student with this Roll No already exists"), st))
       ∧ (r ∉ roll_no <$> DataDir.students st →
          (DataDir.nextWrite st = true →
             result.1 = mkResponse 201 (StudentRecord (mkStudent r n None))
             ∧ DataDir.students result.2 = DataDir.students st ++ [mkStudent r n None]
             ∧ rosterOnFile result.2)
          ∧ (DataDir.nextWrite st = false →
             result.1 = mkResponse 500 (Message "Failed to save student data")
             ∧ DataDir.students result.2 = DataDir.students st
             ∧ DataDir.studentsFile result.2 = DataDir.studentsFile st)))
  ∧ (∀ requests,
       NoDup (roll_no <$> DataDir.students st) →
       (∀ l, DataDir.studentsFile st = Some l → NoDup (roll_no <$> l)) →
       NoDup (roll_no <$> DataDir.students (serve DataDir.handle requests st))
       ∧ (∀ l, DataDir.studentsFile (serve DataDir.handle requests st) = Some l →
               NoDup (roll_no <$> l))).
Proof.
  intros result. subst result. split; [|split].
  - intros Hmissing. unfold DataDir.postStudent.
    destruct Hmissing as [-> | Hn]; [done|].
    destruct (truthy (body_roll_no body)); [by rewrite Hn|done].
  - intros r n Hr Hn. unfold DataDir.postStudent. rewrite Hr, Hn. split.
    + intros Hdup. by rewrite (proj2 (existsb_roll r (DataDir.students st)) Hdup).
    + intros Hfresh.
      assert (Hexists : existsb (λ s, String.eqb (roll_no s) r) (DataDir.students st) = false).
      { apply not_true_iff_false. by rewrite existsb_roll. }
      rewrite Hexists. unfold DataDir.saveStudents, DataDir.nextWrite, rosterOnFile.
      cbn [DataDir.withStudents DataDir.students DataDir.writes DataDir.studentsFile].
      split; intros ->;
        cbn [fst snd DataDir.withStudents DataDir.students DataDir.studentsFile].
      * done.
      * by rewrite removelast_last.
  - intros requests. revert st.
    induction requests as [|req requests IH]; intros st Hmem Hfile; [done|].
    cbn [serve fold_left].
    destruct (handle_unique req st Hmem Hfile) as [Hmem' Hfile'].
    by apply IH.
Qed.

Lemma X23_datadir_addStudent_witness :
  DataDir.students (DataDir.postStudent aliceBody emptyState).2 = [mkStudent "001" "Alice" None]
  ∧ (DataDir.postStudent aliceBody (DataDir.postStudent aliceBody emptyState).2).1
    = mkResponse 400 (Message "Student with this Roll No already exists")
  ∧ DataDir.studentsFile
      (serve DataDir.handle
         [DataDir.PostStudent aliceBody; DataDir.PostStudent aliceBody;
          DataDir.DeleteStudent (false, true) "404"] emptyState)
    = Some [mkStudent "001" "Alice" None]
  ∧ NoDup
      (roll_no
         <$> DataDir.students
               (serve DataDir.handle
                  [DataDir.PostStudent aliceBody; DataDir.PostStudent aliceBody;
                   DataDir.DeleteStudent (false, true) "404"] emptyState)).
Proof.
  destruct (X23_datadir_addStudent aliceBody emptyState) as (_ & Hadd & Hunique).
  split.
  - destruct (Hadd "001"%string "Alice"%string eq_refl eq_refl) as [_ Hfresh].
    destruct Hfresh as [Hsaved _]; [apply not_elem_of_nil|].
    destruct (Hsaved eq_refl) as (_ & Hroster & _). exact Hroster.
  - split; [vm_compute; reflexivity|]. split; [vm_compute; reflexivity|].
    apply Hunique; [constructor|]. intros l Hl. discriminate Hl.
Defined.

(** ** The roster the first flat variant answers from *)
Section FlatRosterFacts.
Import Flat.
Context `{Collator}.
Implicit Types (w : World Att) (d : Document Att).

Lemma deref_mutate_valid data (g : Document Att → Document Att) w :
  (data < length (heap w))%nat → deref (mutate data g w) data = g (deref w data).
Proof.
  intros Hlt. unfold deref, mutate; cbn [heap]. rewrite list_lookup_alter.
  destruct (lookup_lt_is_Some_2 (heap w) data Hlt) as [d0 Hd0].
  rewrite decide_True by done. by rewrite Hd0.
Qed.

(** A load, whatever the write of a default file does. *)
Lemma loadDataCached_current w :
  cacheValid w →
  ∃ data, dataCache (loadDataCached w).2 = Some data
          ∧ (data < length (heap (loadDataCached w).2))%nat
          ∧ deref (loadDataCached w).2 data = currentDocument w
          ∧ ((loadDataCached w).1 = Some data ∨ (loadDataCached w).1 = None).
Proof.
  intros Hvalid. unfold loadDataCached, currentDocument.
  destruct (dataCache w) as [data|] eqn:Hdata.
  - exists data. cbn [fst snd]. split; [done|]. split; [by apply Hvalid|]. by split; [|left].
  - exists (length (heap w)). destruct w as [h c f ws t]; cbn in Hdata |- *.
    unfold storedDocument; cbn.
    destruct f; cbn; rewrite ?length_app; cbn;
      try (split; [done|]; split; [lia|]; split; [apply deref_fresh|by left]).
    unfold saveData, writeFile; cbn. rewrite deref_fresh.
    destruct (nextOutcome ws); cbn; rewrite ?length_app; cbn.
    + split; [done|]. split; [lia|]. split; [apply deref_fresh|by left].
    + split; [done|]. split; [lia|]. split; [apply deref_fresh|by right].
Qed.

(** An edit of the cached object followed by [saveData], whatever the write
    does. *)
Lemma saveData_current data (g : Document Att → Document Att) w1 :
  dataCache w1 = Some data → (data < length (heap w1))%nat →
  let w2 := (saveData data (mutate data g w1)).2 in
  cacheValid w2 ∧ currentDocument w2 = g (deref w1 data).
Proof.
  intros Hdata Hlt. cbv zeta.
  pose proof (deref_mutate_valid data g w1 Hlt) as Hderef.
  assert (Hlen : length (heap (mutate data g w1)) = length (heap w1)).
  { cbn [mutate heap]. apply length_alter. }
  unfold saveData, writeFile. rewrite Hderef.
  set (w := mutate data g w1) in *.
  assert (Hcache : dataCache w = Some data) by done.
  destruct (nextOutcome (writes w)); cbn [snd]; unfold cacheValid, currentDocument;
    cbn [dataCache heap]; rewrite ?Hcache.
  - split; [intros data' [= <-]; by rewrite Hlen|]. exact Hderef.
  - split; [intros data' [= <-]; by rewrite Hlen|]. exact Hderef.
Qed.

Lemma mutate_current data (g : Document Att → Document Att) w1 :
  dataCache w1 = Some data → (data < length (heap w1))%nat →
  cacheValid (mutate data g w1) ∧ currentDocument (mutate data g w1) = g (deref w1 data).
Proof.
  intros Hdata Hlt. unfold cacheValid, currentDocument. cbn [mutate dataCache heap].
  rewrite Hdata. split; [intros data' [= <-]; by rewrite length_alter|].
  by apply deref_mutate_valid.
Qed.

(** Whatever the writes do, a request leaves the document the server answers
    from as it was or makes one of the three edits on it. *)
Lemma handle_current req w :
  cacheValid w →
  let d := currentDocument w in
  let w' := (handle req w).2 in
  cacheValid w'
  ∧ (currentDocument w' = d
     ∨ (∃ newStudent, (roll_no newStudent ∉ (roll_no <$> students d))
          ∧ currentDocument w'
            = mkDocument (arraySort byRollNo (students d ++ [newStudent])) (attendance d))
     ∨ (∃ r, currentDocument w' = withoutStudentFlat r d)
     ∨ (∃ date entries, currentDocument w' = withFlatBucket date entries d)).
Proof.
  intros Hvalid d w'. subst d w'.
  destruct (loadDataCached_current w Hvalid) as (data & Hdata & Hlt & Hderef & Hresult).
  assert (Hloaded : cacheValid (loadDataCached w).2
                    ∧ currentDocument (loadDataCached w).2 = currentDocument w).
  { split.
    - intros data' Hdata'. rewrite Hdata in Hdata'. by injection Hdata' as <-.
    - unfold currentDocument at 1. by rewrite Hdata. }
  destruct Hloaded as [Hvalid1 Hcurrent1].
  destruct (loadDataCached w) as [result w1] eqn:Hload. cbn [fst snd] in *.
  destruct req as [|body|r| |date|date body|date]; cbn [handle].
  - unfold getStudents. rewrite Hload. destruct result; cbn [snd]; by split; [|left].
  - unfold postStudent.
    destruct (truthy (body_roll_no body)) as [r|]; [|by split; [|left]].
    destruct (truthy (body_name body)) as [n|]; [|by split; [|left]].
    rewrite Hload. destruct Hresult as [-> | ->]; [|by split; [|left]].
    rewrite Hderef.
    destruct (List.find _ _) eqn:Hfind; [by split; [|left]|].
    match goal with |- context [saveData data (mutate data ?g w1)] =>
      destruct (saveData_current data g w1 Hdata Hlt) as [Hv Hc] end.
    cbv zeta in Hv, Hc. rewrite Hderef in Hc.
    destruct (saveData _ _) as [[|] w3]; cbn [snd] in *;
      (split; [done|]); right; left; eexists; (split; [|exact Hc]);
      by apply find_roll_None.
  - unfold deleteStudent. rewrite Hload.
    destruct Hresult as [-> | ->]; [|by split; [|left]].
    rewrite (deref_mutate_valid data _ w1 Hlt), Hderef. cbn [students].
    destruct (_ =? _)%nat eqn:Hlen.
    + cbn [snd].
      match goal with |- context [mutate data ?g w1] =>
        destruct (mutate_current data g w1 Hdata Hlt) as [Hv Hc] end.
      split; [done|]. left. rewrite Hc, Hderef.
      apply Nat.eqb_eq, length_filter_eq in Hlen.
      rewrite filter_all by done. by destruct (currentDocument w).
    + rewrite mutate_mutate.
      match goal with |- context [saveData data (mutate data ?g w1)] =>
        destruct (saveData_current data g w1 Hdata Hlt) as [Hv Hc] end.
      cbv zeta in Hv, Hc. rewrite Hderef in Hc.
      destruct (saveData _ _) as [[|] w3]; cbn [snd] in *;
        (split; [done|]); right; right; left; by exists r.
  - unfold getAllAttendance. rewrite Hload. destruct result; cbn [snd]; by split; [|left].
  - unfold getAttendance. destruct (negb _); [by split; [|left]|].
    rewrite Hload. destruct result; cbn [snd]; by split; [|left].
  - unfold postAttendance. destruct (negb _); [by split; [|left]|].
    destruct body as [|attendanceList]; [by split; [|left]|].
    destruct (negb _); [by split; [|left]|].
    rewrite Hload. destruct Hresult as [-> | ->]; [|by split; [|left]].
    rewrite Hderef.
    match goal with |- context [saveData data (mutate data ?g w1)] =>
      destruct (saveData_current data g w1 Hdata Hlt) as [Hv Hc] end.
    cbv zeta in Hv, Hc. rewrite Hderef in Hc.
    destruct (saveData _ _) as [[|] w3]; cbn [snd] in *;
      (split; [done|]); right; right; right; by eexists _, _.
  - unfold printAttendance. destruct (negb _); [by split; [|left]|].
    rewrite Hload. destruct result; cbn [snd]; by split; [|left].
Qed.
End FlatRosterFacts.

(** X24.  The roster the first flat variant answers from stays well formed
    whatever the disk does.  Over any sequence of requests, writes failing
    or not, a cached roster without a duplicate roll number stays without
    one and a roster sorted by roll number stays sorted, although after a
    failed write the cache is ahead of the file; so [GET /api/students]
    never lists a roll number twice. *)
Theorem X24_cached_roster_stays_well_formed `{Collator} (requests : list Flat.Request)
    (w : World Flat.Att) :
  cacheValid w →
  uniqueRollNumbers (currentDocument w) →
  let w' := serve Flat.handle requests w in
  uniqueRollNumbers (currentDocument w')
  ∧ (rosterSorted (currentDocument w) → rosterSorted (currentDocument w'))
  ∧ (∀ roster, payload (Flat.getStudents w').1 = StudentList roster →
       NoDup (roll_no <$> roster)).
Proof.
  intros Hvalid Hunique w'.
  assert (Hinv : cacheValid w' ∧ uniqueRollNumbers (currentDocument w')
                 ∧ (rosterSorted (currentDocument w) → rosterSorted (currentDocument w'))).
  { subst w'. revert w Hvalid Hunique.
    induction requests as [|req requests IH]; intros w Hvalid Hunique; [done|].
    cbn [serve fold_left].
    destruct (handle_current req w Hvalid) as [Hvalid1 Hcases]. cbv zeta in Hvalid1, Hcases.
    assert (Hstep : uniqueRollNumbers (currentDocument (Flat.handle req w).2)
                    ∧ (rosterSorted (currentDocument w) →
                       rosterSorted (currentDocument (Flat.handle req w).2))).
    { destruct Hcases as [-> | [(s & Hs & ->) | [(r & ->) | (date & entries & ->)]]].
      - done.
      - split.
        + unfold uniqueRollNumbers; cbn [students]. rewrite arraySort_perm, fmap_app. cbn.
          rewrite <- Permutation_cons_append. by apply NoDup_cons.
        + intros _. apply roster_sorted_after_sort.
      - split.
        + by apply NoDup_fmap_filter.
        + apply StronglySorted_filter.
      - done. }
    destruct Hstep as [Hunique1 Hsorted1].
    destruct (IH _ Hvalid1 Hunique1) as (Hv & Hu & Hs).
    split; [done|]. split; [done|]. intros Hsorted. by apply Hs, Hsorted1. }
  destruct Hinv as (Hvalid' & Hunique' & Hsorted'). split; [done|]. split; [done|].
  intros roster. unfold Flat.getStudents.
  destruct (loadDataCached_current w' Hvalid') as (data & _ & _ & Hderef & Hresult).
  destruct (loadDataCached w') as [result w1]. cbn [fst snd] in *.
  destruct Hresult as [-> | ->]; cbn [fst payload]; [|done].
  intros [= <-]. by rewrite Hderef.
Qed.

Lemma X24_cached_roster_stays_well_formed_witness :
  uniqueRollNumbers
    (currentDocument
       (serve Flat.handle
          [Flat.PostStudent aliceBody; Flat.PostStudent aliceBody; Flat.DeleteStudent "002"]
          cachedFailingDisk)).
Proof.
  destruct (X24_cached_roster_stays_well_formed (H := codeUnitCollator)
              [Flat.PostStudent aliceBody; Flat.PostStudent aliceBody;
               Flat.DeleteStudent "002"]
              cachedFailingDisk) as (Hunique & _).
  - intros data Hdata. vm_compute in Hdata. injection Hdata as <-. vm_compute. lia.
  - unfold uniqueRollNumbers. apply (bool_decide_unpack _). vm_compute. exact I.
  - exact Hunique.
Defined.

(** ** A missing file and a missing key *)

(** X25.  [server.js] creates a missing [data.json] on the first request
    that loads.  When the file does not exist, a read route answers 200 with
    the empty document after one read and one write; the write, when it
    succeeds, leaves a file that holds the empty roster and the empty
    attendance object, and when it fails leaves no file, and the request is
    answered all the same.  A [POST /api/students] in that situation writes
    twice, and the student is stored when the second write succeeds. *)
Theorem X25_missing_file_is_created `{Collator} (w : World Nested.Att) :
  file w = NoFile →
  let ok := nextOutcome (writes w) in
  (Nested.getStudents w).1 = mkResponse 200 (StudentList [])
  ∧ trace (Nested.getStudents w).2 = trace w ++ [ReadFile; WriteFile ok]
  ∧ file (Nested.getStudents w).2 = (if ok then JsonObject (Some []) (Some ∅) else NoFile)
  ∧ (∀ body r n,
       truthy (body_roll_no body) = Some r →
       truthy (body_name body) = Some n →
       let newStudent := mkStudent r n (Some (orElse (body_course body) "N/A")) in
       let ok' := nextOutcome (tail (writes w)) in
       let result := Nested.postStudent body w in
       trace result.2 = trace w ++ [ReadFile; WriteFile ok; WriteFile ok']
       ∧ (ok' = true →
          result.1 = mkResponse 201 (StudentRecord newStudent)
          ∧ file result.2 = JsonObject (Some [newStudent]) (Some ∅))).
Proof.
  intros Hfile ok.
  assert (Hstored : storedDocument w = emptyDocument).
  { unfold storedDocument. by rewrite Hfile. }
  assert (Hloaded : trace (loaded w) = trace w ++ [ReadFile; WriteFile ok]
                    ∧ file (loaded w) = (if ok then JsonObject (Some []) (Some ∅) else NoFile)
                    ∧ writes (loaded w) = tail (writes w)).
  { unfold loaded; cbn [trace file writes]. rewrite Hfile. cbn [andb].
    split; [done|]. split; [|done]. by destruct (nextOutcome (writes w)). }
  destruct Hloaded as (Htrace & Hfile' & Hwrites).
  split; [|split; [|split]].
  - unfold Nested.getStudents. load_step. cbn [fst]. by rewrite Hstored.
  - unfold Nested.getStudents. load_step. by cbn [snd].
  - unfold Nested.getStudents. load_step. by cbn [snd].
  - intros body r n Hr Hn newStudent ok' result. subst result.
    rewrite (postStudent_closed body w r n Hr Hn). cbv zeta.
    rewrite Hstored, Hwrites. cbn [emptyDocument students List.find]. fold ok'.
    split.
    + cbn [snd]. unfold committed; cbn [trace].
      by rewrite Htrace, Hwrites, <- app_assoc.
    + intros Hok'. rewrite Hok'. cbn [fst snd]. split; [done|].
      unfold committed; cbn [file]. rewrite Hwrites. fold ok'. by rewrite Hok'.
Qed.

Lemma X25_missing_file_is_created_witness :
  file (Nested.getStudents (freshProcess NoFile [])).2 = JsonObject (Some []) (Some ∅)
  ∧ file (Nested.getStudents (freshProcess NoFile [false])).2 = NoFile.
Proof.
  split.
  - destruct (X25_missing_file_is_created (H := codeUnitCollator) (freshProcess NoFile []))
      as (_ & _ & Hfile & _); [reflexivity|]. exact Hfile.
  - destruct (X25_missing_file_is_created (H := codeUnitCollator)
                (freshProcess NoFile [false]))
      as (_ & _ & Hfile & _); [reflexivity|]. exact Hfile.
Defined.


(** X26.  A [GET] of a day that was never recorded answers the empty list,
    not an error.  In [server.js], for a well-formed date and a non-empty
    subject, the answer is 200 with the list that the lookup of the subject
    and then of the date finds.  When nothing was left on the objects that
    the attendance object inherits from, that list is the stored bucket,
    and the empty list when the attendance object has no key for the
    subject or no key for the date under it.  Likewise the third unnamed
    source and, when no write fails, the first flat variant answer 200 with
    the empty list for a well-formed date without a key. *)
Theorem X26_unrecorded_day_reads_as_empty (subject date : string)
    (p : Nested.Process) (wf : World Flat.Att) (wr : World Reread.Att) :
  dateRegex date = true →
  subject ≠ ""%string →
  let a := attendance (storedDocument p.1) in
  ((Nested.getAttendance subject date p).1
   = mkResponse 200 (EntryList (Nested.listed p.2 a subject date))
   ∧ (untouched p.2 →
      (Nested.getAttendance subject date p).1
      = mkResponse 200
          (EntryList (default [] (a !! subject ≫= λ byDate, byDate !! date)))
      ∧ (a !! subject = None →
         (Nested.getAttendance subject date p).1 = mkResponse 200 (EntryList []))
      ∧ (∀ byDate, a !! subject = Some byDate → byDate !! date = None →
                   (Nested.getAttendance subject date p).1 = mkResponse 200 (EntryList []))))
  ∧ (attendance (storedDocument wr) !! date = None →
     (Reread.getAttendance date wr).1 = mkResponse 200 (EntryList []))
  ∧ (reliable wf → attendance (currentDocument wf) !! date = None →
     (Flat.getAttendance date wf).1 = mkResponse 200 (EntryList [])).
Proof.
  intros Hdate Hsubject a.
  assert (Hnested : (Nested.getAttendance subject date p).1
                    = mkResponse 200 (EntryList (Nested.listed p.2 a subject date))).
  { rewrite getAttendance_response, Hdate.
    apply String.eqb_neq in Hsubject. by rewrite Hsubject. }
  split; [|split].
  - split; [done|]. intros Hrealm. rewrite Hnested, listed_untouched by done.
    unfold Nested.bucket. split; [done|]. split.
    + by intros ->.
    + intros byDate -> Hnone. cbn. by rewrite Hnone.
  - intros Hnone. rewrite getAttendance_reread_response, Hdate. cbn [negb].
    unfold Reread.bucket. by rewrite Hnone.
  - intros Hwf Hnone. rewrite getAttendance_flat_response by done. rewrite Hdate. cbn [negb].
    unfold Flat.bucket. by rewrite Hnone.
Qed.

Lemma X26_unrecorded_day_reads_as_empty_witness :
  (Nested.getAttendance "Chemistry" "2024-01-01" (twoDates, Nested.pristine)).1
  = mkResponse 200 (EntryList [])
  ∧ (Nested.getAttendance "Physics" "2024-02-29" (twoDates, Nested.pristine)).1
    = mkResponse 200 (EntryList [])
  ∧ (Nested.getAttendance "toString" "2024-01-01" (twoDates, Nested.pristine)).1
    = mkResponse 200 (EntryList [])
  ∧ (Nested.getAttendance "Physics" "2024-01-02" (twoDates, Nested.pristine)).1
    = mkResponse 200 (EntryList [marked "S001" "absent" "Asha"]).
Proof.
  split; [|split].
  - destruct (X26_unrecorded_day_reads_as_empty "Chemistry" "2024-01-01"
                (twoDates, Nested.pristine) flatOneStudent flatOneStudent)
      as ((_ & Hstored) & _).
    + reflexivity.
    + discriminate.
    + destruct Hstored as (_ & Hsubject & _); [split; reflexivity|].
      apply Hsubject. reflexivity.
  - destruct (X26_unrecorded_day_reads_as_empty "Physics" "2024-02-29"
                (twoDates, Nested.pristine) flatOneStudent flatOneStudent)
      as ((_ & Hstored) & _).
    + reflexivity.
    + discriminate.
    + destruct Hstored as (_ & _ & Hday); [split; reflexivity|].
      eapply Hday; reflexivity.
  - split; vm_compute; reflexivity.
Defined.
